(** * Recipe application: shallow embedding and verification

    The development follows the TypeScript sources:
    - [recipes/page.tsx]            (list page,   module [RecipesPage]),
    - [recipes/[recipeId]/page.tsx] (detail page, modules [RecipeDetailPage]
                                     and [RecipeDetailServer]),
    - [recipes/new/page.tsx]        (creation form, module [AddRecipePage]),
    - [contexts/authContext.tsx]    (session store, module [AuthContext]).

    JavaScript values are embedded as the inductive [jsval]; numbers are IEEE
    binary64 values (Rocq's primitive [float]), objects are finite maps from
    property names to values, and code that may throw lives in the exception
    monad [Completion]. *)

From Stdlib Require Import ZArith QArith Qreduction String Ascii List Bool.
From Stdlib Require Import PrimFloat.
From stdpp Require Import base option gmap strings.
Import ListNotations.
Close Scope Q_scope.

Set Warnings "-register-all".
#[local] Open Scope string_scope.

(** ** Binary64 arithmetic on exact values *)

Module Binary64.

(** A finite binary64 number is kept as the rational it denotes. Rounding
    is to nearest, ties to even, on a 53-bit significand; the exponent
    range is not modelled, so this is binary64 arithmetic wherever neither
    overflow nor a subnormal result occurs. *)

(** The integer part of the binary logarithm of [n / d], for positive [n]
    and [d]. *)
Definition ilog2 (n d : Z) : Z :=
  let c := (Z.log2 n - Z.log2 d)%Z in
  if (if 0 <=? c then d * 2 ^ c <=? n else d <=? n * 2 ^ (- c))%Z
  then c else (c - 1)%Z.

(** The integer nearest to [n / d], the even one of the two when [n / d]
    is half-way, for [n] not negative and [d] positive. *)
Definition nearest_even (n d : Z) : Z :=
  let q := (n / d)%Z in
  let r := (n mod d)%Z in
  if (2 * r <? d)%Z then q
  else if (d <? 2 * r)%Z then (q + 1)%Z
  else if Z.even q then q else (q + 1)%Z.

(** The binary64 number nearest to [n / d], for positive [n] and [d]: the
    significand is [n / d] scaled into [2^52, 2^53) and rounded. *)
Definition round_pos (n d : Z) : Q :=
  let e := (ilog2 n d - 52)%Z in
  if (0 <=? e)%Z
  then inject_Z (nearest_even n (d * 2 ^ e) * 2 ^ e)
  else Qmake (nearest_even (n * 2 ^ (- e)) d) (Z.to_pos (2 ^ (- e))).

(** The binary64 number nearest to a rational. *)
Definition round (q : Q) : Q :=
  match Qred q with
  | Qmake (Zpos n) d => round_pos (Zpos n) (Zpos d)
  | Qmake (Zneg n) d => Qopp (round_pos (Zpos n) (Zpos d))
  | Qmake Z0 _ => inject_Z 0
  end.

(** The binary64 operations used below. *)
Definition mul (a b : Q) : Q := round (Qmult a b).
Definition div (a b : Q) : Q := round (Qdiv a b).
Definition add (a b : Q) : Q := round (Qplus a b).

(** ToIntegerOrInfinity on a finite number: the fraction is dropped. *)
Definition trunc (q : Q) : Z := Z.quot (Qnum q) (Zpos (Qden q)).

End Binary64.

(** ** Firestore timestamps *)

Module FirestoreTimestamp.

(** The bounds the constructor of [Timestamp] checks: [seconds] from
    0001-01-01 up to, not including, 10000-01-01, and [nanoseconds] below
    one second. Every [Timestamp] object satisfies them. *)
Definition MIN_SECONDS : Z := (-62135596800)%Z.
Definition MAX_SECONDS : Z := 253402300800%Z.

Definition in_range (seconds nanoseconds : Z) : bool :=
  ((MIN_SECONDS <=? seconds) && (seconds <? MAX_SECONDS)
   && (0 <=? nanoseconds) && (nanoseconds <? 1000000000))%Z.

(** [toMillis()]: [this.seconds * 1000 + this.nanoseconds / 1e6], in
    binary64. *)
Definition toMillis (seconds nanoseconds : Z) : Q :=
  Binary64.add (Binary64.mul (inject_Z seconds) (inject_Z 1000))
    (Binary64.div (inject_Z nanoseconds) (inject_Z 1000000)).

(** The time value of [toDate()], which is [new Date(this.toMillis())]:
    the constructor of [Date] drops the fraction of its argument. Within
    the bounds of [in_range] the argument is inside the range of [Date]. *)
Definition toDate_time (seconds nanoseconds : Z) : Z :=
  Binary64.trunc (toMillis seconds nanoseconds).

(** [Timestamp.fromDate(date)], which is how the store keeps a [Date]:
    [seconds = Math.floor(ms / 1000)] and [nanoseconds = Math.floor((ms -
    seconds * 1000) * 1e6)], both exact on the integral time value of a
    [Date]; the constructor throws when [seconds] is out of bounds. *)
Definition fromDate (ms : Z) : option (Z * Z) :=
  let seconds := (ms / 1000)%Z in
  let nanoseconds := ((ms - seconds * 1000) * 1000000)%Z in
  if in_range seconds nanoseconds then Some (seconds, nanoseconds) else None.

End FirestoreTimestamp.

(** ** JavaScript values *)

Module JS.

(** The values a schemaless Firestore document can hold, as the code sees
    them. [JTimestamp] is an instance of Firestore's [Timestamp] class,
    [JDate] a JavaScript [Date] (milliseconds since the epoch). *)
Inductive jsval : Type :=
  | JUndefined
  | JNull
  | JBool (b : bool)
  | JNum (x : float)
  | JStr (s : string)
  | JArr (l : list jsval)
  | JObj (o : gmap string jsval)
  | JTimestamp (seconds nanoseconds : Z)
  | JDate (ms : Z).

(** ToBoolean on a number: [+0], [-0] and [NaN] are falsy. *)
Definition num_truthy (x : float) : bool :=
  negb (PrimFloat.eqb x 0 || PrimFloat.is_nan x).

(** ToBoolean on a string: only the empty string is falsy. *)
Definition str_truthy (s : string) : bool :=
  match s with
  | EmptyString => false
  | String _ _ => true
  end.

(** ToBoolean. *)
Definition truthy (v : jsval) : bool :=
  match v with
  | JUndefined | JNull => false
  | JBool b => b
  | JNum x => num_truthy x
  | JStr s => str_truthy s
  | JArr _ | JObj _ | JTimestamp _ _ | JDate _ => true
  end.

(** [v == null]: the test behind [??] and [?.]. *)
Definition nullish (v : jsval) : bool :=
  match v with
  | JUndefined | JNull => true
  | _ => false
  end.

(** [a || b] *)
Definition or_else (a b : jsval) : jsval := if truthy a then a else b.

(** [a ?? b] *)
Definition coalesce (a b : jsval) : jsval := if nullish a then b else a.

(** [a === b] where [a] is known to be a string. *)
Definition strict_eq_str (a : string) (b : jsval) : bool :=
  match b with
  | JStr s => String.eqb a s
  | _ => false
  end.

(** [v instanceof Timestamp] *)
Definition instanceof_Timestamp (v : jsval) : bool :=
  match v with
  | JTimestamp _ _ => true
  | _ => false
  end.

(** The values [data()] of a document snapshot can hold: null, booleans,
    numbers, strings, [Timestamp] objects, and arrays and maps of such.
    There is no [undefined] and no [Date] among them: the store keeps a
    [Date] as a timestamp and gives back a [Timestamp]. *)
Inductive from_store : jsval -> Prop :=
  | from_store_null : from_store JNull
  | from_store_bool b : from_store (JBool b)
  | from_store_num x : from_store (JNum x)
  | from_store_str s : from_store (JStr s)
  | from_store_timestamp s ns :
      FirestoreTimestamp.in_range s ns = true -> from_store (JTimestamp s ns)
  | from_store_arr l : List.Forall from_store l -> from_store (JArr l)
  | from_store_obj o :
      map_Forall (fun _ v => from_store v) o -> from_store (JObj o).

(** A raw document: what [doc.data()] returns for a document that
    exists. *)
Definition raw_document (d : gmap string jsval) : Prop :=
  map_Forall (fun _ v => from_store v) d.

(** What a running piece of code can throw. *)
Inductive exn : Type :=
  | TypeError (msg : string)
  | NextNotFound
  | FirebaseError (msg : string).

(** Either a normal completion with a value or an abrupt one. *)
Inductive Completion (A : Type) : Type :=
  | Normal (a : A)
  | Throw (e : exn).
Arguments Normal {A} a.
Arguments Throw {A} e.

Definition bind {A B} (c : Completion A) (k : A -> Completion B)
  : Completion B :=
  match c with
  | Normal a => k a
  | Throw e => Throw e
  end.

(** The value of property [key] of an object: [undefined] when the object
    has no such property. *)
Definition field (o : gmap string jsval) (key : string) : jsval :=
  default JUndefined (o !! key).

(** Property read [base.key]: throws on [undefined] and [null]. Properties
    of the other primitives are not used by the program and read as
    [undefined]. *)
Definition get (base : jsval) (key : string) : Completion jsval :=
  match base with
  | JUndefined | JNull =>
      Throw (TypeError ("Cannot read properties of undefined (reading '"
                          ++ key ++ "')"))
  | JObj o => Normal (field o key)
  | _ => Normal JUndefined
  end.

(** Optional chaining [base?.key]. *)
Definition get_opt (base : jsval) (key : string) : Completion jsval :=
  if nullish base then Normal JUndefined else get base key.

(** Method call [v.toDate()]: defined on [Timestamp] instances, where it
    yields the [Date] whose time value is the timestamp's [toMillis()]
    without its fraction. *)
Definition toDate (v : jsval) : Completion jsval :=
  match v with
  | JTimestamp s ns =>
      Normal (JDate (FirestoreTimestamp.toDate_time s ns))
  | JUndefined | JNull =>
      Throw (TypeError "Cannot read properties of undefined (reading 'toDate')")
  | _ => Throw (TypeError "toDate is not a function")
  end.

End JS.
Import JS.

#[global] Instance Completion_ret : MRet Completion := @Normal.
#[global] Instance Completion_bind : MBind Completion :=
  fun A B k c => JS.bind c k.

(** ** Data model shared by the read paths *)

Module Recipe.

(** The [Recipe] object the read paths build. Every field but [id] holds
    whatever the expression on the right of its colon evaluates to: the [as]
    casts of the source do nothing at run time. *)
Record t : Type := mk {
  id : string;
  name : jsval;
  ingredients : jsval;
  instructions : jsval;
  cookingTime : jsval;
  servings : jsval;
  userId : jsval;
  imageUrl : jsval;
  categories : jsval;
  createdAt : jsval
}.

(** No field that the read paths default is [null] or [undefined]. *)
Definition populated (r : t) : Prop :=
  nullish (name r) = false /\ nullish (ingredients r) = false
  /\ nullish (instructions r) = false /\ nullish (cookingTime r) = false
  /\ nullish (servings r) = false /\ nullish (userId r) = false
  /\ nullish (imageUrl r) = false /\ nullish (categories r) = false.

(** Every field the document lacks holds its documented default. *)
Definition defaults_filled (d : gmap string jsval) (r : t) : Prop :=
  (d !! "name" = None -> name r = JStr "Untitled Recipe")
  /\ (d !! "ingredients" = None -> ingredients r = JArr [])
  /\ (d !! "instructions" = None -> instructions r = JArr [])
  /\ (d !! "cookingTime" = None -> cookingTime r = JNum 0)
  /\ (d !! "servings" = None -> servings r = JNum 0)
  /\ (d !! "userId" = None -> userId r = JStr "unknown")
  /\ (d !! "imageUrl" = None -> imageUrl r = JStr "")
  /\ (d !! "categories" = None -> categories r = JArr []).

(** How the store keeps a value it is given: a [Date] becomes the
    [Timestamp] of [Timestamp.fromDate], and the write is refused when that
    is out of bounds; any value of a raw document is kept as it is. *)
Definition stored_value (v : jsval) : option jsval :=
  match v with
  | JDate ms =>
      match FirestoreTimestamp.fromDate ms with
      | Some (seconds, nanoseconds) => Some (JTimestamp seconds nanoseconds)
      | None => None
      end
  | _ => Some v
  end.

(** A property with value [undefined] is not part of a document. *)
Definition put (key : string) (v : jsval) (d : gmap string jsval)
  : gmap string jsval :=
  match v with
  | JUndefined => d
  | _ => <[key := v]> d
  end.

(** The document equivalent to a [Recipe] object: what the store gives
    back for the object's fields, [None] when the store refuses them. The
    store-assigned [id] travels beside the document, not inside it. *)
Definition stored_doc (r : t) : option (gmap string jsval) :=
  name_ ← stored_value (name r);
  ingredients_ ← stored_value (ingredients r);
  instructions_ ← stored_value (instructions r);
  cookingTime_ ← stored_value (cookingTime r);
  servings_ ← stored_value (servings r);
  userId_ ← stored_value (userId r);
  imageUrl_ ← stored_value (imageUrl r);
  categories_ ← stored_value (categories r);
  createdAt_ ← stored_value (createdAt r);
  Some (put "name" name_ (put "ingredients" ingredients_
       (put "instructions" instructions_ (put "cookingTime" cookingTime_
       (put "servings" servings_ (put "userId" userId_
       (put "imageUrl" imageUrl_ (put "categories" categories_
       (put "createdAt" createdAt_ ∅))))))))).

(** The nine properties the read paths read. *)
Definition read_keys : list string :=
  ["name"; "ingredients"; "instructions"; "cookingTime"; "servings";
   "userId"; "imageUrl"; "categories"; "createdAt"].

(** The [Ingredient] and [Recipe] interfaces of the two pages as tests on
    run-time values. TypeScript does not check them when the program runs:
    a schemaless document can give a [Recipe] object that fails them. *)
Definition is_string (v : jsval) : bool :=
  match v with
  | JStr _ => true
  | _ => false
  end.

Definition is_number (v : jsval) : bool :=
  match v with
  | JNum _ => true
  | _ => false
  end.

Definition is_array_of (item : jsval -> bool) (v : jsval) : bool :=
  match v with
  | JArr l => forallb item l
  | _ => false
  end.

(** An optional property [key?: T]. *)
Definition is_optional (type : jsval -> bool) (v : jsval) : bool :=
  match v with
  | JUndefined => true
  | _ => type v
  end.

(** [interface Ingredient {name: string; quantity: number; unit: string}] *)
Definition is_Ingredient (v : jsval) : bool :=
  match v with
  | JObj o =>
      is_string (field o "name") && is_number (field o "quantity")
      && is_string (field o "unit")
  | _ => false
  end.

(** The properties the [Recipe] interfaces of the list page and of the
    detail page share. *)
Definition is_Recipe (r : t) : bool :=
  is_string (name r)
  && is_array_of is_Ingredient (ingredients r)
  && is_array_of is_string (instructions r)
  && is_number (cookingTime r)
  && is_number (servings r)
  && is_string (userId r)
  && is_optional is_string (imageUrl r)
  && is_optional (is_array_of is_string) (categories r).

End Recipe.

(** A document snapshot as [getDoc] resolves it: [data] is [None] when the
    document does not exist. *)
Record DocumentSnapshot : Type := mkSnapshot {
  snap_id : string;
  snap_data : option (gmap string jsval)
}.

(** [docSnap.exists()] *)
Definition snap_exists (docSnap : DocumentSnapshot) : bool :=
  match snap_data docSnap with
  | Some _ => true
  | None => false
  end.

(** [docSnap.data()] *)
Definition snap_data_val (docSnap : DocumentSnapshot) : jsval :=
  match snap_data docSnap with
  | Some o => JObj o
  | None => JUndefined
  end.

(** [notFound()] of next/navigation: always throws. *)
Definition notFound {A : Type} : Completion A := Throw NextNotFound.

(** ** What the JSX of the two recipe pages evaluates *)

Module JSX.

(** What the outcome of a page depends on outside the repository's code:
    the language's [v > 0] on an operand that is a string or an object (it
    goes through ToPrimitive and ToNumber, and can throw), and whether the
    [Image] component of next/image mounts for a [src] and an [alt]. Both
    are functions of their arguments; nothing more is assumed of them. *)
Record Platform : Type := mkPlatform {
  gt_zero_coerced : jsval -> Completion bool;
  Image_mounts : jsval -> jsval -> bool
}.

(** The value of [v.length]: a natural number where the language defines
    the property (strings and arrays), the own property of an object,
    [undefined] on the other values. *)
Inductive Length : Type :=
  | Len (n : nat)
  | LenValue (v : jsval).

(** [v.length] *)
Definition length_of (v : jsval) : Completion Length :=
  match v with
  | JUndefined | JNull =>
      Throw (TypeError "Cannot read properties of undefined (reading 'length')")
  | JStr s => Normal (Len (String.length s))
  | JArr l => Normal (Len (List.length l))
  | JObj o => Normal (LenValue (field o "length"))
  | JBool _ | JNum _ | JTimestamp _ _ | JDate _ => Normal (LenValue JUndefined)
  end.

(** [len === 0] *)
Definition strict_eq_zero (len : Length) : bool :=
  match len with
  | Len n => Nat.eqb n 0
  | LenValue (JNum x) => PrimFloat.eqb x 0
  | LenValue _ => false
  end.

(** [len > 0]: [undefined] compares as NaN, [null] as 0, a boolean as 0
    or 1. *)
Definition gt_zero (P : Platform) (len : Length) : Completion bool :=
  match len with
  | Len n => Normal (Nat.ltb 0 n)
  | LenValue JUndefined | LenValue JNull => Normal false
  | LenValue (JBool b) => Normal b
  | LenValue (JNum x) => Normal (PrimFloat.ltb 0 x)
  | LenValue v => gt_zero_coerced P v
  end.

(** [v.map(callback)]: only arrays have the method; the values of a
    document hold no function, so an object's own [map] property cannot be
    called either. *)
Definition array_map {A : Type} (v : jsval)
    (callback : jsval -> Completion A) : Completion (list A) :=
  match v with
  | JUndefined | JNull =>
      Throw (TypeError "Cannot read properties of undefined (reading 'map')")
  | JArr l => mapM callback l
  | _ => Throw (TypeError "map is not a function")
  end.

(** [Array.isArray(v)] *)
Definition is_array (v : jsval) : bool :=
  match v with
  | JArr _ => true
  | _ => false
  end.

(** The children of one [<li>] of the ingredient list:
    [{ing.quantity} {ing.unit} {ing.name}]. *)
Record IngredientLine : Type := mkIngredientLine {
  quantity : jsval;
  unit : jsval;
  name : jsval
}.

Definition ingredient_line (ing : jsval) : Completion IngredientLine :=
  quantity_ ← get ing "quantity";
  unit_ ← get ing "unit";
  name_ ← get ing "name";
  Normal {| quantity := quantity_; unit := unit_; name := name_ |}.

(** [{recipe.imageUrl && <Image src={recipe.imageUrl}
    alt={recipe.name} ... />}]: the [src] and [alt] of the element, when
    there is one. *)
Definition image (r : Recipe.t) : option (jsval * jsval) :=
  if truthy (Recipe.imageUrl r)
  then Some (Recipe.imageUrl r, Recipe.name r)
  else None.

(** [{recipe.categories && recipe.categories.length > 0 && (...
    recipe.categories.map(...) ...)}]: the categories of the block, none
    when the block is left out. *)
Definition categories_block (P : Platform) (r : Recipe.t)
  : Completion (list jsval) :=
  if truthy (Recipe.categories r)
  then (len ← length_of (Recipe.categories r);
        nonempty ← gt_zero P len;
        if (nonempty : bool) then array_map (Recipe.categories r) Normal
        else Normal [])
  else Normal [].

(** React, given a value as a child of an element: strings and numbers are
    text, booleans, [null] and [undefined] are nothing, an array is taken
    item by item, and any other object is refused ("Objects are not valid
    as a React child"). *)
Fixpoint renderable (v : jsval) : bool :=
  match v with
  | JObj _ | JTimestamp _ _ | JDate _ => false
  | JArr l => forallb renderable l
  | JUndefined | JNull | JBool _ | JNum _ | JStr _ => true
  end.

Definition line_renderable (line : IngredientLine) : bool :=
  renderable (quantity line) && renderable (unit line)
  && renderable (name line).

Definition image_mounts (P : Platform) (i : option (jsval * jsval)) : bool :=
  match i with
  | Some (src, alt) => Image_mounts P src alt
  | None => true
  end.

End JSX.

(** ** recipes/page.tsx *)

Module RecipesPage.

Record State : Type := mkState {
  recipes : list Recipe.t;
  loading : bool;
  error : option string
}.

Definition initial : State :=
  {| recipes := []; loading := true; error := None |}.

Definition setRecipes (l : list Recipe.t) (st : State) : State :=
  {| recipes := l; loading := loading st; error := error st |}.
Definition setLoading (b : bool) (st : State) : State :=
  {| recipes := recipes st; loading := b; error := error st |}.
Definition setError (e : option string) (st : State) : State :=
  {| recipes := recipes st; loading := loading st; error := e |}.

(** The arrow function given to [querySnapshot.docs.map]. [doc_id] is
    [doc.id] and [d] the object returned by [doc.data()]. *)
Definition mapDoc (doc_id : string) (d : gmap string jsval)
  : Completion Recipe.t :=
  let data := JObj d in
  name_ ← get data "name";
  ingredients_ ← get data "ingredients";
  instructions_ ← get data "instructions";
  cookingTime_ ← get data "cookingTime";
  servings_ ← get data "servings";
  userId_ ← get data "userId";
  imageUrl_ ← get data "imageUrl";
  categories_ ← get data "categories";
  createdAt_ ← get data "createdAt";
  created ← (if instanceof_Timestamp createdAt_
             then (c ← get data "createdAt"; toDate c)
             else Normal JUndefined);
  Normal {| Recipe.id := doc_id;
            Recipe.name := or_else name_ (JStr "Untitled Recipe");
            Recipe.ingredients := or_else ingredients_ (JArr []);
            Recipe.instructions := or_else instructions_ (JArr []);
            Recipe.cookingTime := coalesce cookingTime_ (JNum 0);
            Recipe.servings := coalesce servings_ (JNum 0);
            Recipe.userId := or_else userId_ (JStr "unknown");
            Recipe.imageUrl := or_else imageUrl_ (JStr "");
            Recipe.categories := or_else categories_ (JArr []);
            Recipe.createdAt := created |}.

(** [fetchRecipes]: [getDocs] is what awaiting the collection scan gives,
    the documents in store order or the store's rejection. *)
Definition fetchRecipes
    (getDocs : Completion (list (string * gmap string jsval)))
    (st : State) : State :=
  let st1 := setLoading true st in
  let body :=
    querySnapshot ← getDocs;
    mapM (fun doc => mapDoc (fst doc) (snd doc)) querySnapshot in
  let st2 :=
    match body with
    | Normal recipesList => setRecipes recipesList st1
    | Throw _ =>
        setError (Some "Failed to loead recipes. Please try again later.") st1
    end in
  setLoading false st2.

(** One card of the grid: what the arrow function given to [recipes.map]
    puts into the elements it returns. *)
Record Card : Type := mkCard {
  href : string;
  image : option (jsval * jsval);
  title : jsval;
  servings : jsval;
  cookingTime : jsval;
  ingredients : list JSX.IngredientLine;
  instructions : list jsval;
  categories : list jsval;
  createdBy : jsval
}.

(** The arrow function given to [recipes.map], in the order the JSX is
    evaluated. Nothing guards the two [.map] calls on [ingredients] and
    [instructions]. *)
Definition card (P : JSX.Platform) (r : Recipe.t) : Completion Card :=
  ingredients_ ← JSX.array_map (Recipe.ingredients r) JSX.ingredient_line;
  instructions_ ← JSX.array_map (Recipe.instructions r) Normal;
  categories_ ← JSX.categories_block P r;
  Normal {| href := "/recipes/" ++ Recipe.id r;
            image := JSX.image r;
            title := Recipe.name r;
            servings := Recipe.servings r;
            cookingTime := Recipe.cookingTime r;
            ingredients := ingredients_;
            instructions := instructions_;
            categories := categories_;
            createdBy := Recipe.userId r |}.

(** What the component returns: the loading line, the error line, the
    "No recipes found" line, or one card per recipe. *)
Inductive View : Type :=
  | LoadingView
  | ErrorView (msg : string)
  | EmptyView
  | GridView (cards : list Card).

(** The component function: the element it returns, or what it throws. *)
Definition render (P : JSX.Platform) (st : State) : Completion View :=
  if loading st then Normal LoadingView
  else match error st with
       | Some (String _ _ as msg) => Normal (ErrorView msg)
       | _ =>
           match recipes st with
           | [] => Normal EmptyView
           | _ =>
               cards ← mapM (card P) (recipes st);
               Normal (GridView cards)
           end
       end.

(** Whether React can mount a card: the [Image] mounts and every value
    placed as a child is renderable. *)
Definition card_mounts (P : JSX.Platform) (c : Card) : bool :=
  JSX.image_mounts P (image c)
  && JSX.renderable (title c)
  && JSX.renderable (servings c)
  && JSX.renderable (cookingTime c)
  && forallb JSX.line_renderable (ingredients c)
  && forallb JSX.renderable (instructions c)
  && forallb JSX.renderable (categories c)
  && JSX.renderable (createdBy c).

(** Whether the page is on screen: the component returned an element and
    React mounted it. *)
Definition displayed (P : JSX.Platform) (c : Completion View) : bool :=
  match c with
  | Normal (GridView cards) => forallb (card_mounts P) cards
  | Normal _ => true
  | Throw _ => false
  end.

End RecipesPage.

(** ** contexts/authContext.tsx *)

Module AuthContext.

(** The part of Firebase's [User] the program reads. *)
Record User : Type := mkUser {
  uid : string;
  email : option string
}.

(** The React state of [AuthProvider], which is also the context value the
    pages read through [useAuth]. *)
Record State : Type := mkState {
  currentUser : option User;
  loading : bool
}.

(** [useState<User | null>(null)] and [useState(true)]. *)
Definition initial : State := {| currentUser := None; loading := true |}.

(** What can happen to a mounted [AuthProvider]: the identity provider
    delivers a session through the [onAuthStateChanged] callback, or a page
    calls one of the three operations of the context. *)
Inductive Event : Type :=
  | AuthStateChanged (user : option User)
  | SignupCalled
  | LoginCalled
  | LogoutCalled.

(** The callback runs [setCurrentUser(user); setLoading(false)]; [signup],
    [login] and [logout] call no state setter. *)
Definition step (st : State) (ev : Event) : State :=
  match ev with
  | AuthStateChanged user => {| currentUser := user; loading := false |}
  | SignupCalled | LoginCalled | LogoutCalled => st
  end.

Definition run (evs : list Event) : State := fold_left step evs initial.

Definition is_callback (ev : Event) : bool :=
  match ev with
  | AuthStateChanged _ => true
  | _ => false
  end.

(** The three session states of the specification, read off the pair
    ([currentUser], [loading]). *)
Inductive Session : Type :=
  | Unresolved
  | Anonymous
  | Authenticated (identity : User).

Definition session_of (st : State) : Session :=
  if loading st then Unresolved
  else match currentUser st with
       | None => Anonymous
       | Some u => Authenticated u
       end.

(** *** The world [signup], [login] and [logout] act on *)

(** The identity provider's current session, the document store, and the
    console. *)
Record World : Type := mkWorld {
  provider_session : option User;
  documents : gmap (string * string) (gmap string jsval);
  console : list (string * exn)
}.

(** A computation that reads and writes the world and may throw. *)
Definition Eff (A : Type) : Type := World -> Completion A * World.

Definition eff_ret {A} (a : A) : Eff A := fun w => (Normal a, w).
Definition eff_bind {A B} (c : Eff A) (k : A -> Eff B) : Eff B :=
  fun w => match c w with
           | (Normal a, w') => k a w'
           | (Throw e, w') => (Throw e, w')
           end.
Definition throw {A} (e : exn) : Eff A := fun w => (Throw e, w).
Definition try_catch {A} (body : Eff A) (handler : exn -> Eff A) : Eff A :=
  fun w => match body w with
           | (Normal a, w') => (Normal a, w')
           | (Throw e, w') => handler e w'
           end.
Definition console_error (label : string) (e : exn) : Eff () :=
  fun w => (Normal tt,
            {| provider_session := provider_session w;
               documents := documents w;
               console := console w ++ [(label, e)] |}).

(** How the two external services answer. The identity provider decides
    whether an account is created or a credential accepted; the store
    decides whether a write is accepted. *)
Record Backend : Type := mkBackend {
  create_answer : string -> string -> Completion User;
  signIn_answer : string -> string -> Completion User;
  signOut_answer : option exn;
  setDoc_answer : string -> string -> gmap string jsval -> option exn
}.

(** Modelled from the spec: the identity provider is an external service;
    section 4.1 says that on success the provider begins a new session, and
    that a rejection fails with the provider's error. *)
Definition createUserWithEmailAndPassword (B : Backend)
    (email_ password : string) : Eff User :=
  fun w => match create_answer B email_ password with
           | Normal u => (Normal u,
                          {| provider_session := Some u;
                             documents := documents w;
                             console := console w |})
           | Throw e => (Throw e, w)
           end.

(** Modelled from the spec: on success the provider's current session
    updates (section 4.1, signIn). *)
Definition signInWithEmailAndPassword (B : Backend)
    (email_ password : string) : Eff User :=
  fun w => match signIn_answer B email_ password with
           | Normal u => (Normal u,
                          {| provider_session := Some u;
                             documents := documents w;
                             console := console w |})
           | Throw e => (Throw e, w)
           end.

(** Modelled from the spec: signOut clears the current session, and fails
    only on a provider-side failure (section 4.1, signOut). *)
Definition signOut (B : Backend) : Eff () :=
  fun w => match signOut_answer B with
           | None => (Normal tt,
                      {| provider_session := None;
                         documents := documents w;
                         console := console w |})
           | Some e => (Throw e, w)
           end.

(** Modelled from the spec: [setDocument(collectionName, id, document)] of
    section 6 writes the document under the given id or fails with the
    store's error, leaving the store as it was. *)
Definition setDoc (B : Backend) (collection doc_id : string)
    (data : gmap string jsval) : Eff () :=
  fun w => match setDoc_answer B collection doc_id data with
           | None => (Normal tt,
                      {| provider_session := provider_session w;
                         documents := <[(collection, doc_id) := data]> (documents w);
                         console := console w |})
           | Some e => (Throw e, w)
           end.

(** The object literal [{email: userCredential.user.email, createdAt: new
    Date()}]; [now] is the value of [new Date()]. *)
Definition profileRecord (user : User) (now : Z) : gmap string jsval :=
  <["email" := match email user with
               | Some e => JStr e
               | None => JNull
               end]> (<["createdAt" := JDate now]> ∅).

(** [signup] *)
Definition signup (B : Backend) (now : Z) (email_ password : string)
  : Eff () :=
  try_catch
    (eff_bind (createUserWithEmailAndPassword B email_ password)
       (fun user => setDoc B "users" (uid user) (profileRecord user now)))
    (fun error => eff_bind (console_error "Signup error:" error)
                    (fun _ => throw error)).

Definition login (B : Backend) (email_ password : string) : Eff () :=
  try_catch
    (eff_bind (signInWithEmailAndPassword B email_ password)
       (fun _ => eff_ret tt))
    (fun error => eff_bind (console_error "Login error:" error)
                    (fun _ => throw error)).

Definition logout (B : Backend) : Eff () :=
  try_catch (signOut B)
    (fun error => eff_bind (console_error "Logout error:" error)
                    (fun _ => throw error)).

(** [{!loading && children}]: whether [AuthProvider] renders the pages
    below it. *)
Definition renders_children (st : State) : bool := negb (loading st).

End AuthContext.

(** ** recipes/[recipeId]/page.tsx, client component *)

Module RecipeDetailPage.

Record State : Type := mkState {
  recipe : option Recipe.t;
  loading : bool;
  error : option string
}.

Definition initial : State :=
  {| recipe := None; loading := true; error := None |}.

Definition setRecipe (r : option Recipe.t) (st : State) : State :=
  {| recipe := r; loading := loading st; error := error st |}.
Definition setLoading (b : bool) (st : State) : State :=
  {| recipe := recipe st; loading := b; error := error st |}.
Definition setError (e : option string) (st : State) : State :=
  {| recipe := recipe st; loading := loading st; error := e |}.

(** The object literal bound to [fetchedRecipe]. *)
Definition fetchedRecipe (docSnap : DocumentSnapshot) : Completion Recipe.t :=
  let data := snap_data_val docSnap in
  name_ ← get_opt data "name";
  ingredients_ ← get_opt data "ingredients";
  instructions_ ← get_opt data "instructions";
  cookingTime_ ← get_opt data "cookingTime";
  servings_ ← get_opt data "servings";
  userId_ ← get_opt data "userId";
  imageUrl_ ← get_opt data "imageUrl";
  categories_ ← get_opt data "categories";
  createdAt_ ← get_opt data "createdAt";
  Normal {| Recipe.id := snap_id docSnap;
            Recipe.name := or_else name_ (JStr "Untitled Recipe");
            Recipe.ingredients := or_else ingredients_ (JArr []);
            Recipe.instructions := or_else instructions_ (JArr []);
            Recipe.cookingTime := coalesce cookingTime_ (JNum 0);
            Recipe.servings := coalesce servings_ (JNum 0);
            Recipe.userId := or_else userId_ (JStr "unknown");
            Recipe.imageUrl := or_else imageUrl_ (JStr "");
            Recipe.categories := or_else categories_ (JArr []);
            Recipe.createdAt := or_else createdAt_ JUndefined |}.

(** [fetchRecipe]; the state it starts from is set to loading first.
    [getDoc] is what awaiting [getDoc(doc(db, 'recipes',
    recipeId))] gives: the data of the document, [None] when there is no
    such document, or the store's rejection. The whole body sits in one
    [try], so the [catch] block sees whatever it throws. *)
Definition fetchRecipe
    (getDoc : string -> string -> Completion (option (gmap string jsval)))
    (recipeId : string) (st : State) : State :=
  let st1 := setLoading true st in
  let body :=
    data ← getDoc "recipes" recipeId;
    let docSnap := {| snap_id := recipeId; snap_data := data |} in
    _ ← (if negb (snap_exists docSnap) then notFound else Normal tt);
    fetchedRecipe docSnap in
  let st2 :=
    match body with
    | Normal r => setRecipe (Some r) st1
    | Throw _ => setError (Some "Failed to load recipe.") st1
    end in
  setLoading false st2.

(** [currentUser && currentUser.uid === recipe.userId], as the boolean the
    JSX conditional tests. *)
Definition isOwner (currentUser : option AuthContext.User) (r : Recipe.t)
  : bool :=
  match currentUser with
  | None => false
  | Some u => strict_eq_str (AuthContext.uid u) (Recipe.userId r)
  end.

(** [interface Recipe] of this page: the shared properties and
    [createdAt?: {toDate: () => Date}], which among the values of a
    document only a [Timestamp] has. *)
Definition is_Recipe (r : Recipe.t) : bool :=
  Recipe.is_Recipe r
  && Recipe.is_optional instanceof_Timestamp (Recipe.createdAt r).

(** What the returned element holds when the recipe is shown. [addedOn] is
    the [Date] whose [toLocaleDateString()] follows "Added on:"; an empty
    [ingredients] or [instructions] stands for the "No ingredients listed."
    or "No instructions provided." line, an empty [categories] for no
    categories block. *)
Record Detail : Type := mkDetail {
  image : option (jsval * jsval);
  heading : jsval;
  editLink : bool;
  servings : jsval;
  cookingTime : jsval;
  addedOn : option jsval;
  ingredients : list JSX.IngredientLine;
  instructions : list jsval;
  categories : list jsval;
  createdBy : jsval
}.

(** The JSX after the three early returns, in the order it is evaluated.
    Nothing guards [recipe.createdAt.toDate()] beyond the truthiness of
    [recipe.createdAt], and nothing guards [.length] and [.map] on
    [ingredients] and [instructions]. *)
Definition jsx (P : JSX.Platform) (r : Recipe.t) (isOwner_ : bool)
  : Completion Detail :=
  addedOn_ ← (if truthy (Recipe.createdAt r)
              then (date ← toDate (Recipe.createdAt r); Normal (Some date))
              else Normal None);
  len ← JSX.length_of (Recipe.ingredients r);
  ingredients_ ← (if JSX.strict_eq_zero len then Normal []
                  else JSX.array_map (Recipe.ingredients r)
                         JSX.ingredient_line);
  len' ← JSX.length_of (Recipe.instructions r);
  instructions_ ← (if JSX.strict_eq_zero len' then Normal []
                   else JSX.array_map (Recipe.instructions r) Normal);
  categories_ ← JSX.categories_block P r;
  Normal {| image := JSX.image r;
            heading := Recipe.name r;
            editLink := isOwner_;
            servings := Recipe.servings r;
            cookingTime := Recipe.cookingTime r;
            addedOn := addedOn_;
            ingredients := ingredients_;
            instructions := instructions_;
            categories := categories_;
            createdBy := Recipe.userId r |}.

(** What the component returns: the loading line, the error line, nothing,
    or the recipe. *)
Inductive View : Type :=
  | LoadingView
  | ErrorView (msg : string)
  | NoView
  | DetailView (d : Detail).

(** The component function: the element it returns, or what it throws. *)
Definition render (P : JSX.Platform) (st : State) (auth : AuthContext.State)
  : Completion View :=
  if loading st || AuthContext.loading auth then Normal LoadingView
  else match error st with
       | Some (String _ _ as msg) => Normal (ErrorView msg)
       | _ =>
           match recipe st with
           | None => Normal NoView
           | Some r =>
               d ← jsx P r (isOwner (AuthContext.currentUser auth) r);
               Normal (DetailView d)
           end
       end.

(** Whether React can mount the recipe: the [Image] mounts and every value
    placed as a child is renderable. *)
Definition mounts (P : JSX.Platform) (d : Detail) : bool :=
  JSX.image_mounts P (image d)
  && JSX.renderable (heading d)
  && JSX.renderable (servings d)
  && JSX.renderable (cookingTime d)
  && forallb JSX.line_renderable (ingredients d)
  && forallb JSX.renderable (instructions d)
  && forallb JSX.renderable (categories d)
  && JSX.renderable (createdBy d).

(** Whether the "Edit Recipe" link is on screen: the component returned the
    recipe with the link, and React mounted it. A page that throws shows no
    link. *)
Definition shows_edit (P : JSX.Platform) (c : Completion View) : bool :=
  match c with
  | Normal (DetailView d) => editLink d && mounts P d
  | _ => false
  end.

End RecipeDetailPage.

(** ** recipes/[recipeId]/page.tsx, server component *)

Module RecipeDetailServer.

(** The async component up to the object literal bound to [recipe]; nothing
    catches what it throws. *)
Definition RecipeDetailPage
    (getDoc : string -> string -> Completion (option (gmap string jsval)))
    (recipeId : string) : Completion Recipe.t :=
  data_ ← getDoc "recipes" recipeId;
  let docSnap := {| snap_id := recipeId; snap_data := data_ |} in
  _ ← (if negb (snap_exists docSnap) then notFound else Normal tt);
  let data := snap_data_val docSnap in
  name_ ← get_opt data "name";
  ingredients_ ← get_opt data "ingredients";
  instructions_ ← get_opt data "instructions";
  cookingTime_ ← get_opt data "cookingTime";
  servings_ ← get_opt data "servings";
  userId_ ← get_opt data "userId";
  imageUrl_ ← get_opt data "imageUrl";
  categories_ ← get_opt data "categories";
  createdAt_ ← get_opt data "createdAt";
  Normal {| Recipe.id := snap_id docSnap;
            Recipe.name := or_else name_ (JStr "Untitled Recipe");
            Recipe.ingredients := or_else ingredients_ (JArr []);
            Recipe.instructions := or_else instructions_ (JArr []);
            Recipe.cookingTime := coalesce cookingTime_ (JNum 0);
            Recipe.servings := coalesce servings_ (JNum 0);
            Recipe.userId := or_else userId_ (JStr "unknown");
            Recipe.imageUrl := or_else imageUrl_ (JStr "");
            Recipe.categories := or_else categories_ (JArr []);
            Recipe.createdAt := or_else createdAt_ JUndefined |}.

End RecipeDetailServer.

(** ** JavaScript string methods used by the form *)

Module JSString.

(** White space and line terminators among the code units below 256:
    TAB, LF, VT, FF, CR, SP and NBSP. Strings are sequences of such code
    units. *)
Definition is_ws (c : ascii) : bool :=
  match nat_of_ascii c with
  | 9 | 10 | 11 | 12 | 13 | 32 | 160 => true
  | _ => false
  end.

Fixpoint trimStart (s : string) : string :=
  match s with
  | EmptyString => EmptyString
  | String c s' => if is_ws c then trimStart s' else s
  end.

Fixpoint trimEnd (s : string) : string :=
  match s with
  | EmptyString => EmptyString
  | String c s' =>
      match trimEnd s' with
      | EmptyString => if is_ws c then EmptyString else String c EmptyString
      | t => String c t
      end
  end.

(** [s.trim()] *)
Definition trim (s : string) : string := trimEnd (trimStart s).

(** [s.split(',')] *)
Fixpoint split_comma (s : string) : list string :=
  match s with
  | EmptyString => [EmptyString]
  | String c s' =>
      if Ascii.eqb c ","%char then EmptyString :: split_comma s'
      else match split_comma s' with
           | piece :: pieces => String c piece :: pieces
           | [] => [String c EmptyString]
           end
  end.

(** [a !== b] on strings *)
Definition strict_ne (a b : string) : bool := negb (String.eqb a b).

End JSString.

(** ** recipes/new/page.tsx *)

(** A Firestore [Timestamp]. *)
Record Timestamp : Type := mkTimestamp {
  ts_seconds : Z;
  ts_nanoseconds : Z
}.

Module AddRecipePage.

Module Ingredient.
Record t : Type := mk {
  name : string;
  quantity : float;
  unit : string
}.
End Ingredient.

Module RecipeFormData.
(** [imageUrl] and [categories] are the two optional properties: [None] is
    a property that was never assigned. *)
Record t : Type := mk {
  name : string;
  ingredients : list Ingredient.t;
  instructions : list string;
  cookingTime : float;
  servings : float;
  userId : string;
  imageUrl : option string;
  categories : option (list string);
  createdAt : Timestamp
}.
End RecipeFormData.

(** The component's state; [cookingTime] and [servings] have type
    [number | ''], with [None] for the empty string. *)
Record State : Type := mkState {
  recipeName : string;
  ingredients : list Ingredient.t;
  instructions : list string;
  cookingTime : option float;
  servings : option float;
  imageUrl : string;
  categories : string;
  loading : bool;
  error : option string;
  success : option string
}.

(** The state the [useState] calls start from. *)
Definition initial : State :=
  {| recipeName := "";
     ingredients := [Ingredient.mk "" 0 ""];
     instructions := [""];
     cookingTime := None;
     servings := None;
     imageUrl := "";
     categories := "";
     loading := false;
     error := None;
     success := None |}.

(** What [handleSubmit] does to the outside, in order. *)
Inductive Effect : Type :=
  | AddDoc (collection : string) (data : RecipeFormData.t)
  | ConsoleError (label : string) (e : exn)
  | RouterPush (path : string).

Definition is_AddDoc (eff : Effect) : bool :=
  match eff with
  | AddDoc _ _ => true
  | _ => false
  end.

(** [v === ''] for a value of type [number | '']. *)
Definition is_empty_string (v : option float) : bool :=
  match v with
  | None => true
  | Some _ => false
  end.

(** [Number(v)] for a value of type [number | '']. *)
Definition Number (v : option float) : float :=
  match v with
  | Some x => x
  | None => 0%float
  end.

Definition validation_message : string :=
  "Please fill in all required fields, including all ingredients and instruction details.".

(** The condition of the [if] under the comment "Basic validation". *)
Definition required_fields_missing (st : State) : bool :=
  negb (str_truthy (recipeName st))
  || existsb (fun ing => negb (str_truthy (Ingredient.name ing))
                         || negb (num_truthy (Ingredient.quantity ing))
                         || negb (str_truthy (Ingredient.unit ing)))
       (ingredients st)
  || existsb (fun inst => negb (str_truthy inst)) (instructions st)
  || is_empty_string (cookingTime st)
  || is_empty_string (servings st).

(** [categories.split(',').map((cat) => cat.trim()).filter((cat) => cat !== '')] *)
Definition parsedCategories (categories_ : string) : list string :=
  List.filter (fun cat => JSString.strict_ne cat "")
    (List.map JSString.trim (JSString.split_comma categories_)).

(** The object [recipeData] at the time it is handed to [addDoc]. *)
Definition recipeData (currentUser : AuthContext.User) (now : Timestamp)
    (st : State) : RecipeFormData.t :=
  let data :=
    {| RecipeFormData.name := recipeName st;
       RecipeFormData.ingredients :=
         List.filter (fun ing => str_truthy (Ingredient.name ing)
                                 && num_truthy (Ingredient.quantity ing)
                                 && str_truthy (Ingredient.unit ing))
           (ingredients st);
       RecipeFormData.instructions :=
         List.filter (fun inst => JSString.strict_ne (JSString.trim inst) "")
           (instructions st);
       RecipeFormData.cookingTime := Number (cookingTime st);
       RecipeFormData.servings := Number (servings st);
       RecipeFormData.userId := AuthContext.uid currentUser;
       RecipeFormData.imageUrl := None;
       RecipeFormData.categories := None;
       RecipeFormData.createdAt := now |} in
  let data :=
    if JSString.strict_ne (JSString.trim (imageUrl st)) ""
    then {| RecipeFormData.name := RecipeFormData.name data;
            RecipeFormData.ingredients := RecipeFormData.ingredients data;
            RecipeFormData.instructions := RecipeFormData.instructions data;
            RecipeFormData.cookingTime := RecipeFormData.cookingTime data;
            RecipeFormData.servings := RecipeFormData.servings data;
            RecipeFormData.userId := RecipeFormData.userId data;
            RecipeFormData.imageUrl := Some (JSString.trim (imageUrl st));
            RecipeFormData.categories := RecipeFormData.categories data;
            RecipeFormData.createdAt := RecipeFormData.createdAt data |}
    else data in
  let parsed := parsedCategories (categories st) in
  if (0 <? length parsed)%nat
  then {| RecipeFormData.name := RecipeFormData.name data;
          RecipeFormData.ingredients := RecipeFormData.ingredients data;
          RecipeFormData.instructions := RecipeFormData.instructions data;
          RecipeFormData.cookingTime := RecipeFormData.cookingTime data;
          RecipeFormData.servings := RecipeFormData.servings data;
          RecipeFormData.userId := RecipeFormData.userId data;
          RecipeFormData.imageUrl := RecipeFormData.imageUrl data;
          RecipeFormData.categories := Some parsed;
          RecipeFormData.createdAt := RecipeFormData.createdAt data |}
  else data.

(** [handleSubmit]. [currentUser] is not null where the handler is defined,
    [now] is the value of [Timestamp.now()], and [addDoc] is what awaiting
    the insert gives: the new document's id or the store's rejection. The
    result is the state after the handler has run and what it did. The
    handler opens with [setLoading(true); setError(null); setSuccess(null)]
    and every path ends with [setLoading(false)], so each final state below
    has [loading] false and holds an error or a success message only if
    that path set one. *)
Definition handleSubmit (currentUser : AuthContext.User) (now : Timestamp)
    (addDoc : string -> RecipeFormData.t -> Completion string)
    (st : State) : State * list Effect :=
  if required_fields_missing st then
    ({| recipeName := recipeName st;
        ingredients := ingredients st;
        instructions := instructions st;
        cookingTime := cookingTime st;
        servings := servings st;
        imageUrl := imageUrl st;
        categories := categories st;
        loading := false;
        error := Some validation_message;
        success := None |}, [])
  else
    let data := recipeData currentUser now st in
    match addDoc "recipes" data with
    | Normal _ =>
        ({| recipeName := "";
            ingredients := [Ingredient.mk "" 0 ""];
            instructions := [""];
            cookingTime := None;
            servings := None;
            imageUrl := "";
            categories := "";
            loading := false;
            error := None;
            success := Some "Recipe added successfully!" |},
         [AddDoc "recipes" data; RouterPush "/recipes"])
    | Throw err =>
        ({| recipeName := recipeName st;
            ingredients := ingredients st;
            instructions := instructions st;
            cookingTime := cookingTime st;
            servings := servings st;
            imageUrl := imageUrl st;
            categories := categories st;
            loading := false;
            error := Some "Failed to add recipe. Please try again.";
            success := None |},
         [AddDoc "recipes" data; ConsoleError "Error adding document: " err])
    end.

(** The outcome the specification calls a [ValidationError]: the form shows
    the validation message and nothing left the component. *)
Definition validation_error (out : State * list Effect) : Prop :=
  error (fst out) = Some validation_message /\ snd out = [].

(** The required-field constraints in the words of the specification: name
    non-empty; every ingredient with non-empty name and unit and quantity
    above zero; every instruction step non-empty after trimming;
    cookingTime and servings both present. *)
Definition spec_required_fields_ok (st : State) : bool :=
  negb (String.eqb (recipeName st) "")
  && forallb (fun ing => negb (String.eqb (Ingredient.name ing) "")
                         && negb (String.eqb (Ingredient.unit ing) "")
                         && PrimFloat.ltb 0 (Ingredient.quantity ing))
       (ingredients st)
  && forallb (fun inst => negb (String.eqb (JSString.trim inst) ""))
       (instructions st)
  && negb (is_empty_string (cookingTime st))
  && negb (is_empty_string (servings st)).

(** *** Handlers of the two dynamic lists *)

Definition setIngredients (l : list Ingredient.t) (st : State) : State :=
  {| recipeName := recipeName st;
     ingredients := l;
     instructions := instructions st;
     cookingTime := cookingTime st;
     servings := servings st;
     imageUrl := imageUrl st;
     categories := categories st;
     loading := loading st;
     error := error st;
     success := success st |}.

Definition setInstructions (l : list string) (st : State) : State :=
  {| recipeName := recipeName st;
     ingredients := ingredients st;
     instructions := l;
     cookingTime := cookingTime st;
     servings := servings st;
     imageUrl := imageUrl st;
     categories := categories st;
     loading := loading st;
     error := error st;
     success := success st |}.

(** [arr.filter((_, i) => i !== index)]; [from] is the position of the
    first element of [arr]. Positions are the array indices the list
    rendering hands to the handlers. *)
Fixpoint filter_other_index {A : Type} (index from : nat) (arr : list A)
  : list A :=
  match arr with
  | [] => []
  | x :: rest =>
      if negb (Nat.eqb from index)
      then x :: filter_other_index index (S from) rest
      else filter_other_index index (S from) rest
  end.

(** [addIngredient] *)
Definition addIngredient (st : State) : State :=
  setIngredients (ingredients st ++ [Ingredient.mk "" 0 ""])%list st.

(** [removeIngredient] *)
Definition removeIngredient (index : nat) (st : State) : State :=
  setIngredients (filter_other_index index 0 (ingredients st)) st.

(** [addInstruction] *)
Definition addInstruction (st : State) : State :=
  setInstructions (instructions st ++ [""])%list st.

(** [removeInstruction] *)
Definition removeInstruction (index : nat) (st : State) : State :=
  setInstructions (filter_other_index index 0 (instructions st)) st.

(** The three ways the form calls [handleIngredientChange]: the field and
    the value it sets, a string for 'name' and 'unit' and
    [Number(e.target.value)] for 'quantity'. *)
Inductive IngredientEdit : Type :=
  | EditName (value : string)
  | EditQuantity (value : float)
  | EditUnit (value : string).

Definition apply_edit (edit : IngredientEdit) (ing : Ingredient.t)
  : Ingredient.t :=
  match edit with
  | EditName value =>
      Ingredient.mk value (Ingredient.quantity ing) (Ingredient.unit ing)
  | EditQuantity value =>
      Ingredient.mk (Ingredient.name ing) value (Ingredient.unit ing)
  | EditUnit value =>
      Ingredient.mk (Ingredient.name ing) (Ingredient.quantity ing) value
  end.

(** [handleIngredientChange]: [newIngredients[index][field] = value] throws
    when there is no element at [index], before [setIngredients] runs. The
    copy is shallow, so the assignment also writes to the row object of the
    array being replaced; that array is not read again. *)
Definition handleIngredientChange (index : nat) (edit : IngredientEdit)
    (st : State) : Completion State :=
  match ingredients st !! index with
  | None => Throw (TypeError "Cannot set properties of undefined")
  | Some ing =>
      Normal (setIngredients (<[index := apply_edit edit ing]> (ingredients st))
                st)
  end.

(** *** What the component shows, and its redirect effect *)

Inductive Screen : Type :=
  | AuthLoadingScreen
  | NoScreen
  | FormScreen.

(** The two early returns in front of the form. *)
Definition screen (auth : AuthContext.State) : Screen :=
  if AuthContext.loading auth then AuthLoadingScreen
  else match AuthContext.currentUser auth with
       | None => NoScreen
       | Some _ => FormScreen
       end.

(** The body of the [useEffect]: the paths it pushes. *)
Definition redirect (auth : AuthContext.State) : list string :=
  if negb (AuthContext.loading auth)
     && match AuthContext.currentUser auth with
        | None => true
        | Some _ => false
        end
  then ["/login"]
  else [].

(** *** The document an insert stores *)

(** An ingredient object as a document value. *)
Definition ingredient_value (ing : Ingredient.t) : jsval :=
  JObj (<["name" := JStr (Ingredient.name ing)]>
        (<["quantity" := JNum (Ingredient.quantity ing)]>
        (<["unit" := JStr (Ingredient.unit ing)]> ∅))).

(** The properties of the object [recipeData], as the document [addDoc]
    is given: an optional property that was never assigned is absent. *)
Definition document_of (data : RecipeFormData.t) : gmap string jsval :=
  let base : gmap string jsval :=
    <["name" := JStr (RecipeFormData.name data)]>
    (<["ingredients" :=
         JArr (List.map ingredient_value (RecipeFormData.ingredients data))]>
    (<["instructions" :=
         JArr (List.map JStr (RecipeFormData.instructions data))]>
    (<["cookingTime" := JNum (RecipeFormData.cookingTime data)]>
    (<["servings" := JNum (RecipeFormData.servings data)]>
    (<["userId" := JStr (RecipeFormData.userId data)]>
    (<["createdAt" :=
         JTimestamp (ts_seconds (RecipeFormData.createdAt data))
           (ts_nanoseconds (RecipeFormData.createdAt data))]> ∅)))))) in
  let with_image :=
    match RecipeFormData.imageUrl data with
    | Some url => <["imageUrl" := JStr url]> base
    | None => base
    end in
  match RecipeFormData.categories data with
  | Some cats => <["categories" := JArr (List.map JStr cats)]> with_image
  | None => with_image
  end.

End AddRecipePage.

(** ** signup/page.tsx, login/page.tsx and the navigation bar of layout.tsx *)

(** [err.message] for what the catch blocks of the two pages receive. All
    three kinds of [exn] are instances of [Error], so the pages' last
    branch, for values that are not, is never taken. The not-found signal
    carries the digest of Next.js as its message; no authentication call
    throws it. *)
Definition caught_message (err : exn) : string :=
  match err with
  | FirebaseError msg => msg
  | TypeError msg => msg
  | NextNotFound => "NEXT_HTTP_ERROR_FALLBACK;404"
  end.

Module SignupPage.

Record State : Type := mkState {
  email : string;
  password : string;
  passwordConfirm : string;
  error : option string;
  loading : bool
}.

(** [handleSubmit]: the state after the handler has run, the paths it
    pushed on the router, and the world it leaves. *)
Definition handleSubmit (B : AuthContext.Backend) (now : Z) (st : State)
    (w : AuthContext.World) : State * list string * AuthContext.World :=
  if JSString.strict_ne (password st) (passwordConfirm st) then
    ({| email := email st;
        password := password st;
        passwordConfirm := passwordConfirm st;
        error := Some "Passwords do not match";
        loading := loading st |}, [], w)
  else
    match AuthContext.signup B now (email st) (password st) w with
    | (Normal _, w') =>
        ({| email := email st;
            password := password st;
            passwordConfirm := passwordConfirm st;
            error := None;
            loading := false |}, ["/recipes"], w')
    | (Throw err, w') =>
        ({| email := email st;
            password := password st;
            passwordConfirm := passwordConfirm st;
            error := Some (caught_message err);
            loading := false |}, [],
         snd (AuthContext.console_error "Signup error:" err w'))
    end.

(** The body of the [useEffect]: the paths it pushes. *)
Definition redirect (auth : AuthContext.State) : list string :=
  match AuthContext.currentUser auth with
  | Some _ => if negb (AuthContext.loading auth) then ["/recipes"] else []
  | None => []
  end.

End SignupPage.

Module LoginPage.

Record State : Type := mkState {
  email : string;
  password : string;
  error : option string;
  loading : bool
}.

(** [handleSubmit] *)
Definition handleSubmit (B : AuthContext.Backend) (st : State)
    (w : AuthContext.World) : State * list string * AuthContext.World :=
  match AuthContext.login B (email st) (password st) w with
  | (Normal _, w') =>
      ({| email := email st;
          password := password st;
          error := None;
          loading := false |}, ["/recipes"], w')
  | (Throw err, w') =>
      ({| email := email st;
          password := password st;
          error := Some (caught_message err);
          loading := false |}, [],
       snd (AuthContext.console_error "Login error:" err w'))
  end.

(** The body of the [useEffect]: the paths it pushes. *)
Definition redirect (auth : AuthContext.State) : list string :=
  match AuthContext.currentUser auth with
  | Some _ => if negb (AuthContext.loading auth) then ["/recipes"] else []
  | None => []
  end.

End LoginPage.

Module Navigation.

(** [handleLogout]: nothing catches what [logout] throws, and the push is
    the statement after the [await]. *)
Definition handleLogout (B : AuthContext.Backend) (w : AuthContext.World)
  : Completion (list string) * AuthContext.World :=
  match AuthContext.logout B w with
  | (Normal _, w') => (Normal ["/login"], w')
  | (Throw err, w') => (Throw err, w')
  end.

(** What the bar shows beside the two fixed links: nothing at all while
    loading, the welcome line with the Logout button, or the Login and
    Sign Up links. *)
Inductive Bar : Type :=
  | NoBar
  | MemberBar (email : option string)
  | GuestBar.

Definition render (auth : AuthContext.State) : Bar :=
  if AuthContext.loading auth then NoBar
  else match AuthContext.currentUser auth with
       | Some user => MemberBar (AuthContext.email user)
       | None => GuestBar
       end.

End Navigation.

(** * Closed forms and sample data used by the properties *)

(** [v instanceof Date] *)
Definition is_Date (v : jsval) : bool :=
  match v with
  | JDate _ => true
  | _ => false
  end.

(** What the list page stores under [createdAt]. *)
Definition list_createdAt (v : jsval) : jsval :=
  match v with
  | JTimestamp s ns => JDate (FirestoreTimestamp.toDate_time s ns)
  | _ => JUndefined
  end.

(** The object both mappers build from the fields they read, up to
    [createdAt]. *)
Definition shaped (doc_id : string) (read : string -> jsval) (created : jsval)
  : Recipe.t :=
  {| Recipe.id := doc_id;
     Recipe.name := or_else (read "name") (JStr "Untitled Recipe");
     Recipe.ingredients := or_else (read "ingredients") (JArr []);
     Recipe.instructions := or_else (read "instructions") (JArr []);
     Recipe.cookingTime := coalesce (read "cookingTime") (JNum 0);
     Recipe.servings := coalesce (read "servings") (JNum 0);
     Recipe.userId := or_else (read "userId") (JStr "unknown");
     Recipe.imageUrl := or_else (read "imageUrl") (JStr "");
     Recipe.categories := or_else (read "categories") (JArr []);
     Recipe.createdAt := created |}.

(** What [data?.key] reads from a snapshot's data. *)
Definition snap_field (data : option (gmap string jsval))
  : string -> jsval :=
  match data with
  | Some o => field o
  | None => fun _ => JUndefined
  end.

(** A provider that accepts every sign-up, in front of a store that rejects
    every write. *)
Definition offline_store : AuthContext.Backend :=
  {| AuthContext.create_answer := fun email_ _ =>
       Normal {| AuthContext.uid := "uid-1";
                 AuthContext.email := Some email_ |};
     AuthContext.signIn_answer := fun _ _ =>
       Throw (FirebaseError "auth/invalid-credential");
     AuthContext.signOut_answer := None;
     AuthContext.setDoc_answer := fun _ _ _ =>
       Some (FirebaseError "unavailable") |}.

(** The world before anyone has signed up, and a filled-in sign-up
    form. *)
Definition empty_world : AuthContext.World :=
  {| AuthContext.provider_session := None;
     AuthContext.documents := ∅;
     AuthContext.console := [] |}.

Definition signup_form : SignupPage.State :=
  {| SignupPage.email := "a@b.com";
     SignupPage.password := "pw";
     SignupPage.passwordConfirm := "pw";
     SignupPage.error := None;
     SignupPage.loading := false |}.

(** A raw document whose timestamp lies one nanosecond before a full
    second. *)
Definition late_timestamp_document : gmap string jsval :=
  {[ "name" := JStr "Soup";
     "createdAt" := JTimestamp 1700000000 999999999 ]}.

(** A page that has loaded a recipe of user "u1", and a session store to
    which the provider has delivered that user. *)
Definition owner_u1 : AuthContext.User :=
  {| AuthContext.uid := "u1"; AuthContext.email := Some "a@b.com" |}.

Definition recipe_of_u1 : Recipe.t :=
  {| Recipe.id := "r1";
     Recipe.name := JStr "Soup";
     Recipe.ingredients := JArr [];
     Recipe.instructions := JArr [];
     Recipe.cookingTime := JNum 0;
     Recipe.servings := JNum 0;
     Recipe.userId := JStr "u1";
     Recipe.imageUrl := JStr "";
     Recipe.categories := JArr [];
     Recipe.createdAt := JUndefined |}.

Definition loaded_page : RecipeDetailPage.State :=
  {| RecipeDetailPage.recipe := Some recipe_of_u1;
     RecipeDetailPage.loading := false;
     RecipeDetailPage.error := None |}.

(** A platform to evaluate the pages on: every image mounts, and a coerced
    operand never compares above zero. *)
Definition sample_platform : JSX.Platform :=
  {| JSX.gt_zero_coerced := fun _ => Normal false;
     JSX.Image_mounts := fun _ _ => true |}.



(** A document whose [ingredients] is a string. *)
Definition salted : gmap string jsval :=
  {[ "name" := JStr "Soup"; "ingredients" := JStr "salt" ]}.

(** The session store after the provider has delivered a user. *)
Definition signed_in (u : AuthContext.User) : AuthContext.State :=
  AuthContext.run [AuthContext.AuthStateChanged (Some u)].

(** Drafts to run the handler on: a filled-in form around the given
    ingredients, steps, image URL and categories. *)
Definition draft (ings : list AddRecipePage.Ingredient.t)
    (steps : list string) (image cats : string) : AddRecipePage.State :=
  {| AddRecipePage.recipeName := "Soup";
     AddRecipePage.ingredients := ings;
     AddRecipePage.instructions := steps;
     AddRecipePage.cookingTime := Some 10%float;
     AddRecipePage.servings := Some 2%float;
     AddRecipePage.imageUrl := image;
     AddRecipePage.categories := cats;
     AddRecipePage.loading := false;
     AddRecipePage.error := None;
     AddRecipePage.success := None |}.

Definition salt : AddRecipePage.Ingredient.t :=
  AddRecipePage.Ingredient.mk "Salt" 5 "g".

Definition accept : string -> AddRecipePage.RecipeFormData.t -> Completion string :=
  fun _ _ => Normal "new-id".

(** A store that rejects every insert. *)
Definition refuse : string -> AddRecipePage.RecipeFormData.t -> Completion string :=
  fun _ _ => Throw (FirebaseError "unavailable").

Definition noon : Timestamp :=
  {| ts_seconds := 1700000000; ts_nanoseconds := 0 |}.

(** A valid draft whose image URL is blank and whose categories hold only
    commas and blanks. *)
Definition blank_optionals : AddRecipePage.State :=
  draft [salt] ["Boil"] "  " " , ,".

(** Every code unit of the string is white space. *)
Fixpoint all_ws (s : string) : bool :=
  match s with
  | EmptyString => true
  | String c s' => JSString.is_ws c && all_ws s'
  end.

(** Every code unit of the string is white space or a comma. *)
Fixpoint all_ws_or_comma (s : string) : bool :=
  match s with
  | EmptyString => true
  | String c s' => (Ascii.eqb c ","%char || JSString.is_ws c)
                   && all_ws_or_comma s'
  end.

(** The string holds a comma. *)
Fixpoint has_comma (s : string) : bool :=
  match s with
  | EmptyString => false
  | String c s' => Ascii.eqb c ","%char || has_comma s'
  end.

(** The first and the last code unit of a string. *)
Definition first_char (s : string) : option ascii :=
  match s with
  | EmptyString => None
  | String c _ => Some c
  end.

Fixpoint last_char (s : string) : option ascii :=
  match s with
  | EmptyString => None
  | String c EmptyString => Some c
  | String _ s' => last_char s'
  end.

(** The number of commas of a string. *)
Fixpoint count_commas (s : string) : nat :=
  match s with
  | EmptyString => 0
  | String c s' => (if Ascii.eqb c ","%char then 1 else 0) + count_commas s'
  end.

(** * Properties *)

(** ** The record mappers in closed form *)

Lemma mapDoc_eq doc_id (d : gmap string jsval) :
  RecipesPage.mapDoc doc_id d
  = Normal (shaped doc_id (field d) (list_createdAt (field d "createdAt"))).
Proof.
  unfold RecipesPage.mapDoc, shaped.
  cbn [get mbind Completion_bind bind].
  destruct (field d "createdAt"); reflexivity.
Qed.

Lemma fetchedRecipe_eq doc_id (data : option (gmap string jsval)) :
  RecipeDetailPage.fetchedRecipe {| snap_id := doc_id; snap_data := data |}
  = Normal (shaped doc_id (snap_field data)
              (or_else (snap_field data "createdAt") JUndefined)).
Proof.
  unfold RecipeDetailPage.fetchedRecipe, shaped, snap_data_val.
  destruct data as [o|]; reflexivity.
Qed.

Lemma server_eq getDoc recipeId (data : option (gmap string jsval)) :
  getDoc "recipes" recipeId = Normal data ->
  RecipeDetailServer.RecipeDetailPage getDoc recipeId
  = match data with
    | Some o => Normal (shaped recipeId (field o)
                          (or_else (field o "createdAt") JUndefined))
    | None => Throw NextNotFound
    end.
Proof.
  intros H. unfold RecipeDetailServer.RecipeDetailPage. rewrite H.
  destruct data as [o|]; reflexivity.
Qed.

Lemma or_else_not_nullish (v dflt : jsval) :
  nullish dflt = false -> nullish (or_else v dflt) = false.
Proof.
  intros H. unfold or_else.
  destruct (truthy v) eqn:E; [|exact H]. now destruct v.
Qed.

Lemma coalesce_not_nullish (v dflt : jsval) :
  nullish dflt = false -> nullish (coalesce v dflt) = false.
Proof. unfold coalesce. destruct v; cbn; easy. Qed.

Lemma shaped_populated doc_id read created :
  Recipe.populated (shaped doc_id read created).
Proof.
  unfold Recipe.populated, shaped; cbn.
  repeat split;
    first [ apply or_else_not_nullish | apply coalesce_not_nullish ];
    reflexivity.
Qed.

Lemma field_missing (d : gmap string jsval) key :
  d !! key = None -> field d key = JUndefined.
Proof. unfold field. now intros ->. Qed.

Lemma shaped_defaults doc_id (d : gmap string jsval) created :
  Recipe.defaults_filled d (shaped doc_id (field d) created).
Proof.
  unfold Recipe.defaults_filled, shaped; cbn.
  repeat split; intros H; rewrite (field_missing _ _ H); reflexivity.
Qed.

(** [mapM] over the mapper never fails and maps document by document. *)
Lemma mapM_mapDoc (docs : list (string * gmap string jsval)) :
  mapM (fun doc => RecipesPage.mapDoc (fst doc) (snd doc)) docs
  = Normal (List.map (fun doc => shaped (fst doc) (field (snd doc))
                                   (list_createdAt (field (snd doc) "createdAt")))
              docs).
Proof.
  induction docs as [|doc docs IH]; [reflexivity|].
  cbn [mapM List.map]. rewrite mapDoc_eq, IH. reflexivity.
Qed.

Lemma fetchRecipes_ok docs st :
  RecipesPage.fetchRecipes (Normal docs) st
  = {| RecipesPage.recipes :=
         List.map (fun doc => shaped (fst doc) (field (snd doc))
                                (list_createdAt (field (snd doc) "createdAt")))
           docs;
       RecipesPage.loading := false;
       RecipesPage.error := RecipesPage.error st |}.
Proof.
  unfold RecipesPage.fetchRecipes.
  cbn [mbind Completion_bind bind]. rewrite mapM_mapDoc. reflexivity.
Qed.

Lemma or_else_idem (v dflt : jsval) :
  or_else (or_else v dflt) dflt = or_else v dflt.
Proof.
  unfold or_else. destruct (truthy v) eqn:E.
  - now rewrite E.
  - now destruct (truthy dflt).
Qed.

Lemma coalesce_idem (v dflt : jsval) :
  coalesce (coalesce v dflt) dflt = coalesce v dflt.
Proof.
  unfold coalesce. destruct (nullish v) eqn:E.
  - now destruct (nullish dflt).
  - now rewrite E.
Qed.

(** *** Binary64 on integers *)

Lemma Qred_inject (z : Z) : Qred (inject_Z z) = inject_Z z.
Proof.
  pose proof (Qred_correct (inject_Z z)) as H.
  pose proof (gcd_Qred (inject_Z z)) as G.
  destruct (Qred (inject_Z z)) as [n d]. unfold Qeq, inject_Z in *. cbn in *.
  rewrite Z.mul_1_r in H. subst n.
  rewrite Z.gcd_comm, (Z.mul_comm z), Z.gcd_mul_diag_l in G by lia.
  assert (d = 1%positive) by lia. subst d. now rewrite Z.mul_1_r.
Qed.

Lemma nearest_even_1 (n : Z) : Binary64.nearest_even n 1 = n.
Proof.
  unfold Binary64.nearest_even. rewrite Z.mod_1_r, Z.div_1_r. reflexivity.
Qed.

Lemma ilog2_1 (n : Z) : (0 < n)%Z -> Binary64.ilog2 n 1 = Z.log2 n.
Proof.
  intros H. unfold Binary64.ilog2. cbn [Z.log2]. rewrite Z.sub_0_r.
  pose proof (Z.log2_nonneg n) as Hl.
  destruct (Z.leb_spec 0 (Z.log2 n)) as [_|]; [|lia].
  destruct (Z.log2_spec n H) as [Hlo _].
  destruct (Z.leb_spec (1 * 2 ^ Z.log2 n) n) as [_|]; [reflexivity|lia].
Qed.

Lemma round_pos_int (n : Z) :
  (0 < n < 2 ^ 53)%Z -> Qeq (Binary64.round_pos n 1) (inject_Z n).
Proof.
  intros [Hpos Hlt]. unfold Binary64.round_pos. rewrite (ilog2_1 n Hpos).
  assert (Hl : (Z.log2 n < 53)%Z) by (apply Z.log2_lt_pow2; lia).
  destruct (Z.leb_spec 0 (Z.log2 n - 52)) as [He|He].
  - replace (Z.log2 n - 52)%Z with 0%Z by lia.
    change (2 ^ 0)%Z with 1%Z. rewrite !Z.mul_1_r, nearest_even_1.
    reflexivity.
  - rewrite nearest_even_1. unfold Qeq, inject_Z. cbn [Qnum Qden].
    rewrite Z2Pos.id by (apply Z.pow_pos_nonneg; lia). lia.
Qed.

(** An integer below 2^53 in absolute value is a binary64 number. *)
Lemma round_Z (z : Z) :
  (Z.abs z < 2 ^ 53)%Z -> Qeq (Binary64.round (inject_Z z)) (inject_Z z).
Proof.
  intros H. unfold Binary64.round. rewrite Qred_inject. unfold inject_Z at 1.
  destruct z as [|n|n].
  - reflexivity.
  - apply round_pos_int. lia.
  - rewrite (round_pos_int (Z.pos n)) by lia. reflexivity.
Qed.

Lemma round_proper (q q' : Q) :
  Qeq q q' -> Binary64.round q = Binary64.round q'.
Proof. intros H. unfold Binary64.round. now rewrite (Qred_complete _ _ H). Qed.

Lemma round_eq_Z (q : Q) (z : Z) :
  Qeq q (inject_Z z) -> (Z.abs z < 2 ^ 53)%Z ->
  Qeq (Binary64.round q) (inject_Z z).
Proof. intros Hq Hz. rewrite (round_proper _ _ Hq). now apply round_Z. Qed.

Lemma trunc_Z (q : Q) (z : Z) : Qeq q (inject_Z z) -> Binary64.trunc q = z.
Proof.
  unfold Qeq, inject_Z, Binary64.trunc. cbn [Qnum Qden]. intros H.
  rewrite Z.mul_1_r in H. rewrite H. apply Z.quot_mul. lia.
Qed.

(** On a timestamp of whole milliseconds [toDate()] is exact. *)
Lemma toDate_time_whole (seconds millis : Z) :
  (Z.abs (seconds * 1000) < 2 ^ 53)%Z ->
  (Z.abs millis < 2 ^ 53)%Z ->
  (Z.abs (seconds * 1000 + millis) < 2 ^ 53)%Z ->
  FirestoreTimestamp.toDate_time seconds (millis * 1000000)
  = (seconds * 1000 + millis)%Z.
Proof.
  intros Hs Hm Hsum.
  unfold FirestoreTimestamp.toDate_time, FirestoreTimestamp.toMillis,
    Binary64.add, Binary64.mul, Binary64.div.
  apply trunc_Z, round_eq_Z; [|exact Hsum].
  rewrite inject_Z_plus. apply Qplus_comp.
  - apply round_eq_Z; [|exact Hs]. now rewrite inject_Z_mult.
  - apply round_eq_Z; [|exact Hm].
    unfold Qeq, Qdiv, Qmult, Qinv, inject_Z. cbn [Qnum Qden]. lia.
Qed.

(** A [Date] the store accepts comes back as the same [Date]. *)
Lemma fromDate_toDate (ms seconds nanoseconds : Z) :
  FirestoreTimestamp.fromDate ms = Some (seconds, nanoseconds) ->
  FirestoreTimestamp.toDate_time seconds nanoseconds = ms
  /\ FirestoreTimestamp.in_range seconds nanoseconds = true.
Proof.
  unfold FirestoreTimestamp.fromDate.
  destruct (FirestoreTimestamp.in_range _ _) eqn:E; [|discriminate].
  intros H. injection H as <- <-. split; [|exact E].
  unfold FirestoreTimestamp.in_range, FirestoreTimestamp.MIN_SECONDS,
    FirestoreTimestamp.MAX_SECONDS in E.
  rewrite !andb_true_iff in E. destruct E as [[[H1 H2] H3] H4].
  apply Z.leb_le in H1, H3. apply Z.ltb_lt in H2, H4.
  assert (Hp : (2 ^ 53 = 9007199254740992)%Z) by reflexivity.
  rewrite toDate_time_whole by lia. lia.
Qed.

(** *** Binary64 between two integers *)

Lemma nearest_even_le (a d m : Z) :
  (0 < d)%Z -> (a <= m * d)%Z -> (Binary64.nearest_even a d <= m)%Z.
Proof.
  intros Hd H. unfold Binary64.nearest_even.
  pose proof (Z.div_mod a d ltac:(lia)) as E.
  pose proof (Z.mod_pos_bound a d Hd) as Hr.
  assert (Hq : (a / d <= m)%Z) by nia.
  destruct (Z.ltb_spec (2 * (a mod d)) d); [exact Hq|].
  assert ((a / d < m)%Z) by nia.
  destruct (Z.ltb_spec d (2 * (a mod d))); [lia|].
  destruct (Z.even (a / d)); lia.
Qed.

Lemma nearest_even_ge (a d m : Z) :
  (0 < d)%Z -> (m * d <= a)%Z -> (m <= Binary64.nearest_even a d)%Z.
Proof.
  intros Hd H. unfold Binary64.nearest_even.
  pose proof (Z.div_mod a d ltac:(lia)) as E.
  pose proof (Z.mod_pos_bound a d Hd) as Hr.
  assert (Hq : (m <= a / d)%Z) by nia.
  destruct (Z.ltb_spec (2 * (a mod d)) d); [exact Hq|].
  destruct (Z.ltb_spec d (2 * (a mod d))); [lia|].
  destruct (Z.even (a / d)); lia.
Qed.

Lemma ilog2_le_52 (n d : Z) :
  (0 < n)%Z -> (0 < d)%Z -> (n < 2 ^ 53 * d)%Z -> (Binary64.ilog2 n d <= 52)%Z.
Proof.
  intros Hn Hd H. unfold Binary64.ilog2.
  destruct (Z.log2_spec n Hn) as [Hn1 Hn2].
  destruct (Z.log2_spec d Hd) as [Hd1 Hd2].
  pose proof (Z.log2_nonneg n). pose proof (Z.log2_nonneg d).
  set (c := (Z.log2 n - Z.log2 d)%Z) in *.
  destruct (Z_le_gt_dec c 52) as [Hc|Hc].
  { destruct (if (0 <=? c)%Z then _ else _); lia. }
  assert (Hc0 : (0 <=? c)%Z = true) by (apply Z.leb_le; lia).
  rewrite Hc0.
  assert (Hpow : (2 ^ Z.log2 n = 2 ^ c * 2 ^ Z.log2 d)%Z).
  { rewrite <- Z.pow_add_r by lia. f_equal. lia. }
  destruct (Z_le_gt_dec c 53) as [Hc'|Hc'].
  - assert (c = 53%Z) by lia.
    destruct (Z.leb_spec (d * 2 ^ c) n); [|lia].
    exfalso. subst c. rewrite H2 in *. lia.
  - exfalso.
    assert (Hp : (2 ^ 54 <= 2 ^ c)%Z) by (apply Z.pow_le_mono_r; lia).
    assert ((2 ^ (Z.log2 d + 1) = 2 * 2 ^ Z.log2 d)%Z).
    { rewrite Z.pow_add_r by lia. lia. }
    assert (Hpd : (0 < 2 ^ Z.log2 d)%Z) by (apply Z.pow_pos_nonneg; lia).
    change (2 ^ 53)%Z with 9007199254740992%Z in *.
    change (2 ^ 54)%Z with 18014398509481984%Z in *.
    nia.
Qed.

Lemma round_pos_le (n d z : Z) :
  (0 < n)%Z -> (0 < d)%Z -> (z < 2 ^ 53)%Z -> (n <= z * d)%Z ->
  Qle (Binary64.round_pos n d) (inject_Z z).
Proof.
  intros Hn Hd Hz H.
  assert (He : (Binary64.ilog2 n d <= 52)%Z) by (apply ilog2_le_52; nia).
  unfold Binary64.round_pos.
  destruct (Z.leb_spec 0 (Binary64.ilog2 n d - 52)) as [H0|H0].
  - replace (Binary64.ilog2 n d - 52)%Z with 0%Z by lia.
    change (2 ^ 0)%Z with 1%Z. rewrite !Z.mul_1_r.
    rewrite <- Zle_Qle. now apply nearest_even_le.
  - set (k := (- (Binary64.ilog2 n d - 52))%Z).
    assert (Hk : (0 < 2 ^ k)%Z) by (apply Z.pow_pos_nonneg; lia).
    unfold Qle, inject_Z. cbn [Qnum Qden]. rewrite Z2Pos.id by exact Hk.
    rewrite Z.mul_1_r. apply nearest_even_le; [exact Hd|]. nia.
Qed.

Lemma round_pos_ge (n d z : Z) :
  (0 < n)%Z -> (0 < d)%Z -> (n < 2 ^ 53 * d)%Z -> (z * d <= n)%Z ->
  Qle (inject_Z z) (Binary64.round_pos n d).
Proof.
  intros Hn Hd Hlt H.
  assert (He : (Binary64.ilog2 n d <= 52)%Z) by (apply ilog2_le_52; nia).
  unfold Binary64.round_pos.
  destruct (Z.leb_spec 0 (Binary64.ilog2 n d - 52)) as [H0|H0].
  - replace (Binary64.ilog2 n d - 52)%Z with 0%Z by lia.
    change (2 ^ 0)%Z with 1%Z. rewrite !Z.mul_1_r.
    rewrite <- Zle_Qle. now apply nearest_even_ge.
  - set (k := (- (Binary64.ilog2 n d - 52))%Z).
    assert (Hk : (0 < 2 ^ k)%Z) by (apply Z.pow_pos_nonneg; lia).
    unfold Qle, inject_Z. cbn [Qnum Qden]. rewrite Z2Pos.id by exact Hk.
    rewrite Z.mul_1_r. apply nearest_even_ge; [exact Hd|]. nia.
Qed.

(** Rounding stays between two integers that enclose the number. *)
Lemma round_between (q : Q) (lo hi : Z) :
  (- 2 ^ 53 < lo)%Z -> (hi < 2 ^ 53)%Z ->
  Qle (inject_Z lo) q -> Qle q (inject_Z hi) ->
  Qle (inject_Z lo) (Binary64.round q) /\ Qle (Binary64.round q) (inject_Z hi).
Proof.
  intros Hlo Hhi Hl Hh. unfold Binary64.round.
  rewrite <- (Qred_correct q) in Hl, Hh.
  destruct (Qred q) as [[|n|n] d]; unfold Qle, inject_Z in Hl, Hh;
    cbn [Qnum Qden] in Hl, Hh; rewrite ?Z.mul_1_r in Hl, Hh.
  - rewrite <- !Zle_Qle. lia.
  - assert (Hn : (Z.pos n < 2 ^ 53 * Z.pos d)%Z) by nia.
    split.
    + destruct (Z_le_gt_dec lo 0) as [H0|H0].
      * apply Qle_trans with (inject_Z 0); [rewrite <- Zle_Qle; lia|].
        apply round_pos_ge; lia.
      * apply round_pos_ge; lia.
    + apply round_pos_le; lia.
  - assert (Hn : (Z.pos n < 2 ^ 53 * Z.pos d)%Z) by nia.
    split.
    + rewrite <- (Qopp_involutive (inject_Z lo)). apply Qopp_le_compat.
      change (- inject_Z lo)%Q with (inject_Z (- lo)).
      apply round_pos_le; lia.
    + rewrite <- (Qopp_involutive (inject_Z hi)). apply Qopp_le_compat.
      change (- inject_Z hi)%Q with (inject_Z (- hi)).
      destruct (Z_le_gt_dec 0 hi) as [H0|H0].
      * apply Qle_trans with (inject_Z 0); [rewrite <- Zle_Qle; lia|].
        apply round_pos_ge; lia.
      * apply round_pos_ge; lia.
Qed.

Lemma trunc_between (q : Q) (lo hi : Z) :
  Qle (inject_Z lo) q -> Qle q (inject_Z hi) ->
  (lo <= Binary64.trunc q <= hi)%Z.
Proof.
  destruct q as [n d]. unfold Qle, inject_Z, Binary64.trunc.
  cbn [Qnum Qden]. rewrite !Z.mul_1_r. intros Hl Hh.
  destruct (Z_le_gt_dec 0 n) as [Hn|Hn].
  - rewrite Z.quot_div_nonneg by lia. split.
    + apply Z.div_le_lower_bound; lia.
    + apply Z.div_le_upper_bound; lia.
  - replace n with (- - n)%Z by lia.
    rewrite Z.quot_opp_l, Z.quot_div_nonneg by lia.
    assert (- hi <= - n / Z.pos d <= - lo)%Z; [|lia]. split.
    + apply Z.div_le_lower_bound; lia.
    + apply Z.div_le_upper_bound; lia.
Qed.

Lemma in_range_bounds s ns :
  FirestoreTimestamp.in_range s ns = true ->
  (-62135596800 <= s < 253402300800)%Z /\ (0 <= ns < 1000000000)%Z.
Proof.
  unfold FirestoreTimestamp.in_range, FirestoreTimestamp.MIN_SECONDS,
    FirestoreTimestamp.MAX_SECONDS.
  rewrite !andb_true_iff. intros [[[H1 H2] H3] H4].
  apply Z.leb_le in H1, H3. apply Z.ltb_lt in H2, H4. lia.
Qed.

(** [toDate()] of a timestamp lies within its second, or at the start of
    the next. *)
Lemma toDate_time_bounds (s ns : Z) :
  FirestoreTimestamp.in_range s ns = true ->
  (s * 1000 <= FirestoreTimestamp.toDate_time s ns <= s * 1000 + 1000)%Z.
Proof.
  intros H. apply in_range_bounds in H as [Hs Hns].
  assert (Hp : (2 ^ 53 = 9007199254740992)%Z) by reflexivity.
  unfold FirestoreTimestamp.toDate_time, FirestoreTimestamp.toMillis,
    Binary64.add, Binary64.mul, Binary64.div.
  set (a := Binary64.round (inject_Z s * inject_Z 1000)).
  set (b := Binary64.round (inject_Z ns / inject_Z 1000000)).
  assert (Ha : Qle (inject_Z (s * 1000)) a /\ Qle a (inject_Z (s * 1000))).
  { apply round_between; try lia; rewrite inject_Z_mult; apply Qle_refl. }
  assert (Hb : Qle (inject_Z 0) b /\ Qle b (inject_Z 1000)).
  { apply round_between; try lia;
      unfold Qle, Qdiv, Qmult, Qinv, inject_Z; cbn [Qnum Qden]; lia. }
  destruct Ha as [Ha1 Ha2]. destruct Hb as [Hb1 Hb2].
  assert (Hsum : Qle (inject_Z (s * 1000)) (a + b)
                 /\ Qle (a + b) (inject_Z (s * 1000 + 1000))).
  { split.
    - rewrite <- (Qplus_0_r (inject_Z (s * 1000))).
      now apply Qplus_le_compat.
    - rewrite inject_Z_plus. now apply Qplus_le_compat. }
  destruct Hsum as [H1 H2].
  destruct (round_between (a + b) (s * 1000) (s * 1000 + 1000)
              ltac:(lia) ltac:(lia) H1 H2) as [H3 H4].
  now apply trunc_between.
Qed.

Lemma fromDate_toDate_total (s ns : Z) :
  FirestoreTimestamp.in_range s ns = true ->
  (s < FirestoreTimestamp.MAX_SECONDS - 1)%Z ->
  exists s' ns',
    FirestoreTimestamp.fromDate (FirestoreTimestamp.toDate_time s ns)
    = Some (s', ns').
Proof.
  intros H Hs. pose proof (toDate_time_bounds s ns H) as Hb.
  apply in_range_bounds in H as [Hs' Hns].
  unfold FirestoreTimestamp.MAX_SECONDS in Hs.
  unfold FirestoreTimestamp.fromDate.
  set (ms := FirestoreTimestamp.toDate_time s ns) in *.
  pose proof (Z.div_mod ms 1000 ltac:(lia)) as E.
  pose proof (Z.mod_pos_bound ms 1000 ltac:(lia)) as Hr.
  assert (Hin : FirestoreTimestamp.in_range (ms / 1000)
                  ((ms - ms / 1000 * 1000) * 1000000) = true).
  { unfold FirestoreTimestamp.in_range, FirestoreTimestamp.MIN_SECONDS,
      FirestoreTimestamp.MAX_SECONDS.
    rewrite !andb_true_iff. repeat split.
    - apply Z.leb_le. lia.
    - apply Z.ltb_lt. lia.
    - apply Z.leb_le. lia.
    - apply Z.ltb_lt. lia. }
  rewrite Hin. eauto.
Qed.

(** *** The stored document of a Recipe *)

Lemma field_put_same (key : string) (v : jsval) (d : gmap string jsval) :
  d !! key = None -> field (Recipe.put key v d) key = v.
Proof.
  intros H. unfold field, Recipe.put.
  destruct v; rewrite ?lookup_insert_eq, ?H; reflexivity.
Qed.

Lemma field_put_other (key key' : string) (v : jsval)
    (d : gmap string jsval) :
  key <> key' -> field (Recipe.put key v d) key' = field d key'.
Proof.
  intros H. unfold field, Recipe.put.
  destruct v; rewrite ?lookup_insert_ne by exact H; reflexivity.
Qed.

Lemma lookup_put_None (key key' : string) (v : jsval)
    (d : gmap string jsval) :
  key <> key' -> d !! key' = None -> Recipe.put key v d !! key' = None.
Proof.
  intros H Hd. unfold Recipe.put.
  destruct v; rewrite ?lookup_insert_ne by exact H; exact Hd.
Qed.

(** Reading back the nine properties of a stored document. *)
Lemma put_fields (v1 v2 v3 v4 v5 v6 v7 v8 v9 : jsval) :
  let d := Recipe.put "name" v1 (Recipe.put "ingredients" v2
           (Recipe.put "instructions" v3 (Recipe.put "cookingTime" v4
           (Recipe.put "servings" v5 (Recipe.put "userId" v6
           (Recipe.put "imageUrl" v7 (Recipe.put "categories" v8
           (Recipe.put "createdAt" v9 ∅)))))))) in
  field d "name" = v1 /\ field d "ingredients" = v2
  /\ field d "instructions" = v3 /\ field d "cookingTime" = v4
  /\ field d "servings" = v5 /\ field d "userId" = v6
  /\ field d "imageUrl" = v7 /\ field d "categories" = v8
  /\ field d "createdAt" = v9.
Proof.
  cbv zeta. repeat split;
    repeat (rewrite field_put_other by discriminate);
    apply field_put_same;
    repeat (apply lookup_put_None; [discriminate|]);
    apply lookup_empty.
Qed.

Lemma stored_value_not_Date (v : jsval) :
  is_Date v = false -> Recipe.stored_value v = Some v.
Proof. now destruct v. Qed.

(** A property of a raw document is absent or a value of the store. *)
Lemma raw_field_from_store (d : gmap string jsval) (key : string) :
  raw_document d -> field d key = JUndefined \/ from_store (field d key).
Proof.
  intros Hraw. unfold field. destruct (d !! key) as [v|] eqn:E.
  - right. exact (Hraw _ _ E).
  - now left.
Qed.

Lemma from_store_not_Date (v : jsval) : from_store v -> is_Date v = false.
Proof. now destruct 1. Qed.

Lemma raw_field_not_Date (d : gmap string jsval) (key : string) :
  raw_document d -> is_Date (field d key) = false.
Proof.
  intros H. unfold field. destruct (d !! key) as [v|] eqn:E; [|reflexivity].
  apply from_store_not_Date. exact (H key v E).
Qed.

Lemma or_else_not_Date (v dflt : jsval) :
  is_Date v = false -> is_Date dflt = false ->
  is_Date (or_else v dflt) = false.
Proof. intros Hv Hd. unfold or_else. now destruct (truthy v). Qed.

Lemma coalesce_not_Date (v dflt : jsval) :
  is_Date v = false -> is_Date dflt = false ->
  is_Date (coalesce v dflt) = false.
Proof. intros Hv Hd. unfold coalesce. now destruct (nullish v). Qed.

(** The stored document of a Recipe mapped from a raw document: every
    field but [createdAt] is kept as it is, and the store refuses the
    fields only if it refuses [createdAt]. *)
Lemma stored_doc_shaped doc_id (d : gmap string jsval) created :
  raw_document d ->
  match Recipe.stored_value created with
  | Some created' =>
      exists d',
        Recipe.stored_doc (shaped doc_id (field d) created) = Some d'
        /\ field d' "createdAt" = created'
        /\ forall created'',
             shaped doc_id (field d') created''
             = shaped doc_id (field d) created''
  | None => Recipe.stored_doc (shaped doc_id (field d) created) = None
  end.
Proof.
  intros Hraw. unfold Recipe.stored_doc, shaped.
  cbn [Recipe.name Recipe.ingredients Recipe.instructions Recipe.cookingTime
       Recipe.servings Recipe.userId Recipe.imageUrl Recipe.categories
       Recipe.createdAt].
  repeat match goal with
         | |- context [Recipe.stored_value (or_else ?v ?dflt)] =>
             rewrite (stored_value_not_Date (or_else v dflt))
               by (apply or_else_not_Date;
                   [apply raw_field_not_Date, Hraw | reflexivity])
         | |- context [Recipe.stored_value (coalesce ?v ?dflt)] =>
             rewrite (stored_value_not_Date (coalesce v dflt))
               by (apply coalesce_not_Date;
                   [apply raw_field_not_Date, Hraw | reflexivity])
         end.
  cbn [mbind option_bind].
  destruct (Recipe.stored_value created) as [created'|]; [|reflexivity].
  cbn [mbind option_bind]. eexists. split; [reflexivity|].
  match goal with
  | |- context [field ?m "createdAt"] =>
      pose proof (put_fields _ _ _ _ _ _ _ _ _ : let d0 := m in _) as Hf
  end.
  cbv zeta in Hf.
  destruct Hf as (H1 & H2 & H3 & H4 & H5 & H6 & H7 & H8 & H9).
  split; [exact H9|]. intros created''.
  rewrite H1, H2, H3, H4, H5, H6, H7, H8.
  now rewrite !or_else_idem, !coalesce_idem.
Qed.

(** What the list page makes of the stored form of its own [createdAt]. *)
Lemma list_createdAt_stored (v created' : jsval) :
  Recipe.stored_value (list_createdAt v) = Some created' ->
  list_createdAt created' = list_createdAt v.
Proof.
  destruct v; cbn; try (intros H; injection H as <-; reflexivity).
  destruct (FirestoreTimestamp.fromDate _) as [[s' ns']|] eqn:E;
    [|discriminate].
  intros H. injection H as <-. cbn.
  now destruct (fromDate_toDate _ _ _ E) as [-> _].
Qed.

(** The mappers read the nine properties and nothing else. *)
Lemma shaped_ext doc_id (read read' : string -> jsval) created :
  (forall key, In key Recipe.read_keys -> read' key = read key) ->
  shaped doc_id read' created = shaped doc_id read created.
Proof.
  intros H. unfold shaped.
  rewrite !H by (unfold Recipe.read_keys; cbn; tauto). reflexivity.
Qed.

(** ** Record mapper: defaults, totality, idempotence *)

(** C2: for every raw document read through the list page, the client
    detail page or the server detail page, the mapper returns a Recipe in
    which each field the document lacks holds its documented default
    (name "Untitled Recipe", ingredients [], instructions [], cookingTime 0,
    servings 0, userId "unknown", imageUrl "", categories []), and none of
    these fields is null or undefined. *)
Theorem read_fills_documented_defaults
    (doc_id : string) (d : gmap string jsval) :
  (exists r, RecipesPage.mapDoc doc_id d = Normal r
             /\ Recipe.defaults_filled d r /\ Recipe.populated r)
  /\ (exists r, RecipeDetailPage.fetchedRecipe
                  {| snap_id := doc_id; snap_data := Some d |} = Normal r
                /\ Recipe.defaults_filled d r /\ Recipe.populated r)
  /\ (exists r, RecipeDetailServer.RecipeDetailPage
                  (fun _ _ => Normal (Some d)) doc_id = Normal r
                /\ Recipe.defaults_filled d r /\ Recipe.populated r).
Proof.
  split; [|split].
  - eexists. split; [apply mapDoc_eq|].
    split; [apply shaped_defaults | apply shaped_populated].
  - eexists. split; [apply fetchedRecipe_eq|].
    split; [apply shaped_defaults | apply shaped_populated].
  - eexists. split; [apply (server_eq _ _ (Some d)); reflexivity|].
    split; [apply shaped_defaults | apply shaped_populated].
Qed.

(** The example of the specification: the document [{name: "Soup"}]. *)
Example soup_document :
  RecipesPage.mapDoc "r1" {[ "name" := JStr "Soup" ]}
  = Normal {| Recipe.id := "r1";
              Recipe.name := JStr "Soup";
              Recipe.ingredients := JArr [];
              Recipe.instructions := JArr [];
              Recipe.cookingTime := JNum 0;
              Recipe.servings := JNum 0;
              Recipe.userId := JStr "unknown";
              Recipe.imageUrl := JStr "";
              Recipe.categories := JArr [];
              Recipe.createdAt := JUndefined |}.
Proof. reflexivity. Qed.

(** C7: the mappers are total. They take a document and an id and nothing
    else (no store, no world), and for every document, also one that lacks
    any set of fields or, on the detail page, whose data is undefined, they
    complete normally with a Recipe none of whose defaulted fields is null
    or undefined; an absent array becomes the empty array. A scan that
    succeeds never takes the list page into its catch block. *)
Theorem mappers_are_total :
  (forall doc_id (d : gmap string jsval),
      exists r, RecipesPage.mapDoc doc_id d = Normal r
                /\ Recipe.populated r
                /\ (d !! "ingredients" = None -> Recipe.ingredients r = JArr [])
                /\ (d !! "instructions" = None -> Recipe.instructions r = JArr [])
                /\ (d !! "categories" = None -> Recipe.categories r = JArr []))
  /\ (forall doc_id (data : option (gmap string jsval)),
         exists r, RecipeDetailPage.fetchedRecipe
                     {| snap_id := doc_id; snap_data := data |} = Normal r
                   /\ Recipe.populated r
                   /\ (snap_field data "ingredients" = JUndefined ->
                       Recipe.ingredients r = JArr [])
                   /\ (snap_field data "instructions" = JUndefined ->
                       Recipe.instructions r = JArr [])
                   /\ (snap_field data "categories" = JUndefined ->
                       Recipe.categories r = JArr []))
  /\ (forall docs st,
         RecipesPage.error (RecipesPage.fetchRecipes (Normal docs) st)
         = RecipesPage.error st
         /\ length (RecipesPage.recipes
                      (RecipesPage.fetchRecipes (Normal docs) st))
            = length docs
         /\ Forall Recipe.populated
              (RecipesPage.recipes (RecipesPage.fetchRecipes (Normal docs) st))).
Proof.
  split; [|split].
  - intros doc_id d. eexists. split; [apply mapDoc_eq|].
    split; [apply shaped_populated|].
    destruct (shaped_defaults doc_id d
                (list_createdAt (field d "createdAt")))
      as (_ & H2 & H3 & _ & _ & _ & _ & H8).
    auto.
  - intros doc_id data. eexists. split; [apply fetchedRecipe_eq|].
    split; [apply shaped_populated|].
    unfold shaped; cbn. repeat split; intros ->; reflexivity.
  - intros docs st. rewrite fetchRecipes_ok. cbn.
    split; [reflexivity|]. split; [apply length_map|].
    apply List.Forall_forall. intros r Hr. apply in_map_iff in Hr.
    destruct Hr as (doc & <- & _). apply shaped_populated.
Qed.

(** C10: the string fields are defaulted whenever the stored value is
    falsy, so a stored name "" reads as "Untitled Recipe" and a stored
    userId "" as "unknown"; the numeric fields are defaulted only for null
    and undefined, so a stored cookingTime or servings of 0 stays 0. Both
    on the list page and on the detail page. *)
Theorem falsy_strings_defaulted_zero_kept
    (doc_id : string) (d : gmap string jsval) :
  exists r1 r2,
    RecipesPage.mapDoc doc_id d = Normal r1
    /\ RecipeDetailPage.fetchedRecipe
         {| snap_id := doc_id; snap_data := Some d |} = Normal r2
    /\ forall r, r = r1 \/ r = r2 ->
         (truthy (field d "name") = false ->
          Recipe.name r = JStr "Untitled Recipe")
         /\ (d !! "name" = Some (JStr "") ->
             Recipe.name r = JStr "Untitled Recipe")
         /\ (truthy (field d "userId") = false ->
             Recipe.userId r = JStr "unknown")
         /\ (d !! "userId" = Some (JStr "") ->
             Recipe.userId r = JStr "unknown")
         /\ (d !! "cookingTime" = Some (JNum 0) ->
             Recipe.cookingTime r = JNum 0)
         /\ (d !! "servings" = Some (JNum 0) -> Recipe.servings r = JNum 0)
         /\ (nullish (field d "cookingTime") = false ->
             Recipe.cookingTime r = field d "cookingTime")
         /\ (nullish (field d "servings") = false ->
             Recipe.servings r = field d "servings")
         /\ (nullish (field d "cookingTime") = true ->
             Recipe.cookingTime r = JNum 0)
         /\ (nullish (field d "servings") = true ->
             Recipe.servings r = JNum 0).
Proof.
  do 2 eexists. split; [apply mapDoc_eq|]. split; [apply fetchedRecipe_eq|].
  intros r [-> | ->]; unfold shaped, snap_field, field, or_else, coalesce; cbn;
    repeat split; intros H; rewrite H; reflexivity.
Qed.

(** The two cases the claim names, run on the list page. *)
Example empty_name_and_zero_time :
  RecipesPage.mapDoc "r1"
    {[ "name" := JStr ""; "userId" := JStr "";
       "cookingTime" := JNum 0; "servings" := JNum 0 ]}
  = Normal {| Recipe.id := "r1";
              Recipe.name := JStr "Untitled Recipe";
              Recipe.ingredients := JArr [];
              Recipe.instructions := JArr [];
              Recipe.cookingTime := JNum 0;
              Recipe.servings := JNum 0;
              Recipe.userId := JStr "unknown";
              Recipe.imageUrl := JStr "";
              Recipe.categories := JArr [];
              Recipe.createdAt := JUndefined |}.
Proof. reflexivity. Qed.

(** C6: the Record Mapper is idempotent, and its result depends on its
    input only. For every raw document, mapping the document equivalent to
    the already-mapped Recipe, which is what the store gives back for the
    Recipe's fields, a Date being kept as the timestamp of its instant,
    yields a Recipe identical to the first result, on the list page and on
    the detail page. There is such a document unless the store refuses the
    Date the list page made, which it can only do when the raw createdAt
    is a Timestamp of the last second before the year 10000. Two documents
    that agree on the nine properties the mappers read are mapped to the
    same Recipe. *)
Theorem mapper_idempotent (doc_id : string) (d : gmap string jsval) :
  raw_document d ->
  (exists r,
      RecipesPage.mapDoc doc_id d = Normal r
      /\ (forall d',
             Recipe.stored_doc r = Some d' ->
             RecipesPage.mapDoc (Recipe.id r) d' = Normal r)
      /\ (Recipe.stored_doc r = None ->
          exists ms,
            Recipe.createdAt r = JDate ms
            /\ FirestoreTimestamp.fromDate ms = None)
      /\ (instanceof_Timestamp (field d "createdAt") = false ->
          exists d', Recipe.stored_doc r = Some d')
      /\ (forall seconds nanoseconds,
             field d "createdAt" = JTimestamp seconds nanoseconds ->
             (seconds < FirestoreTimestamp.MAX_SECONDS - 1)%Z ->
             exists d', Recipe.stored_doc r = Some d'))
  /\ (exists r d',
         RecipeDetailPage.fetchedRecipe
           {| snap_id := doc_id; snap_data := Some d |} = Normal r
         /\ Recipe.stored_doc r = Some d'
         /\ RecipeDetailPage.fetchedRecipe
              {| snap_id := Recipe.id r; snap_data := Some d' |} = Normal r)
  /\ (forall d2 : gmap string jsval,
         (forall key, In key Recipe.read_keys -> field d2 key = field d key) ->
         RecipesPage.mapDoc doc_id d2 = RecipesPage.mapDoc doc_id d
         /\ RecipeDetailPage.fetchedRecipe
              {| snap_id := doc_id; snap_data := Some d2 |}
            = RecipeDetailPage.fetchedRecipe
                {| snap_id := doc_id; snap_data := Some d |}).
Proof.
  intros Hraw. split; [|split].
  - eexists. split; [apply mapDoc_eq|].
    pose proof (stored_doc_shaped doc_id d
                  (list_createdAt (field d "createdAt")) Hraw) as Hs.
    destruct (Recipe.stored_value (list_createdAt (field d "createdAt")))
      as [created'|] eqn:E.
    + destruct Hs as (d0 & Hd0 & Hc & Hfields).
      split; [|split; [|split]].
      * intros d' Hd'. rewrite Hd0 in Hd'. injection Hd' as <-.
        rewrite mapDoc_eq. cbn [Recipe.id shaped].
        rewrite Hfields, Hc. now rewrite (list_createdAt_stored _ _ E).
      * rewrite Hd0. discriminate.
      * intros _. eauto.
      * intros _ _ _ _. eauto.
    + split; [|split; [|split]].
      * rewrite Hs. discriminate.
      * intros _. cbn [Recipe.createdAt shaped].
        destruct (field d "createdAt"); try discriminate E.
        cbn in *. eexists. split; [reflexivity|].
        now destruct (FirestoreTimestamp.fromDate _) as [[? ?]|].
      * intros H. destruct (field d "createdAt"); discriminate.
      * intros seconds nanoseconds Hf Hbelow. exfalso.
        assert (Hin : FirestoreTimestamp.in_range seconds nanoseconds = true).
        { pose proof (raw_field_from_store d "createdAt" Hraw) as Hv.
          rewrite Hf in Hv. destruct Hv as [Hv | Hv]; [discriminate Hv|].
          now inversion Hv. }
        destruct (fromDate_toDate_total _ _ Hin Hbelow) as (s' & ns' & Ht).
        rewrite Hf in E. cbn in E. rewrite Ht in E. discriminate E.
  - pose proof (stored_doc_shaped doc_id d
                  (or_else (field d "createdAt") JUndefined) Hraw) as Hs.
    rewrite stored_value_not_Date in Hs
      by (apply or_else_not_Date;
          [apply raw_field_not_Date, Hraw | reflexivity]).
    destruct Hs as (d0 & Hd0 & Hc & Hfields).
    do 2 eexists. split; [apply fetchedRecipe_eq|].
    cbn [snap_field]. split; [exact Hd0|].
    rewrite fetchedRecipe_eq. cbn [Recipe.id shaped snap_field].
    rewrite Hfields, Hc. now rewrite or_else_idem.
  - intros d2 H. rewrite !mapDoc_eq, !fetchedRecipe_eq. cbn [snap_field].
    rewrite !(shaped_ext doc_id (field d) (field d2)) by exact H.
    rewrite (H "createdAt") by (unfold Recipe.read_keys; cbn; tauto).
    split; reflexivity.
Qed.

Lemma mapper_idempotent_witness :
  (exists r,
      RecipesPage.mapDoc "r1" late_timestamp_document = Normal r
      /\ (forall d',
             Recipe.stored_doc r = Some d' ->
             RecipesPage.mapDoc (Recipe.id r) d' = Normal r)
      /\ (Recipe.stored_doc r = None ->
          exists ms,
            Recipe.createdAt r = JDate ms
            /\ FirestoreTimestamp.fromDate ms = None)
      /\ (instanceof_Timestamp (field late_timestamp_document "createdAt")
          = false ->
          exists d', Recipe.stored_doc r = Some d')
      /\ (forall seconds nanoseconds,
             field late_timestamp_document "createdAt"
             = JTimestamp seconds nanoseconds ->
             (seconds < FirestoreTimestamp.MAX_SECONDS - 1)%Z ->
             exists d', Recipe.stored_doc r = Some d'))
  /\ (exists r d',
         RecipeDetailPage.fetchedRecipe
           {| snap_id := "r1"; snap_data := Some late_timestamp_document |}
         = Normal r
         /\ Recipe.stored_doc r = Some d'
         /\ RecipeDetailPage.fetchedRecipe
              {| snap_id := Recipe.id r; snap_data := Some d' |} = Normal r)
  /\ (forall d2 : gmap string jsval,
         (forall key,
             In key Recipe.read_keys ->
             field d2 key = field late_timestamp_document key) ->
         RecipesPage.mapDoc "r1" d2
         = RecipesPage.mapDoc "r1" late_timestamp_document
         /\ RecipeDetailPage.fetchedRecipe
              {| snap_id := "r1"; snap_data := Some d2 |}
            = RecipeDetailPage.fetchedRecipe
                {| snap_id := "r1";
                   snap_data := Some late_timestamp_document |}).
Proof.
  apply (mapper_idempotent "r1" late_timestamp_document).
  unfold raw_document, late_timestamp_document.
  apply map_Forall_insert_2; [constructor|].
  apply map_Forall_singleton. constructor. reflexivity.
Defined.

(** The same document by evaluation: the timestamp lies one nanosecond
    before a full second, [toDate()] rounds it to that second, the store
    keeps the Date as the timestamp of the full second, and mapping the
    stored document gives the first Recipe again. The binary64 sum of the
    first line is the one [toMillis()] computes. *)
Example late_timestamp_round_trip :
  (1700000000 * 1000 + 999999999 / 1000000 = 1700000001000)%float
  /\ FirestoreTimestamp.toDate_time 1700000000 999999999 = 1700000001000%Z
  /\ exists r d',
       RecipesPage.mapDoc "r1" late_timestamp_document = Normal r
       /\ Recipe.createdAt r = JDate 1700000001000
       /\ Recipe.stored_doc r = Some d'
       /\ field d' "createdAt" = JTimestamp 1700000001 0
       /\ RecipesPage.mapDoc "r1" d' = Normal r.
Proof.
  split; [reflexivity|]. split; [reflexivity|].
  do 2 eexists. split; [reflexivity|]. split; [reflexivity|].
  split; [vm_compute; reflexivity|]. split; vm_compute; reflexivity.
Qed.

(** In its last half millisecond the last second before the year 10000
    has a [toDate()] in the year 10000, which the store does not keep; one
    second earlier it keeps it. *)
Example last_second_has_no_stored_date :
  from_store (JTimestamp 253402300799 999999999)
  /\ FirestoreTimestamp.toDate_time 253402300799 999999999
     = 253402300800000%Z
  /\ (exists r,
         RecipesPage.mapDoc "r1"
           {[ "createdAt" := JTimestamp 253402300799 999999999 ]} = Normal r
         /\ Recipe.stored_doc r = None)
  /\ (exists r d',
         RecipesPage.mapDoc "r1"
           {[ "createdAt" := JTimestamp 253402300798 999999999 ]} = Normal r
         /\ Recipe.stored_doc r = Some d'
         /\ field d' "createdAt" = JTimestamp 253402300799 0).
Proof.
  split; [now constructor|]. split; [reflexivity|]. split.
  - eexists. split; [reflexivity|]. vm_compute. reflexivity.
  - do 2 eexists. split; [reflexivity|].
    split; [vm_compute; reflexivity|]. vm_compute. reflexivity.
Qed.

(** ** Recipe detail: a missing document *)

(** C3, on the client detail page: for a document that does not exist,
    [notFound()] is called inside the [try] block, so the [catch] block
    takes its exception like any other. The page ends in the very state a
    store failure leaves it in, with the error "Failed to load recipe.";
    the server page, from the same two answers of the store, throws the
    not-found signal in the first case and the store's error in the
    second. *)
Theorem client_not_found_ends_as_load_failure
    (recipeId msg : string) (st : RecipeDetailPage.State) :
  let missing := fun _ _ : string => Normal (@None (gmap string jsval)) in
  let broken := fun _ _ : string =>
                  @Throw (option (gmap string jsval)) (FirebaseError msg) in
  RecipeDetailPage.fetchRecipe missing recipeId st
  = RecipeDetailPage.fetchRecipe broken recipeId st
  /\ RecipeDetailPage.error (RecipeDetailPage.fetchRecipe missing recipeId st)
     = Some "Failed to load recipe."
  /\ RecipeDetailPage.recipe (RecipeDetailPage.fetchRecipe missing recipeId st)
     = RecipeDetailPage.recipe st
  /\ RecipeDetailServer.RecipeDetailPage missing recipeId = Throw NextNotFound
  /\ RecipeDetailServer.RecipeDetailPage broken recipeId
     = Throw (FirebaseError msg).
Proof. cbv zeta. repeat split; reflexivity. Qed.

(** ** Session store *)

Lemma run_app evs evs' :
  AuthContext.run (evs ++ evs')
  = fold_left AuthContext.step evs' (AuthContext.run evs).
Proof. unfold AuthContext.run. apply fold_left_app. Qed.

Lemma resolved_stays_resolved evs st :
  AuthContext.loading st = false ->
  AuthContext.loading (fold_left AuthContext.step evs st) = false.
Proof.
  revert st. induction evs as [|ev evs IH]; intros st H; [exact H|].
  cbn [fold_left]. apply IH. now destruct ev.
Qed.

Lemma no_callback_no_change evs st :
  existsb AuthContext.is_callback evs = false ->
  fold_left AuthContext.step evs st = st.
Proof.
  revert st. induction evs as [|ev evs IH]; intros st H; [reflexivity|].
  cbn [existsb] in H. apply orb_false_iff in H as [Hev Hevs].
  cbn [fold_left]. rewrite IH by exact Hevs. now destruct ev.
Qed.

Lemma session_resolved st :
  AuthContext.loading st = false ->
  AuthContext.session_of st <> AuthContext.Unresolved.
Proof.
  unfold AuthContext.session_of. intros ->.
  now destruct (AuthContext.currentUser st).
Qed.

Lemma unresolved_iff_no_callback evs :
  AuthContext.session_of (AuthContext.run evs) = AuthContext.Unresolved
  <-> existsb AuthContext.is_callback evs = false.
Proof.
  split.
  - intros H. destruct (existsb AuthContext.is_callback evs) eqn:E;
      [|reflexivity].
    exfalso. apply existsb_exists in E as (ev & Hin & Hev).
    apply in_split in Hin as (l1 & l2 & ->).
    destruct ev; try discriminate Hev.
    rewrite run_app in H. cbn [fold_left] in H.
    revert H. apply session_resolved, resolved_stays_resolved. reflexivity.
  - intros H. unfold AuthContext.run.
    now rewrite (no_callback_no_change _ _ H).
Qed.

(** C8: the store starts Unresolved, with the loading flag set; it stays in
    that very state as long as the provider has delivered no session,
    whatever else is called; the first delivery takes it to Anonymous or to
    Authenticated with the delivered identity; and it is never Unresolved
    again. *)
Theorem session_store_resolves_once :
  AuthContext.session_of AuthContext.initial = AuthContext.Unresolved
  /\ AuthContext.loading AuthContext.initial = true
  /\ (forall evs,
         existsb AuthContext.is_callback evs = false ->
         AuthContext.run evs = AuthContext.initial)
  /\ (forall evs user evs',
         existsb AuthContext.is_callback evs = false ->
         AuthContext.session_of
           (AuthContext.run (evs ++ [AuthContext.AuthStateChanged user]))
         = match user with
           | None => AuthContext.Anonymous
           | Some u => AuthContext.Authenticated u
           end
         /\ AuthContext.session_of
              (AuthContext.run
                 (evs ++ AuthContext.AuthStateChanged user :: evs'))
            <> AuthContext.Unresolved)
  /\ (forall evs,
         AuthContext.session_of (AuthContext.run evs) = AuthContext.Unresolved
         <-> existsb AuthContext.is_callback evs = false).
Proof.
  split; [reflexivity|]. split; [reflexivity|]. split; [|split].
  - intros evs H. apply no_callback_no_change, H.
  - intros evs user evs' H. rewrite !run_app.
    unfold AuthContext.run. rewrite (no_callback_no_change _ _ H).
    cbn [fold_left]. split; [now destruct user|].
    apply session_resolved, resolved_stays_resolved. reflexivity.
  - apply unresolved_iff_no_callback.
Qed.

(** C4: when the provider creates the account and the profile write is
    rejected, [signup] throws the store's error to its caller, after
    logging it; the provider's session is the new identity's, the store is
    as it was, and when the provider next delivers its session the store is
    Authenticated for that identity. Nothing signs the user out or removes
    the account. *)
Theorem signup_profile_failure_keeps_session
    (B : AuthContext.Backend) (now : Z) (email_ password : string)
    (w : AuthContext.World) (u : AuthContext.User) (e : exn)
    (st : AuthContext.State) :
  AuthContext.create_answer B email_ password = Normal u ->
  AuthContext.setDoc_answer B "users" (AuthContext.uid u)
    (AuthContext.profileRecord u now) = Some e ->
  exists w',
    AuthContext.signup B now email_ password w = (Throw e, w')
    /\ AuthContext.provider_session w' = Some u
    /\ AuthContext.documents w' = AuthContext.documents w
    /\ AuthContext.console w'
       = (AuthContext.console w ++ [("Signup error:", e)])%list
    /\ AuthContext.session_of
         (AuthContext.step st
            (AuthContext.AuthStateChanged (AuthContext.provider_session w')))
       = AuthContext.Authenticated u.
Proof.
  intros Hcreate Hwrite. eexists.
  unfold AuthContext.signup, AuthContext.try_catch, AuthContext.eff_bind,
    AuthContext.createUserWithEmailAndPassword, AuthContext.setDoc.
  rewrite Hcreate; cbn. rewrite Hwrite; cbn.
  repeat split; reflexivity.
Qed.

Lemma signup_profile_failure_keeps_session_witness :
  exists w',
    AuthContext.signup offline_store 0 "a@b.com" "pw"
      {| AuthContext.provider_session := None;
         AuthContext.documents := ∅;
         AuthContext.console := [] |}
    = (Throw (FirebaseError "unavailable"), w')
    /\ AuthContext.provider_session w'
       = Some {| AuthContext.uid := "uid-1";
                 AuthContext.email := Some "a@b.com" |}
    /\ AuthContext.documents w' = ∅
    /\ AuthContext.console w'
       = ([] ++ [("Signup error:", FirebaseError "unavailable")])%list
    /\ AuthContext.session_of
         (AuthContext.step AuthContext.initial
            (AuthContext.AuthStateChanged (AuthContext.provider_session w')))
       = AuthContext.Authenticated
           {| AuthContext.uid := "uid-1";
              AuthContext.email := Some "a@b.com" |}.
Proof.
  apply (signup_profile_failure_keeps_session offline_store 0 "a@b.com" "pw"
           {| AuthContext.provider_session := None;
              AuthContext.documents := ∅;
              AuthContext.console := [] |}
           {| AuthContext.uid := "uid-1";
              AuthContext.email := Some "a@b.com" |}
           (FirebaseError "unavailable") AuthContext.initial);
    reflexivity.
Defined.

(** ** Recipe detail: who may edit *)


(** *** What the JSX does on values of the declared types *)

Lemma mapM_Normal_id (l : list jsval) : mapM Normal l = Normal l.
Proof.
  induction l as [|x l IH]; [reflexivity|].
  cbn [mapM]. rewrite IH. reflexivity.
Qed.

Lemma mapM_Throw {A B : Type} (f : A -> Completion B) (l : list A) (x : A) :
  In x l -> (exists e, f x = Throw e) -> exists e, mapM f l = Throw e.
Proof.
  intros Hin (e & He). induction l as [|y l IH]; [destruct Hin|].
  cbn [mapM]. destruct Hin as [-> | Hin].
  - rewrite He. eauto.
  - destruct (f y); [|eauto]. destruct (IH Hin) as (e' & ->). eauto.
Qed.

Lemma mapM_length {A B : Type} (f : A -> Completion B) (l : list A)
    (l' : list B) :
  mapM f l = Normal l' -> List.length l' = List.length l.
Proof.
  revert l'. induction l as [|x l IH]; intros l' H.
  - injection H as <-. reflexivity.
  - cbn [mapM] in H. destruct (f x); [|discriminate].
    destruct (mapM f l) as [k|]; [|discriminate].
    injection H as <-. cbn. now rewrite (IH k).
Qed.

Lemma is_string_renderable (v : jsval) :
  Recipe.is_string v = true -> JSX.renderable v = true.
Proof. now destruct v. Qed.

Lemma is_number_renderable (v : jsval) :
  Recipe.is_number v = true -> JSX.renderable v = true.
Proof. now destruct v. Qed.

Lemma strings_renderable (l : list jsval) :
  forallb Recipe.is_string l = true -> forallb JSX.renderable l = true.
Proof.
  rewrite !forallb_forall. intros H x Hx.
  now apply is_string_renderable, H.
Qed.

(** An array of ingredients gives one renderable line per ingredient. *)
Lemma ingredient_lines (l : list jsval) :
  forallb Recipe.is_Ingredient l = true ->
  exists lines,
    mapM JSX.ingredient_line l = Normal lines
    /\ forallb JSX.line_renderable lines = true.
Proof.
  induction l as [|ing l IH]; intros H; [now exists []|].
  cbn [forallb] in H. apply andb_true_iff in H as [Hing Hl].
  destruct (IH Hl) as (lines & Hlines & Hr).
  destruct ing; try discriminate Hing. cbn [Recipe.is_Ingredient] in Hing.
  rewrite !andb_true_iff in Hing. destruct Hing as [[Hn Hq] Hu].
  eexists. cbn [mapM]. rewrite Hlines. split; [reflexivity|].
  cbn [forallb]. rewrite Hr. unfold JSX.line_renderable.
  cbn [JSX.quantity JSX.unit JSX.name].
  now rewrite (is_number_renderable _ Hq), (is_string_renderable _ Hu),
    (is_string_renderable _ Hn).
Qed.

Lemma categories_block_typed (P : JSX.Platform) (r : Recipe.t) :
  Recipe.is_optional (Recipe.is_array_of Recipe.is_string)
    (Recipe.categories r) = true ->
  exists cats,
    JSX.categories_block P r = Normal cats
    /\ forallb JSX.renderable cats = true.
Proof.
  unfold JSX.categories_block.
  destruct (Recipe.categories r) as [| | | | |l| | |]; try discriminate;
    intros H.
  - now exists [].
  - cbn in H. cbn. destruct (List.length l); cbn.
    + now exists [].
    + rewrite mapM_Normal_id. exists l. split; [reflexivity|].
      now apply strings_renderable.
Qed.

(** A card of the list page for a [Recipe] of the declared type. *)
Lemma card_typed (P : JSX.Platform) (r : Recipe.t) :
  Recipe.is_Recipe r = true ->
  exists c,
    RecipesPage.card P r = Normal c
    /\ RecipesPage.href c = "/recipes/" ++ Recipe.id r
    /\ (JSX.image_mounts P (JSX.image r) = true ->
        RecipesPage.card_mounts P c = true).
Proof.
  unfold Recipe.is_Recipe. rewrite !andb_true_iff.
  intros [[[[[[[Hname Hings] Hsteps] Htime] Hserv] Huser] _] Hcats].
  unfold RecipesPage.card.
  destruct (Recipe.ingredients r) as [| | | | |ings| | |];
    try discriminate Hings.
  destruct (Recipe.instructions r) as [| | | | |steps| | |];
    try discriminate Hsteps.
  cbn in Hings, Hsteps. cbn [JSX.array_map].
  destruct (ingredient_lines ings Hings) as (lines & -> & Hlines).
  rewrite mapM_Normal_id.
  destruct (categories_block_typed P r Hcats) as (cats & -> & Hr).
  eexists. split; [reflexivity|]. split; [reflexivity|].
  intros Himg. unfold RecipesPage.card_mounts.
  cbn [RecipesPage.image RecipesPage.title RecipesPage.servings
       RecipesPage.cookingTime RecipesPage.ingredients
       RecipesPage.instructions RecipesPage.categories
       RecipesPage.createdBy].
  now rewrite Himg, Hlines, Hr, (strings_renderable _ Hsteps),
    (is_string_renderable _ Hname), (is_string_renderable _ Huser),
    (is_number_renderable _ Htime), (is_number_renderable _ Hserv).
Qed.

(** The detail view of a [Recipe] of the declared type. *)
Lemma jsx_typed (P : JSX.Platform) (r : Recipe.t) (isOwner_ : bool) :
  RecipeDetailPage.is_Recipe r = true ->
  exists d,
    RecipeDetailPage.jsx P r isOwner_ = Normal d
    /\ (JSX.image_mounts P (JSX.image r) = true ->
        RecipeDetailPage.mounts P d = true).
Proof.
  unfold RecipeDetailPage.is_Recipe, Recipe.is_Recipe.
  rewrite !andb_true_iff.
  intros [[[[[[[[Hname Hings] Hsteps] Htime] Hserv] Huser] _] Hcats] Hdate].
  unfold RecipeDetailPage.jsx.
  assert (Hd : exists addedOn_,
             (if truthy (Recipe.createdAt r)
              then (date ← toDate (Recipe.createdAt r); Normal (Some date))
              else Normal None) = Normal addedOn_).
  { destruct (Recipe.createdAt r); try discriminate Hdate; cbn; eauto. }
  destruct Hd as (addedOn_ & ->).
  destruct (Recipe.ingredients r) as [| | | | |ings| | |];
    try discriminate Hings.
  destruct (Recipe.instructions r) as [| | | | |steps| | |];
    try discriminate Hsteps.
  cbn in Hings, Hsteps.
  cbn [mbind Completion_bind bind JSX.length_of JSX.strict_eq_zero
       JSX.array_map].
  destruct (ingredient_lines ings Hings) as (lines & Hl & Hlines).
  destruct (categories_block_typed P r Hcats) as (cats & Hc & Hr).
  assert (Hi : exists lines',
             (if Nat.eqb (List.length ings) 0 then Normal []
              else mapM JSX.ingredient_line ings) = Normal lines'
             /\ forallb JSX.line_renderable lines' = true).
  { destruct (Nat.eqb _ 0); [now exists []|]. eauto. }
  destruct Hi as (lines' & -> & Hlines').
  assert (Hs : exists steps',
             (if Nat.eqb (List.length steps) 0 then Normal []
              else mapM Normal steps) = Normal steps'
             /\ forallb JSX.renderable steps' = true).
  { destruct (Nat.eqb _ 0); [now exists []|]. rewrite mapM_Normal_id.
    exists steps. split; [reflexivity|]. now apply strings_renderable. }
  destruct Hs as (steps' & -> & Hsteps').
  cbn [mbind Completion_bind bind]. rewrite Hc.
  eexists. split; [reflexivity|].
  intros Himg. unfold RecipeDetailPage.mounts.
  cbn [RecipeDetailPage.image RecipeDetailPage.heading
       RecipeDetailPage.servings RecipeDetailPage.cookingTime
       RecipeDetailPage.ingredients RecipeDetailPage.instructions
       RecipeDetailPage.categories RecipeDetailPage.createdBy].
  now rewrite Himg, Hlines', Hsteps', Hr,
    (is_string_renderable _ Hname), (is_string_renderable _ Huser),
    (is_number_renderable _ Htime), (is_number_renderable _ Hserv).
Qed.

(** The link of the returned element is the [isOwner] of the call. *)
Lemma jsx_editLink (P : JSX.Platform) (r : Recipe.t) (isOwner_ : bool)
    (d : RecipeDetailPage.Detail) :
  RecipeDetailPage.jsx P r isOwner_ = Normal d ->
  RecipeDetailPage.editLink d = isOwner_.
Proof.
  unfold RecipeDetailPage.jsx.
  destruct (if truthy _ then _ else _); [|discriminate].
  cbn [mbind Completion_bind bind].
  destruct (JSX.length_of (Recipe.ingredients r)); [|discriminate].
  cbn [mbind Completion_bind bind].
  destruct (if JSX.strict_eq_zero _ then _ else _); [|discriminate].
  cbn [mbind Completion_bind bind].
  destruct (JSX.length_of (Recipe.instructions r)); [|discriminate].
  cbn [mbind Completion_bind bind].
  destruct (if JSX.strict_eq_zero _ then _ else _); [|discriminate].
  cbn [mbind Completion_bind bind].
  destruct (JSX.categories_block P r); [|discriminate].
  cbn [mbind Completion_bind bind]. intros H. injection H as <-.
  reflexivity.
Qed.

(** The detail page of a loaded recipe, once its own fetch is over. *)
Lemma render_loaded (P : JSX.Platform) (st : RecipeDetailPage.State)
    (auth : AuthContext.State) (r : Recipe.t) :
  RecipeDetailPage.recipe st = Some r ->
  RecipeDetailPage.loading st = false ->
  RecipeDetailPage.error st = None ->
  RecipeDetailPage.render P st auth
  = if AuthContext.loading auth then Normal RecipeDetailPage.LoadingView
    else (d ← RecipeDetailPage.jsx P r
                (RecipeDetailPage.isOwner (AuthContext.currentUser auth) r);
          Normal (RecipeDetailPage.DetailView d)).
Proof.
  intros Hrecipe Hloading Herror. unfold RecipeDetailPage.render.
  now rewrite Hrecipe, Hloading, Herror.
Qed.

(** The link is on screen exactly when the session store is resolved, the
    test of [isOwner] holds and the recipe is on screen. *)
Lemma shows_edit_loaded (P : JSX.Platform) (st : RecipeDetailPage.State)
    (auth : AuthContext.State) (r : Recipe.t) :
  RecipeDetailPage.recipe st = Some r ->
  RecipeDetailPage.loading st = false ->
  RecipeDetailPage.error st = None ->
  RecipeDetailPage.shows_edit P (RecipeDetailPage.render P st auth) = true
  <-> (exists d,
          RecipeDetailPage.render P st auth
          = Normal (RecipeDetailPage.DetailView d)
          /\ RecipeDetailPage.mounts P d = true)
      /\ AuthContext.loading auth = false
      /\ RecipeDetailPage.isOwner (AuthContext.currentUser auth) r = true.
Proof.
  intros Hrecipe Hloading Herror.
  rewrite (render_loaded P st auth r Hrecipe Hloading Herror).
  destruct (AuthContext.loading auth).
  { cbn. split; [discriminate|]. intros (_ & H & _). discriminate H. }
  destruct (RecipeDetailPage.jsx P r _) as [d|e] eqn:E;
    cbn [mbind Completion_bind bind RecipeDetailPage.shows_edit].
  - rewrite andb_true_iff, (jsx_editLink _ _ _ _ E). split.
    + intros [Ho Hm]. split; [|split]; eauto.
    + intros ((d' & Hd' & Hm) & _ & Ho). injection Hd' as <-. now split.
  - split; [discriminate|]. intros ((d' & Hd' & _) & _). discriminate Hd'.
Qed.






(** The owner sees the link; another user and an anonymous visitor do
    not; and the owner of a recipe whose [ingredients] is a string does not
    either, for the page throws at [recipe.ingredients.map]. *)
Example edit_link_cases :
  RecipeDetailPage.shows_edit sample_platform
    (RecipeDetailPage.render sample_platform loaded_page
       (signed_in owner_u1))
  = true
  /\ RecipeDetailPage.shows_edit sample_platform
       (RecipeDetailPage.render sample_platform loaded_page
          (signed_in {| AuthContext.uid := "u2";
                        AuthContext.email := None |}))
     = false
  /\ RecipeDetailPage.shows_edit sample_platform
       (RecipeDetailPage.render sample_platform loaded_page
          (AuthContext.run [AuthContext.AuthStateChanged None]))
     = false
  /\ RecipeDetailPage.render sample_platform
       (RecipeDetailPage.fetchRecipe
          (fun _ _ => Normal (Some (<["userId" := JStr "u1"]> salted)))
          "r1" RecipeDetailPage.initial)
       (signed_in owner_u1)
     = Throw (TypeError "map is not a function").
Proof. repeat split; reflexivity. Qed.

(** ** Recipe creation *)

Lemma str_truthy_false (s : string) : str_truthy s = false <-> s = "".
Proof. destruct s; cbn; split; congruence. Qed.

Lemma num_truthy_false (x : float) :
  num_truthy x = false
  <-> PrimFloat.eqb x 0 = true \/ PrimFloat.is_nan x = true.
Proof.
  unfold num_truthy. rewrite negb_false_iff, orb_true_iff. reflexivity.
Qed.

Lemma is_empty_string_true (v : option float) :
  AddRecipePage.is_empty_string v = true <-> v = None.
Proof. destruct v; cbn; split; congruence. Qed.

(** The validation condition of the code, read as a proposition. *)
Lemma required_fields_missing_iff (st : AddRecipePage.State) :
  AddRecipePage.required_fields_missing st = true
  <-> AddRecipePage.recipeName st = ""
      \/ (exists ing,
             In ing (AddRecipePage.ingredients st)
             /\ (AddRecipePage.Ingredient.name ing = ""
                 \/ (PrimFloat.eqb (AddRecipePage.Ingredient.quantity ing) 0
                     = true
                     \/ PrimFloat.is_nan (AddRecipePage.Ingredient.quantity ing)
                        = true)
                 \/ AddRecipePage.Ingredient.unit ing = ""))
      \/ In "" (AddRecipePage.instructions st)
      \/ AddRecipePage.cookingTime st = None
      \/ AddRecipePage.servings st = None.
Proof.
  unfold AddRecipePage.required_fields_missing.
  rewrite !orb_true_iff, !existsb_exists, !is_empty_string_true,
    negb_true_iff, str_truthy_false.
  split.
  - intros [[[[H | (ing & Hin & H)] | (inst & Hin & H)] | H] | H].
    + tauto.
    + right; left. exists ing. split; [exact Hin|].
      rewrite !orb_true_iff, !negb_true_iff, !str_truthy_false,
        num_truthy_false in H.
      tauto.
    + right; right; left.
      rewrite negb_true_iff, str_truthy_false in H. now subst inst.
    + tauto.
    + tauto.
  - intros [H | [(ing & Hin & H) | [H | [H | H]]]].
    + tauto.
    + left; left; left; right. exists ing. split; [exact Hin|].
      rewrite !orb_true_iff, !negb_true_iff, !str_truthy_false,
        num_truthy_false.
      tauto.
    + left; left; right. exists "". split; [exact H|reflexivity].
    + tauto.
    + tauto.
Qed.

(** The handler reports a validation error exactly when the condition of
    its first [if] holds; otherwise it sends one insert. *)
Lemma handleSubmit_validation currentUser now addDoc st :
  AddRecipePage.validation_error
    (AddRecipePage.handleSubmit currentUser now addDoc st)
  <-> AddRecipePage.required_fields_missing st = true.
Proof.
  unfold AddRecipePage.validation_error, AddRecipePage.handleSubmit.
  destruct (AddRecipePage.required_fields_missing st).
  - cbn. tauto.
  - destruct (addDoc _ _); cbn; split; intros H;
      try discriminate H; destruct H as [_ H]; discriminate H.
Qed.

Lemma handleSubmit_sends currentUser now addDoc st :
  AddRecipePage.required_fields_missing st = false ->
  List.filter AddRecipePage.is_AddDoc
    (snd (AddRecipePage.handleSubmit currentUser now addDoc st))
  = [AddRecipePage.AddDoc "recipes"
       (AddRecipePage.recipeData currentUser now st)].
Proof.
  intros H. unfold AddRecipePage.handleSubmit. rewrite H.
  now destruct (addDoc _ _).
Qed.

Lemma filter_keeps_all {A} (reject keep : A -> bool) (l : list A) :
  (forall x, reject x = false -> keep x = true) ->
  existsb reject l = false -> List.filter keep l = l.
Proof.
  intros Hrk. induction l as [|x l IH]; [reflexivity|].
  cbn. intros H. apply orb_false_iff in H as [Hx Hl].
  rewrite (Hrk x Hx), IH by exact Hl. reflexivity.
Qed.

(** C1, as stated, fails: a draft whose only step is blank, and a draft
    with an ingredient of quantity -1, each violate a required-field
    constraint of the specification, yet neither gets the validation error
    and each is sent to the store; the first one is stored without any
    instruction. *)
Lemma validation_is_not_the_spec_constraints :
  AddRecipePage.spec_required_fields_ok (draft [salt] ["   "] "" "") = false
  /\ ~ AddRecipePage.validation_error
         (AddRecipePage.handleSubmit owner_u1 noon accept
            (draft [salt] ["   "] "" ""))
  /\ snd (AddRecipePage.handleSubmit owner_u1 noon accept
            (draft [salt] ["   "] "" ""))
     = [AddRecipePage.AddDoc "recipes"
          {| AddRecipePage.RecipeFormData.name := "Soup";
             AddRecipePage.RecipeFormData.ingredients := [salt];
             AddRecipePage.RecipeFormData.instructions := [];
             AddRecipePage.RecipeFormData.cookingTime := 10;
             AddRecipePage.RecipeFormData.servings := 2;
             AddRecipePage.RecipeFormData.userId := "u1";
             AddRecipePage.RecipeFormData.imageUrl := None;
             AddRecipePage.RecipeFormData.categories := None;
             AddRecipePage.RecipeFormData.createdAt := noon |};
        AddRecipePage.RouterPush "/recipes"]
  /\ AddRecipePage.spec_required_fields_ok
       (draft [AddRecipePage.Ingredient.mk "Salt" (-1) "g"] ["Boil"] "" "")
     = false
  /\ ~ AddRecipePage.validation_error
         (AddRecipePage.handleSubmit owner_u1 noon accept
            (draft [AddRecipePage.Ingredient.mk "Salt" (-1) "g"] ["Boil"]
               "" "")).
Proof.
  split; [reflexivity|]. split; [intros [H _]; discriminate H|].
  split; [reflexivity|]. split; [reflexivity|].
  intros [H _]; discriminate H.
Qed.

(** C1, amended: [create] fails with the validation error, and sends
    nothing to the store, if and only if the name is empty, or some
    ingredient has an empty name, an empty unit or a quantity that is zero
    or not a number, or some instruction step is the empty string, or
    cookingTime or servings is unset; otherwise exactly one insert is sent.
    In particular an ingredient of quantity 0 fails, and the draft whose
    ingredient is 5 g of Salt passes. *)
Theorem create_validation_error_iff
    (currentUser : AuthContext.User) (now : Timestamp)
    (addDoc : string -> AddRecipePage.RecipeFormData.t -> Completion string)
    (st : AddRecipePage.State) :
  (AddRecipePage.validation_error
     (AddRecipePage.handleSubmit currentUser now addDoc st)
   <-> AddRecipePage.recipeName st = ""
       \/ (exists ing,
              In ing (AddRecipePage.ingredients st)
              /\ (AddRecipePage.Ingredient.name ing = ""
                  \/ (PrimFloat.eqb (AddRecipePage.Ingredient.quantity ing) 0
                      = true
                      \/ PrimFloat.is_nan
                           (AddRecipePage.Ingredient.quantity ing) = true)
                  \/ AddRecipePage.Ingredient.unit ing = ""))
       \/ In "" (AddRecipePage.instructions st)
       \/ AddRecipePage.cookingTime st = None
       \/ AddRecipePage.servings st = None)
  /\ (AddRecipePage.validation_error
        (AddRecipePage.handleSubmit currentUser now addDoc st) ->
      List.filter AddRecipePage.is_AddDoc
        (snd (AddRecipePage.handleSubmit currentUser now addDoc st)) = [])
  /\ (~ AddRecipePage.validation_error
          (AddRecipePage.handleSubmit currentUser now addDoc st) ->
      List.filter AddRecipePage.is_AddDoc
        (snd (AddRecipePage.handleSubmit currentUser now addDoc st))
      = [AddRecipePage.AddDoc "recipes"
           (AddRecipePage.recipeData currentUser now st)])
  /\ (forall ing,
         In ing (AddRecipePage.ingredients st) ->
         AddRecipePage.Ingredient.quantity ing = 0%float ->
         AddRecipePage.validation_error
           (AddRecipePage.handleSubmit currentUser now addDoc st))
  /\ ~ AddRecipePage.validation_error
         (AddRecipePage.handleSubmit currentUser now addDoc
            (draft [salt] ["Boil"] "" "")).
Proof.
  split; [|split; [|split; [|split]]].
  - rewrite handleSubmit_validation. apply required_fields_missing_iff.
  - intros [_ H]. now rewrite H.
  - intros H. apply handleSubmit_sends.
    rewrite handleSubmit_validation in H.
    now destruct (AddRecipePage.required_fields_missing st).
  - intros ing Hin Hq.
    apply handleSubmit_validation, required_fields_missing_iff.
    right; left. exists ing. split; [exact Hin|].
    right; left; left. now rewrite Hq.
  - rewrite handleSubmit_validation. discriminate.
Qed.

Lemma strict_ne_false (a b : string) :
  JSString.strict_ne a b = false <-> a = b.
Proof.
  unfold JSString.strict_ne. rewrite negb_false_iff. apply String.eqb_eq.
Qed.

Lemma parsedCategories_spec (cats cat : string) :
  In cat (AddRecipePage.parsedCategories cats)
  <-> cat <> ""
      /\ exists piece, In piece (JSString.split_comma cats)
                       /\ cat = JSString.trim piece.
Proof.
  unfold AddRecipePage.parsedCategories.
  rewrite filter_In, in_map_iff. split.
  - intros ((piece & <- & Hin) & Hne). split; [|eauto].
    intros H. apply strict_ne_false in H. congruence.
  - intros (Hne & piece & Hin & ->). split; [eauto|].
    destruct (JSString.strict_ne _ _) eqn:E; [reflexivity|].
    apply strict_ne_false in E. contradiction.
Qed.

(** The fields of the document handed to [addDoc]. *)
Lemma recipeData_fields currentUser now st :
  let data := AddRecipePage.recipeData currentUser now st in
  AddRecipePage.RecipeFormData.name data = AddRecipePage.recipeName st
  /\ AddRecipePage.RecipeFormData.ingredients data
     = List.filter
         (fun ing => str_truthy (AddRecipePage.Ingredient.name ing)
                     && num_truthy (AddRecipePage.Ingredient.quantity ing)
                     && str_truthy (AddRecipePage.Ingredient.unit ing))
         (AddRecipePage.ingredients st)
  /\ AddRecipePage.RecipeFormData.userId data = AuthContext.uid currentUser
  /\ AddRecipePage.RecipeFormData.createdAt data = now
  /\ AddRecipePage.RecipeFormData.imageUrl data
     = (if JSString.strict_ne (JSString.trim (AddRecipePage.imageUrl st)) ""
        then Some (JSString.trim (AddRecipePage.imageUrl st))
        else None)
  /\ AddRecipePage.RecipeFormData.categories data
     = match AddRecipePage.parsedCategories (AddRecipePage.categories st) with
       | [] => None
       | parsed => Some parsed
       end.
Proof.
  unfold AddRecipePage.recipeData.
  destruct (JSString.strict_ne _ _);
    destruct (AddRecipePage.parsedCategories _); cbn; repeat split.
Qed.

(** C5: for every draft that passes validation, exactly one insert goes to
    the store, into the collection "recipes"; the document sent has no
    imageUrl when the trimmed image URL is empty and the trimmed URL
    otherwise, no categories when the parsed list is empty and the parsed
    list otherwise (the non-empty trimmed pieces between commas), createdAt
    equal to the time of the call, and as ingredients exactly the
    ingredients of the draft. *)
Theorem create_inserts_cleaned_document
    (currentUser : AuthContext.User) (now : Timestamp)
    (addDoc : string -> AddRecipePage.RecipeFormData.t -> Completion string)
    (st : AddRecipePage.State) :
  ~ AddRecipePage.validation_error
      (AddRecipePage.handleSubmit currentUser now addDoc st) ->
  exists data,
    List.filter AddRecipePage.is_AddDoc
      (snd (AddRecipePage.handleSubmit currentUser now addDoc st))
    = [AddRecipePage.AddDoc "recipes" data]
    /\ AddRecipePage.RecipeFormData.ingredients data
       = AddRecipePage.ingredients st
    /\ AddRecipePage.RecipeFormData.createdAt data = now
    /\ (JSString.trim (AddRecipePage.imageUrl st) = "" ->
        AddRecipePage.RecipeFormData.imageUrl data = None)
    /\ (JSString.trim (AddRecipePage.imageUrl st) <> "" ->
        AddRecipePage.RecipeFormData.imageUrl data
        = Some (JSString.trim (AddRecipePage.imageUrl st)))
    /\ (AddRecipePage.parsedCategories (AddRecipePage.categories st) = [] ->
        AddRecipePage.RecipeFormData.categories data = None)
    /\ (AddRecipePage.parsedCategories (AddRecipePage.categories st) <> [] ->
        AddRecipePage.RecipeFormData.categories data
        = Some (AddRecipePage.parsedCategories (AddRecipePage.categories st)))
    /\ (forall cat,
           In cat (AddRecipePage.parsedCategories (AddRecipePage.categories st))
           <-> cat <> ""
               /\ exists piece,
                   In piece (JSString.split_comma (AddRecipePage.categories st))
                   /\ cat = JSString.trim piece)
    /\ AddRecipePage.RecipeFormData.name data = AddRecipePage.recipeName st
    /\ AddRecipePage.RecipeFormData.userId data = AuthContext.uid currentUser.
Proof.
  intros Hpass. rewrite handleSubmit_validation in Hpass.
  assert (Hok : AddRecipePage.required_fields_missing st = false)
    by now destruct (AddRecipePage.required_fields_missing st).
  clear Hpass. eexists. split; [apply handleSubmit_sends, Hok|].
  unfold AddRecipePage.required_fields_missing in Hok.
  rewrite !orb_false_iff in Hok. destruct Hok as [[[[_ Hings] _] _] _].
  destruct (recipeData_fields currentUser now st)
    as (Hname & Hing & Huid & Hcreated & Himg & Hcats).
  split.
  { rewrite Hing. apply filter_keeps_all with (2 := Hings). intros ing H.
    rewrite !orb_false_iff, !negb_false_iff in H.
    destruct H as [[-> ->] ->]. reflexivity. }
  split; [exact Hcreated|].
  split.
  { intros H. rewrite Himg, H. reflexivity. }
  split.
  { intros H. rewrite Himg.
    destruct (JSString.strict_ne _ _) eqn:E; [reflexivity|].
    apply strict_ne_false in E. contradiction. }
  split.
  { intros H. rewrite Hcats, H. reflexivity. }
  split.
  { intros H. rewrite Hcats.
    now destruct (AddRecipePage.parsedCategories _). }
  split; [intros cat; apply parsedCategories_spec|].
  split; [exact Hname | exact Huid].
Qed.

Lemma create_inserts_cleaned_document_witness :
  exists data,
    List.filter AddRecipePage.is_AddDoc
      (snd (AddRecipePage.handleSubmit owner_u1 noon accept blank_optionals))
    = [AddRecipePage.AddDoc "recipes" data]
    /\ AddRecipePage.RecipeFormData.ingredients data
       = AddRecipePage.ingredients blank_optionals
    /\ AddRecipePage.RecipeFormData.createdAt data = noon
    /\ (JSString.trim (AddRecipePage.imageUrl blank_optionals) = "" ->
        AddRecipePage.RecipeFormData.imageUrl data = None)
    /\ (JSString.trim (AddRecipePage.imageUrl blank_optionals) <> "" ->
        AddRecipePage.RecipeFormData.imageUrl data
        = Some (JSString.trim (AddRecipePage.imageUrl blank_optionals)))
    /\ (AddRecipePage.parsedCategories
          (AddRecipePage.categories blank_optionals) = [] ->
        AddRecipePage.RecipeFormData.categories data = None)
    /\ (AddRecipePage.parsedCategories
          (AddRecipePage.categories blank_optionals) <> [] ->
        AddRecipePage.RecipeFormData.categories data
        = Some (AddRecipePage.parsedCategories
                  (AddRecipePage.categories blank_optionals)))
    /\ (forall cat,
           In cat (AddRecipePage.parsedCategories
                     (AddRecipePage.categories blank_optionals))
           <-> cat <> ""
               /\ exists piece,
                   In piece (JSString.split_comma
                               (AddRecipePage.categories blank_optionals))
                   /\ cat = JSString.trim piece)
    /\ AddRecipePage.RecipeFormData.name data
       = AddRecipePage.recipeName blank_optionals
    /\ AddRecipePage.RecipeFormData.userId data = AuthContext.uid owner_u1.
Proof.
  apply (create_inserts_cleaned_document owner_u1 noon accept blank_optionals).
  intros [H _]. vm_compute in H. discriminate H.
Defined.

(** The handler run on two drafts: one with blank optional fields, one with
    an image URL and categories to clean. *)
Example create_runs :
  snd (AddRecipePage.handleSubmit owner_u1 noon accept blank_optionals)
  = [AddRecipePage.AddDoc "recipes"
       {| AddRecipePage.RecipeFormData.name := "Soup";
          AddRecipePage.RecipeFormData.ingredients := [salt];
          AddRecipePage.RecipeFormData.instructions := ["Boil"];
          AddRecipePage.RecipeFormData.cookingTime := 10;
          AddRecipePage.RecipeFormData.servings := 2;
          AddRecipePage.RecipeFormData.userId := "u1";
          AddRecipePage.RecipeFormData.imageUrl := None;
          AddRecipePage.RecipeFormData.categories := None;
          AddRecipePage.RecipeFormData.createdAt := noon |};
     AddRecipePage.RouterPush "/recipes"]
  /\ snd (AddRecipePage.handleSubmit owner_u1 noon accept
            (draft [salt] ["Boil"] " http://x/soup.png "
               "Italian, Dinner ,, "))
     = [AddRecipePage.AddDoc "recipes"
          {| AddRecipePage.RecipeFormData.name := "Soup";
             AddRecipePage.RecipeFormData.ingredients := [salt];
             AddRecipePage.RecipeFormData.instructions := ["Boil"];
             AddRecipePage.RecipeFormData.cookingTime := 10;
             AddRecipePage.RecipeFormData.servings := 2;
             AddRecipePage.RecipeFormData.userId := "u1";
             AddRecipePage.RecipeFormData.imageUrl := Some "http://x/soup.png";
             AddRecipePage.RecipeFormData.categories :=
               Some ["Italian"; "Dinner"];
             AddRecipePage.RecipeFormData.createdAt := noon |};
        AddRecipePage.RouterPush "/recipes"]
  /\ AddRecipePage.handleSubmit owner_u1 noon accept
       (draft [AddRecipePage.Ingredient.mk "Salt" 0 "g"] ["Boil"] "" "")
     = ({| AddRecipePage.recipeName := "Soup";
           AddRecipePage.ingredients :=
             [AddRecipePage.Ingredient.mk "Salt" 0 "g"];
           AddRecipePage.instructions := ["Boil"];
           AddRecipePage.cookingTime := Some 10%float;
           AddRecipePage.servings := Some 2%float;
           AddRecipePage.imageUrl := "";
           AddRecipePage.categories := "";
           AddRecipePage.loading := false;
           AddRecipePage.error := Some AddRecipePage.validation_message;
           AddRecipePage.success := None |}, []).
Proof. repeat split; reflexivity. Qed.

(** * Further properties of the code *)

(** ** String helpers of the creation form *)

Lemma trimStart_head (s : string) :
  match JSString.trimStart s with
  | EmptyString => all_ws s = true
  | String c _ => JSString.is_ws c = false
  end.
Proof.
  induction s as [|c s IH]; [reflexivity|].
  cbn. destruct (JSString.is_ws c) eqn:E; [exact IH|]. cbn. exact E.
Qed.

Lemma trimStart_all_ws (s : string) :
  all_ws s = true -> JSString.trimStart s = "".
Proof.
  induction s as [|c s IH]; [reflexivity|].
  cbn. intros H. apply andb_true_iff in H as [-> H]. auto.
Qed.

Lemma all_ws_trimStart (s : string) :
  all_ws (JSString.trimStart s) = true -> all_ws s = true.
Proof.
  induction s as [|c s IH]; [reflexivity|].
  cbn. destruct (JSString.is_ws c) eqn:E; cbn; [exact IH|].
  now rewrite E.
Qed.

Lemma trimEnd_empty (s : string) :
  JSString.trimEnd s = "" <-> all_ws s = true.
Proof.
  induction s as [|c s IH]; [easy|].
  cbn. destruct (JSString.trimEnd s) as [|d t].
  - destruct IH as [IH _]. rewrite (IH eq_refl), andb_true_r.
    destruct (JSString.is_ws c); easy.
  - split; [discriminate|]. intros H. apply andb_true_iff in H as [_ H].
    now apply IH in H.
Qed.

Lemma trimEnd_keeps_head (c : ascii) (s : string) :
  JSString.is_ws c = false ->
  JSString.trimEnd (String c s) = String c (JSString.trimEnd s).
Proof. intros H. cbn. rewrite H. now destruct (JSString.trimEnd s). Qed.

Lemma trimEnd_idem (s : string) :
  JSString.trimEnd (JSString.trimEnd s) = JSString.trimEnd s.
Proof.
  induction s as [|c s IH]; [reflexivity|].
  cbn. destruct (JSString.trimEnd s) as [|d t] eqn:E.
  - destruct (JSString.is_ws c) eqn:Ec; [reflexivity|]. cbn. now rewrite Ec.
  - change (JSString.trimEnd (String c (String d t)))
      with (match JSString.trimEnd (String d t) with
            | EmptyString =>
                if JSString.is_ws c then EmptyString else String c EmptyString
            | u => String c u
            end).
    now rewrite IH.
Qed.

Lemma trimEnd_last (s : string) :
  match last_char (JSString.trimEnd s) with
  | Some c => JSString.is_ws c = false
  | None => JSString.trimEnd s = ""
  end.
Proof.
  induction s as [|c s IH]; [reflexivity|].
  cbn. destruct (JSString.trimEnd s) as [|d t].
  - destruct (JSString.is_ws c) eqn:E; [reflexivity|]. cbn. exact E.
  - change (last_char (String c (String d t)))
      with (last_char (String d t)).
    destruct (last_char (String d t)); [exact IH | discriminate IH].
Qed.

Lemma trim_unfold (s : string) :
  JSString.trim s
  = match JSString.trimStart s with
    | EmptyString => EmptyString
    | String c t => String c (JSString.trimEnd t)
    end.
Proof.
  unfold JSString.trim. pose proof (trimStart_head s) as H.
  destruct (JSString.trimStart s) as [|c t]; [reflexivity|].
  now apply trimEnd_keeps_head.
Qed.

Lemma trim_empty_iff (s : string) : JSString.trim s = "" <-> all_ws s = true.
Proof.
  unfold JSString.trim. rewrite trimEnd_empty. split.
  - apply all_ws_trimStart.
  - intros H. now rewrite (trimStart_all_ws _ H).
Qed.

Lemma trim_idem (s : string) : JSString.trim (JSString.trim s) = JSString.trim s.
Proof.
  rewrite (trim_unfold s). pose proof (trimStart_head s) as H.
  destruct (JSString.trimStart s) as [|c t]; [reflexivity|].
  unfold JSString.trim. cbn [JSString.trimStart]. rewrite H.
  rewrite (trimEnd_keeps_head _ _ H). now rewrite trimEnd_idem.
Qed.

Lemma trimStart_split (s : string) :
  exists pre, s = pre ++ JSString.trimStart s /\ all_ws pre = true.
Proof.
  induction s as [|c s (pre & IH & Hpre)]; [now exists ""|].
  cbn [JSString.trimStart]. destruct (JSString.is_ws c) eqn:E.
  - exists (String c pre). split.
    + change (String c s = String c (pre ++ JSString.trimStart s)).
      f_equal. exact IH.
    + cbn. now rewrite E, Hpre.
  - now exists "".
Qed.

Lemma trimEnd_split (s : string) :
  exists post, s = JSString.trimEnd s ++ post /\ all_ws post = true.
Proof.
  induction s as [|c s (post & IH & Hpost)]; [now exists ""|].
  cbn [JSString.trimEnd]. destruct (JSString.trimEnd s) as [|d t].
  - change (s = post) in IH. subst post.
    destruct (JSString.is_ws c) eqn:E.
    + exists (String c s). cbn. now rewrite E, Hpost.
    + now exists s.
  - exists post. split; [|exact Hpost].
    change (String c s = String c (String d t ++ post)).
    f_equal. exact IH.
Qed.

(** [trim] gives the empty string exactly for strings of white space
    only; otherwise its result starts and ends with a code unit that is
    not white space; trimming twice is trimming once; and the result is
    the string without a prefix and a suffix of white space. *)
Theorem trim_is_a_trim (s : string) :
  (JSString.trim s = "" <-> all_ws s = true)
  /\ match first_char (JSString.trim s) with
     | Some c => JSString.is_ws c = false
     | None => all_ws s = true
     end
  /\ match last_char (JSString.trim s) with
     | Some c => JSString.is_ws c = false
     | None => all_ws s = true
     end
  /\ JSString.trim (JSString.trim s) = JSString.trim s
  /\ exists pre post,
       s = pre ++ JSString.trim s ++ post
       /\ all_ws pre = true /\ all_ws post = true.
Proof.
  split; [apply trim_empty_iff|].
  split; [|split; [|split; [apply trim_idem|]]].
  3: { destruct (trimStart_split s) as (pre & Hs & Hpre).
       destruct (trimEnd_split (JSString.trimStart s)) as (post & Ht & Hpost).
       exists pre, post. unfold JSString.trim. now rewrite <- Ht. }
  - rewrite trim_unfold. pose proof (trimStart_head s) as H.
    destruct (JSString.trimStart s) as [|c t] eqn:E; cbn; [|exact H].
    apply all_ws_trimStart. now rewrite E.
  - pose proof (trimEnd_last (JSString.trimStart s)) as H.
    fold (JSString.trim s) in H.
    destruct (last_char (JSString.trim s)); [exact H|].
    now apply trim_empty_iff.
Qed.

Lemma split_comma_cons (s : string) :
  exists piece pieces, JSString.split_comma s = piece :: pieces.
Proof.
  induction s as [|c s (piece & pieces & IH)]; [now exists "", []|].
  cbn. destruct (Ascii.eqb c ","); [eauto|]. rewrite IH. eauto.
Qed.

Lemma concat_cons (sep x : string) (xs : list string) :
  xs <> [] -> String.concat sep (x :: xs) = x ++ sep ++ String.concat sep xs.
Proof. now destruct xs. Qed.

Lemma split_comma_join (s : string) :
  String.concat "," (JSString.split_comma s) = s.
Proof.
  induction s as [|c s IH]; [reflexivity|].
  cbn [JSString.split_comma]. destruct (Ascii.eqb c ",") eqn:E.
  - apply Ascii.eqb_eq in E. subst c.
    destruct (split_comma_cons s) as (piece & pieces & Hs).
    rewrite concat_cons by (rewrite Hs; discriminate).
    now rewrite IH.
  - destruct (split_comma_cons s) as (piece & pieces & Hs).
    rewrite Hs in *. destruct pieces as [|q qs].
    + cbn in *. now rewrite IH.
    + rewrite concat_cons in * by discriminate.
      change (String c (piece ++ "," ++ String.concat "," (q :: qs))
              = String c s).
      now rewrite IH.
Qed.

Lemma split_comma_length (s : string) :
  length (JSString.split_comma s) = S (count_commas s).
Proof.
  induction s as [|c s IH]; [reflexivity|].
  cbn. destruct (Ascii.eqb c ","); cbn; [now rewrite IH|].
  destruct (split_comma_cons s) as (piece & pieces & Hs).
  rewrite Hs in *. exact IH.
Qed.

Lemma split_comma_pieces (s : string) :
  List.Forall (fun piece => has_comma piece = false) (JSString.split_comma s).
Proof.
  induction s as [|c s IH]; [now repeat constructor|].
  cbn. destruct (Ascii.eqb c ",") eqn:E; [now constructor|].
  destruct (split_comma_cons s) as (piece & pieces & Hs).
  rewrite Hs in *. inversion IH as [|? ? Hp Hps]; subst.
  constructor; [|exact Hps]. cbn. now rewrite E.
Qed.

Lemma split_comma_single (piece : string) :
  has_comma piece = false -> JSString.split_comma piece = [piece].
Proof.
  induction piece as [|c p IH]; [reflexivity|].
  cbn. intros H. apply orb_false_iff in H as [-> H]. now rewrite IH.
Qed.

Lemma split_comma_app (piece rest : string) :
  has_comma piece = false ->
  JSString.split_comma (piece ++ String "," rest)
  = piece :: JSString.split_comma rest.
Proof.
  induction piece as [|c p IH]; [reflexivity|].
  intros H. cbn in H. apply orb_false_iff in H as [Hc H].
  change (String c p ++ String "," rest)
    with (String c (p ++ String "," rest)).
  cbn [JSString.split_comma]. now rewrite Hc, IH.
Qed.

Lemma split_comma_of_join (pieces : list string) :
  pieces <> [] ->
  List.Forall (fun piece => has_comma piece = false) pieces ->
  JSString.split_comma (String.concat "," pieces) = pieces.
Proof.
  induction pieces as [|p ps IH]; [easy|].
  intros _ H. inversion H as [|? ? Hp Hps]; subst.
  destruct ps as [|q qs]; [now apply split_comma_single|].
  rewrite concat_cons by discriminate.
  change ("," ++ String.concat "," (q :: qs))
    with (String "," (String.concat "," (q :: qs))).
  rewrite split_comma_app by exact Hp.
  now rewrite IH.
Qed.

(** [split(',')] and joining with commas are inverse to each other:
    joining the pieces of a string gives the string back, and splitting the
    join of comma-free pieces gives the pieces back. A string with n commas
    has n + 1 pieces, none of which holds a comma; in particular the empty
    string has the one piece "". *)
Theorem split_comma_join_round_trip (s : string) :
  String.concat "," (JSString.split_comma s) = s
  /\ length (JSString.split_comma s) = S (count_commas s)
  /\ List.Forall (fun piece => has_comma piece = false)
       (JSString.split_comma s)
  /\ (forall pieces,
         pieces <> [] ->
         List.Forall (fun piece => has_comma piece = false) pieces ->
         JSString.split_comma (String.concat "," pieces) = pieces).
Proof.
  split; [apply split_comma_join|]. split; [apply split_comma_length|].
  split; [apply split_comma_pieces|]. apply split_comma_of_join.
Qed.

Lemma has_comma_app (a b : string) :
  has_comma (a ++ b) = has_comma a || has_comma b.
Proof.
  induction a as [|c a IH]; [reflexivity|].
  change (String c a ++ b) with (String c (a ++ b)).
  cbn. now rewrite IH, orb_assoc.
Qed.

Lemma has_comma_trim (s : string) :
  has_comma s = false -> has_comma (JSString.trim s) = false.
Proof.
  destruct (trimStart_split s) as (pre & Hs & _).
  destruct (trimEnd_split (JSString.trimStart s)) as (post & Ht & _).
  fold (JSString.trim s) in Ht. rewrite Hs, Ht at 1.
  rewrite !has_comma_app, !orb_false_iff. tauto.
Qed.

Lemma all_ws_or_comma_pieces (s : string) :
  all_ws_or_comma s = forallb all_ws (JSString.split_comma s).
Proof.
  induction s as [|c s IH]; [reflexivity|].
  cbn. destruct (Ascii.eqb c ",") eqn:E; [exact IH|].
  destruct (split_comma_cons s) as (piece & pieces & Hs).
  rewrite Hs in *. cbn in *. now rewrite IH, andb_assoc.
Qed.

Lemma parsedCategories_nil (cats : string) :
  AddRecipePage.parsedCategories cats = []
  <-> all_ws_or_comma cats = true.
Proof.
  rewrite all_ws_or_comma_pieces. unfold AddRecipePage.parsedCategories.
  induction (JSString.split_comma cats) as [|p ps IH]; [easy|].
  cbn. unfold JSString.strict_ne at 1.
  destruct (String.eqb (JSString.trim p) "") eqn:E; cbn.
  - apply String.eqb_eq, trim_empty_iff in E. now rewrite E.
  - split; [discriminate|]. intros H. apply andb_true_iff in H as [H _].
    apply trim_empty_iff, String.eqb_eq in H. congruence.
Qed.

(** X1. The categories an insert stores: every one is non-empty, holds no
    comma and is already trimmed; there are at most as many as the field
    has commas, plus one; and there are none exactly when the field holds
    nothing but commas and white space. *)
Theorem parsedCategories_are_clean (cats : string) :
  (AddRecipePage.parsedCategories cats = []
   <-> all_ws_or_comma cats = true)
  /\ List.Forall (fun cat => cat <> ""
                             /\ JSString.trim cat = cat
                             /\ has_comma cat = false)
       (AddRecipePage.parsedCategories cats)
  /\ length (AddRecipePage.parsedCategories cats) <= S (count_commas cats).
Proof.
  split; [apply parsedCategories_nil|]. split.
  - apply List.Forall_forall. intros cat Hin.
    apply parsedCategories_spec in Hin as (Hne & piece & Hpiece & ->).
    split; [exact Hne|]. split; [apply trim_idem|].
    apply has_comma_trim.
    pose proof (split_comma_pieces cats) as H.
    rewrite List.Forall_forall in H. now apply H.
  - unfold AddRecipePage.parsedCategories.
    etransitivity; [apply List.filter_length_le|].
    rewrite length_map, split_comma_length. reflexivity.
Qed.

(** ** Creation form: the dynamic lists *)

Lemma filter_other_index_past {A : Type} (index from : nat) (arr : list A) :
  index < from -> AddRecipePage.filter_other_index index from arr = arr.
Proof.
  revert from. induction arr as [|x arr IH]; intros from H; [reflexivity|].
  cbn. destruct (Nat.eqb_spec from index) as [->|_]; [lia|].
  cbn. rewrite IH by lia. reflexivity.
Qed.

Lemma filter_other_index_split {A : Type} (index from : nat) (arr : list A) :
  from <= index ->
  AddRecipePage.filter_other_index index from arr
  = (take (index - from) arr ++ drop (S (index - from)) arr)%list.
Proof.
  revert from. induction arr as [|x arr IH]; intros from H.
  - now rewrite take_nil, drop_nil.
  - cbn [AddRecipePage.filter_other_index].
    destruct (Nat.eqb_spec from index) as [->|Hne]; cbn [negb].
    + rewrite Nat.sub_diag. cbn. rewrite drop_0.
      apply filter_other_index_past. lia.
    + rewrite IH by lia.
      replace (index - from) with (S (index - S from)) by lia.
      reflexivity.
Qed.

Lemma setIngredients_same (st : AddRecipePage.State) :
  AddRecipePage.setIngredients (AddRecipePage.ingredients st) st = st.
Proof. now destruct st. Qed.

Lemma setInstructions_same (st : AddRecipePage.State) :
  AddRecipePage.setInstructions (AddRecipePage.instructions st) st = st.
Proof. now destruct st. Qed.

(** X2. Removing row [index] of the ingredients or of the instructions
    leaves the rows before it, followed by the rows after it, and nothing
    else of the form changes; the list gets one shorter when the row
    exists, and the whole state stays as it is when it does not. *)
Theorem remove_row_removes_one (index : nat) (st : AddRecipePage.State) :
  AddRecipePage.removeIngredient index st
  = AddRecipePage.setIngredients
      (take index (AddRecipePage.ingredients st)
       ++ drop (S index) (AddRecipePage.ingredients st))%list st
  /\ AddRecipePage.removeInstruction index st
     = AddRecipePage.setInstructions
         (take index (AddRecipePage.instructions st)
          ++ drop (S index) (AddRecipePage.instructions st))%list st
  /\ (index < length (AddRecipePage.ingredients st) ->
      S (length (AddRecipePage.ingredients
                   (AddRecipePage.removeIngredient index st)))
      = length (AddRecipePage.ingredients st))
  /\ (index < length (AddRecipePage.instructions st) ->
      S (length (AddRecipePage.instructions
                   (AddRecipePage.removeInstruction index st)))
      = length (AddRecipePage.instructions st))
  /\ (length (AddRecipePage.ingredients st) <= index ->
      AddRecipePage.removeIngredient index st = st)
  /\ (length (AddRecipePage.instructions st) <= index ->
      AddRecipePage.removeInstruction index st = st).
Proof.
  unfold AddRecipePage.removeIngredient, AddRecipePage.removeInstruction.
  rewrite !filter_other_index_split by lia. rewrite !Nat.sub_0_r.
  split; [reflexivity|]. split; [reflexivity|].
  split; [|split; [|split]]; intros H; cbn.
  - rewrite length_app, length_take, length_drop. lia.
  - rewrite length_app, length_take, length_drop. lia.
  - rewrite take_ge, drop_ge, app_nil_r by lia. apply setIngredients_same.
  - rewrite take_ge, drop_ge, app_nil_r by lia. apply setInstructions_same.
Qed.

Lemma blank_ingredient_blocks currentUser now addDoc st :
  In (AddRecipePage.Ingredient.mk "" 0 "") (AddRecipePage.ingredients st) ->
  AddRecipePage.validation_error
    (AddRecipePage.handleSubmit currentUser now addDoc st).
Proof.
  intros H. apply handleSubmit_validation, required_fields_missing_iff.
  right; left. eexists. split; [exact H|]. now left.
Qed.

Lemma blank_instruction_blocks currentUser now addDoc st :
  In "" (AddRecipePage.instructions st) ->
  AddRecipePage.validation_error
    (AddRecipePage.handleSubmit currentUser now addDoc st).
Proof.
  intros H. apply handleSubmit_validation, required_fields_missing_iff.
  right; right; left. exact H.
Qed.

(** X3. A row just added is blank, and a form with that row is rejected by
    the validation of [handleSubmit], whatever else it holds: nothing is
    sent until the row is filled in or removed. Removing the added row
    gives back the state before it was added. *)
Theorem added_row_blocks_submit
    (currentUser : AuthContext.User) (now : Timestamp)
    (addDoc : string -> AddRecipePage.RecipeFormData.t -> Completion string)
    (st : AddRecipePage.State) :
  AddRecipePage.validation_error
    (AddRecipePage.handleSubmit currentUser now addDoc
       (AddRecipePage.addIngredient st))
  /\ AddRecipePage.validation_error
       (AddRecipePage.handleSubmit currentUser now addDoc
          (AddRecipePage.addInstruction st))
  /\ AddRecipePage.removeIngredient (length (AddRecipePage.ingredients st))
       (AddRecipePage.addIngredient st) = st
  /\ AddRecipePage.removeInstruction (length (AddRecipePage.instructions st))
       (AddRecipePage.addInstruction st) = st.
Proof.
  split; [|split; [|split]].
  - apply blank_ingredient_blocks. cbn. apply in_or_app. right. now left.
  - apply blank_instruction_blocks. cbn. apply in_or_app. right. now left.
  - unfold AddRecipePage.removeIngredient.
    rewrite filter_other_index_split by lia. rewrite Nat.sub_0_r.
    cbn [AddRecipePage.addIngredient AddRecipePage.setIngredients
         AddRecipePage.ingredients].
    rewrite take_app_length, drop_ge by (rewrite length_app; cbn; lia).
    rewrite app_nil_r. now destruct st.
  - unfold AddRecipePage.removeInstruction.
    rewrite filter_other_index_split by lia. rewrite Nat.sub_0_r.
    cbn [AddRecipePage.addInstruction AddRecipePage.setInstructions
         AddRecipePage.instructions].
    rewrite take_app_length, drop_ge by (rewrite length_app; cbn; lia).
    rewrite app_nil_r. now destruct st.
Qed.

(** X4. Editing a field of row [index] changes that field of that row and
    nothing else: the other two fields of the row, the other rows, the
    number of rows and the rest of the form stay as they were. When there
    is no row [index] the handler throws and no state is set. *)
Theorem ingredient_edit_is_local
    (index : nat) (edit : AddRecipePage.IngredientEdit)
    (st : AddRecipePage.State) :
  (forall ing,
      AddRecipePage.ingredients st !! index = Some ing ->
      exists st' ing',
        AddRecipePage.handleIngredientChange index edit st = Normal st'
        /\ AddRecipePage.ingredients st' !! index = Some ing'
        /\ match edit with
           | AddRecipePage.EditName value =>
               ing' = AddRecipePage.Ingredient.mk value
                        (AddRecipePage.Ingredient.quantity ing)
                        (AddRecipePage.Ingredient.unit ing)
           | AddRecipePage.EditQuantity value =>
               ing' = AddRecipePage.Ingredient.mk
                        (AddRecipePage.Ingredient.name ing) value
                        (AddRecipePage.Ingredient.unit ing)
           | AddRecipePage.EditUnit value =>
               ing' = AddRecipePage.Ingredient.mk
                        (AddRecipePage.Ingredient.name ing)
                        (AddRecipePage.Ingredient.quantity ing) value
           end
        /\ (forall other,
               other <> index ->
               AddRecipePage.ingredients st' !! other
               = AddRecipePage.ingredients st !! other)
        /\ length (AddRecipePage.ingredients st')
           = length (AddRecipePage.ingredients st)
        /\ st' = AddRecipePage.setIngredients
                   (AddRecipePage.ingredients st') st)
  /\ (length (AddRecipePage.ingredients st) <= index ->
      exists msg,
        AddRecipePage.handleIngredientChange index edit st
        = Throw (TypeError msg)).
Proof.
  unfold AddRecipePage.handleIngredientChange. split.
  - intros ing Hing. rewrite Hing. do 2 eexists. split; [reflexivity|].
    cbn [AddRecipePage.ingredients AddRecipePage.setIngredients].
    split.
    { apply list_lookup_insert_eq. now apply lookup_lt_Some in Hing. }
    split; [now destruct edit|].
    split; [intros other Hne; now apply list_lookup_insert_ne|].
    split; [apply length_insert | reflexivity].
  - intros H. rewrite (lookup_ge_None_2 _ _ H). eauto.
Qed.

(** ** Creation form: submitting *)

(** X5. When a valid draft is sent and the store rejects the insert, the
    form keeps everything the user typed, shows "Failed to add recipe.
    Please try again.", is no longer loading, and has sent the insert once,
    logged the error and pushed no route: no retry and no redirect. *)
Theorem create_store_failure_keeps_draft
    (currentUser : AuthContext.User) (now : Timestamp)
    (addDoc : string -> AddRecipePage.RecipeFormData.t -> Completion string)
    (st : AddRecipePage.State) (err : exn) :
  AddRecipePage.required_fields_missing st = false ->
  addDoc "recipes" (AddRecipePage.recipeData currentUser now st)
  = Throw err ->
  AddRecipePage.handleSubmit currentUser now addDoc st
  = ({| AddRecipePage.recipeName := AddRecipePage.recipeName st;
        AddRecipePage.ingredients := AddRecipePage.ingredients st;
        AddRecipePage.instructions := AddRecipePage.instructions st;
        AddRecipePage.cookingTime := AddRecipePage.cookingTime st;
        AddRecipePage.servings := AddRecipePage.servings st;
        AddRecipePage.imageUrl := AddRecipePage.imageUrl st;
        AddRecipePage.categories := AddRecipePage.categories st;
        AddRecipePage.loading := false;
        AddRecipePage.error := Some "Failed to add recipe. Please try again.";
        AddRecipePage.success := None |},
      [AddRecipePage.AddDoc "recipes"
         (AddRecipePage.recipeData currentUser now st);
       AddRecipePage.ConsoleError "Error adding document: " err])
  /\ ~ AddRecipePage.validation_error
         (AddRecipePage.handleSubmit currentUser now addDoc st).
Proof.
  intros Hok Hfail. split.
  - unfold AddRecipePage.handleSubmit. now rewrite Hok, Hfail.
  - rewrite handleSubmit_validation, Hok. discriminate.
Qed.

Lemma create_store_failure_keeps_draft_witness :
  AddRecipePage.handleSubmit owner_u1 noon refuse
    (draft [salt] ["Boil"] "" "")
  = ({| AddRecipePage.recipeName :=
          AddRecipePage.recipeName (draft [salt] ["Boil"] "" "");
        AddRecipePage.ingredients :=
          AddRecipePage.ingredients (draft [salt] ["Boil"] "" "");
        AddRecipePage.instructions :=
          AddRecipePage.instructions (draft [salt] ["Boil"] "" "");
        AddRecipePage.cookingTime :=
          AddRecipePage.cookingTime (draft [salt] ["Boil"] "" "");
        AddRecipePage.servings :=
          AddRecipePage.servings (draft [salt] ["Boil"] "" "");
        AddRecipePage.imageUrl :=
          AddRecipePage.imageUrl (draft [salt] ["Boil"] "" "");
        AddRecipePage.categories :=
          AddRecipePage.categories (draft [salt] ["Boil"] "" "");
        AddRecipePage.loading := false;
        AddRecipePage.error := Some "Failed to add recipe. Please try again.";
        AddRecipePage.success := None |},
      [AddRecipePage.AddDoc "recipes"
         (AddRecipePage.recipeData owner_u1 noon
            (draft [salt] ["Boil"] "" ""));
       AddRecipePage.ConsoleError "Error adding document: "
         (FirebaseError "unavailable")])
  /\ ~ AddRecipePage.validation_error
         (AddRecipePage.handleSubmit owner_u1 noon refuse
            (draft [salt] ["Boil"] "" "")).
Proof.
  apply (create_store_failure_keeps_draft owner_u1 noon refuse
           (draft [salt] ["Boil"] "" "") (FirebaseError "unavailable"));
    reflexivity.
Defined.

(** X6. When a valid draft is sent and the store accepts it, the handler
    sends the insert, then pushes "/recipes"; the form is back at its
    starting values with the success message; and submitting that form
    again is rejected by the validation, so a second submit cannot insert
    the recipe twice. *)
Theorem create_success_resets_form
    (currentUser : AuthContext.User) (now : Timestamp)
    (addDoc : string -> AddRecipePage.RecipeFormData.t -> Completion string)
    (st : AddRecipePage.State) (new_id : string) :
  AddRecipePage.required_fields_missing st = false ->
  addDoc "recipes" (AddRecipePage.recipeData currentUser now st)
  = Normal new_id ->
  AddRecipePage.handleSubmit currentUser now addDoc st
  = ({| AddRecipePage.recipeName :=
          AddRecipePage.recipeName AddRecipePage.initial;
        AddRecipePage.ingredients :=
          AddRecipePage.ingredients AddRecipePage.initial;
        AddRecipePage.instructions :=
          AddRecipePage.instructions AddRecipePage.initial;
        AddRecipePage.cookingTime :=
          AddRecipePage.cookingTime AddRecipePage.initial;
        AddRecipePage.servings :=
          AddRecipePage.servings AddRecipePage.initial;
        AddRecipePage.imageUrl :=
          AddRecipePage.imageUrl AddRecipePage.initial;
        AddRecipePage.categories :=
          AddRecipePage.categories AddRecipePage.initial;
        AddRecipePage.loading := false;
        AddRecipePage.error := None;
        AddRecipePage.success := Some "Recipe added successfully!" |},
      [AddRecipePage.AddDoc "recipes"
         (AddRecipePage.recipeData currentUser now st);
       AddRecipePage.RouterPush "/recipes"])
  /\ (forall currentUser' now' addDoc',
         snd (AddRecipePage.handleSubmit currentUser' now' addDoc'
                (fst (AddRecipePage.handleSubmit currentUser now addDoc st)))
         = []).
Proof.
  intros Hok Hdone.
  assert (H : AddRecipePage.handleSubmit currentUser now addDoc st
              = ({| AddRecipePage.recipeName := "";
                    AddRecipePage.ingredients :=
                      [AddRecipePage.Ingredient.mk "" 0 ""];
                    AddRecipePage.instructions := [""];
                    AddRecipePage.cookingTime := None;
                    AddRecipePage.servings := None;
                    AddRecipePage.imageUrl := "";
                    AddRecipePage.categories := "";
                    AddRecipePage.loading := false;
                    AddRecipePage.error := None;
                    AddRecipePage.success :=
                      Some "Recipe added successfully!" |},
                 [AddRecipePage.AddDoc "recipes"
                    (AddRecipePage.recipeData currentUser now st);
                  AddRecipePage.RouterPush "/recipes"])).
  { unfold AddRecipePage.handleSubmit. now rewrite Hok, Hdone. }
  split; [exact H|]. intros. rewrite H. reflexivity.
Qed.

Lemma create_success_resets_form_witness :
  AddRecipePage.handleSubmit owner_u1 noon accept
    (draft [salt] ["Boil"] "" "")
  = ({| AddRecipePage.recipeName :=
          AddRecipePage.recipeName AddRecipePage.initial;
        AddRecipePage.ingredients :=
          AddRecipePage.ingredients AddRecipePage.initial;
        AddRecipePage.instructions :=
          AddRecipePage.instructions AddRecipePage.initial;
        AddRecipePage.cookingTime :=
          AddRecipePage.cookingTime AddRecipePage.initial;
        AddRecipePage.servings :=
          AddRecipePage.servings AddRecipePage.initial;
        AddRecipePage.imageUrl :=
          AddRecipePage.imageUrl AddRecipePage.initial;
        AddRecipePage.categories :=
          AddRecipePage.categories AddRecipePage.initial;
        AddRecipePage.loading := false;
        AddRecipePage.error := None;
        AddRecipePage.success := Some "Recipe added successfully!" |},
      [AddRecipePage.AddDoc "recipes"
         (AddRecipePage.recipeData owner_u1 noon
            (draft [salt] ["Boil"] "" ""));
       AddRecipePage.RouterPush "/recipes"])
  /\ (forall currentUser' now' addDoc',
         snd (AddRecipePage.handleSubmit currentUser' now' addDoc'
                (fst (AddRecipePage.handleSubmit owner_u1 noon accept
                        (draft [salt] ["Boil"] "" ""))))
         = []).
Proof.
  apply (create_success_resets_form owner_u1 noon accept
           (draft [salt] ["Boil"] "" "") "new-id"); reflexivity.
Defined.

Lemma filter_fixpoint {A : Type} (keep : A -> bool) (l : list A) :
  List.filter keep l = l <-> forall x, In x l -> keep x = true.
Proof.
  split.
  - intros H x Hin. rewrite <- H in Hin. now apply filter_In in Hin.
  - induction l as [|x l IH]; [reflexivity|]. intros H. cbn.
    rewrite (H x) by now left. f_equal. apply IH. intros y Hy.
    apply H. now right.
Qed.

Lemma filter_nil_iff {A : Type} (keep : A -> bool) (l : list A) :
  List.filter keep l = [] <-> forall x, In x l -> keep x = false.
Proof.
  induction l as [|x l IH]; [easy|]. cbn. split.
  - destruct (keep x) eqn:E; [discriminate|]. intros H y [<- | Hy]; [exact E|].
    now apply IH.
  - intros H. rewrite (H x) by now left. apply IH. intros y Hy.
    apply H. now right.
Qed.

Lemma nonblank_step (step : string) :
  JSString.strict_ne (JSString.trim step) "" = negb (all_ws step).
Proof.
  unfold JSString.strict_ne. f_equal.
  destruct (all_ws step) eqn:E.
  - apply String.eqb_eq. now apply trim_empty_iff.
  - apply String.eqb_neq. intros H. apply trim_empty_iff in H. congruence.
Qed.

Lemma recipeData_instructions currentUser now st :
  AddRecipePage.RecipeFormData.instructions
    (AddRecipePage.recipeData currentUser now st)
  = List.filter (fun step => negb (all_ws step))
      (AddRecipePage.instructions st).
Proof.
  unfold AddRecipePage.recipeData.
  destruct (JSString.strict_ne _ _);
    destruct (0 <? length _)%nat; cbn;
    apply filter_ext; intros step; apply nonblank_step.
Qed.

(** X7. The instructions an insert stores are the steps of the draft that
    hold something other than white space, in the order of the draft.
    They are all of the draft's steps exactly when no step is blank, and
    there are none exactly when every step is blank; the steps themselves
    are stored untrimmed, as typed. *)
Theorem stored_instructions_drop_blank_steps
    (currentUser : AuthContext.User) (now : Timestamp)
    (st : AddRecipePage.State) :
  AddRecipePage.RecipeFormData.instructions
    (AddRecipePage.recipeData currentUser now st)
  = List.filter (fun step => negb (all_ws step))
      (AddRecipePage.instructions st)
  /\ (forall step,
         In step (AddRecipePage.RecipeFormData.instructions
                    (AddRecipePage.recipeData currentUser now st))
         <-> In step (AddRecipePage.instructions st) /\ all_ws step = false)
  /\ (AddRecipePage.RecipeFormData.instructions
        (AddRecipePage.recipeData currentUser now st)
      = AddRecipePage.instructions st
      <-> forall step,
           In step (AddRecipePage.instructions st) -> all_ws step = false)
  /\ (AddRecipePage.RecipeFormData.instructions
        (AddRecipePage.recipeData currentUser now st) = []
      <-> forall step,
           In step (AddRecipePage.instructions st) -> all_ws step = true).
Proof.
  rewrite recipeData_instructions.
  split; [reflexivity|]. split; [|split].
  - intros step. rewrite filter_In, negb_true_iff. reflexivity.
  - rewrite filter_fixpoint. split; intros Hall step Hin;
      specialize (Hall step Hin); now destruct (all_ws step).
  - rewrite filter_nil_iff. split; intros Hall step Hin;
      specialize (Hall step Hin); now destruct (all_ws step).
Qed.

(** ** Creation form: who sees it *)

(** X8. For every history of the session store, the creation page shows
    its form exactly when the session is Authenticated and pushes "/login"
    exactly when the session is Anonymous. As long as the provider has
    delivered nothing it pushes nothing, and below [AuthProvider], which
    renders its children only once resolved, its own loading line is never
    what it shows. *)
Theorem add_page_guard (evs : list AuthContext.Event) :
  (AddRecipePage.screen (AuthContext.run evs) = AddRecipePage.FormScreen
   <-> exists u, AuthContext.session_of (AuthContext.run evs)
                 = AuthContext.Authenticated u)
  /\ (AddRecipePage.redirect (AuthContext.run evs) = ["/login"]
      <-> AuthContext.session_of (AuthContext.run evs)
          = AuthContext.Anonymous)
  /\ (AddRecipePage.redirect (AuthContext.run evs) = []
      <-> AuthContext.session_of (AuthContext.run evs)
          <> AuthContext.Anonymous)
  /\ (existsb AuthContext.is_callback evs = false ->
      AddRecipePage.redirect (AuthContext.run evs) = []
      /\ AddRecipePage.screen (AuthContext.run evs)
         = AddRecipePage.AuthLoadingScreen)
  /\ (AuthContext.renders_children (AuthContext.run evs) = true ->
      AddRecipePage.screen (AuthContext.run evs)
      <> AddRecipePage.AuthLoadingScreen).
Proof.
  split; [|split; [|split; [|split]]].
  5: { unfold AuthContext.renders_children, AddRecipePage.screen.
       destruct (AuthContext.loading _); [discriminate|].
       now destruct (AuthContext.currentUser _). }
  4: { intros H. unfold AuthContext.run.
       now rewrite (no_callback_no_change _ _ H). }
  all: unfold AddRecipePage.screen, AddRecipePage.redirect,
         AuthContext.session_of;
       destruct (AuthContext.loading (AuthContext.run evs));
       destruct (AuthContext.currentUser (AuthContext.run evs)); cbn;
       split; try congruence; try (intros (? & ?)); try discriminate;
       eauto.
Qed.

(** ** From the creation form to the read paths *)

Lemma document_of_fields (data : AddRecipePage.RecipeFormData.t) :
  field (AddRecipePage.document_of data) "name"
  = JStr (AddRecipePage.RecipeFormData.name data)
  /\ field (AddRecipePage.document_of data) "ingredients"
     = JArr (List.map AddRecipePage.ingredient_value
               (AddRecipePage.RecipeFormData.ingredients data))
  /\ field (AddRecipePage.document_of data) "instructions"
     = JArr (List.map JStr (AddRecipePage.RecipeFormData.instructions data))
  /\ field (AddRecipePage.document_of data) "cookingTime"
     = JNum (AddRecipePage.RecipeFormData.cookingTime data)
  /\ field (AddRecipePage.document_of data) "servings"
     = JNum (AddRecipePage.RecipeFormData.servings data)
  /\ field (AddRecipePage.document_of data) "userId"
     = JStr (AddRecipePage.RecipeFormData.userId data)
  /\ field (AddRecipePage.document_of data) "imageUrl"
     = match AddRecipePage.RecipeFormData.imageUrl data with
       | Some url => JStr url
       | None => JUndefined
       end
  /\ field (AddRecipePage.document_of data) "categories"
     = match AddRecipePage.RecipeFormData.categories data with
       | Some cats => JArr (List.map JStr cats)
       | None => JUndefined
       end
  /\ field (AddRecipePage.document_of data) "createdAt"
     = JTimestamp
         (ts_seconds (AddRecipePage.RecipeFormData.createdAt data))
         (ts_nanoseconds (AddRecipePage.RecipeFormData.createdAt data)).
Proof.
  unfold field, AddRecipePage.document_of.
  destruct (AddRecipePage.RecipeFormData.imageUrl data);
    destruct (AddRecipePage.RecipeFormData.categories data);
    repeat split; by simplify_map_eq.
Qed.

(** The Recipe a read path is expected to give for a stored draft, up to
    [createdAt]. *)
Lemma shaped_document_of currentUser now st doc_id created :
  AddRecipePage.required_fields_missing st = false ->
  AuthContext.uid currentUser <> "" ->
  shaped doc_id
    (field (AddRecipePage.document_of
              (AddRecipePage.recipeData currentUser now st))) created
  = {| Recipe.id := doc_id;
       Recipe.name := JStr (AddRecipePage.recipeName st);
       Recipe.ingredients :=
         JArr (List.map AddRecipePage.ingredient_value
                 (AddRecipePage.ingredients st));
       Recipe.instructions :=
         JArr (List.map JStr
                 (List.filter (fun step => negb (all_ws step))
                    (AddRecipePage.instructions st)));
       Recipe.cookingTime :=
         JNum (AddRecipePage.Number (AddRecipePage.cookingTime st));
       Recipe.servings :=
         JNum (AddRecipePage.Number (AddRecipePage.servings st));
       Recipe.userId := JStr (AuthContext.uid currentUser);
       Recipe.imageUrl := JStr (JSString.trim (AddRecipePage.imageUrl st));
       Recipe.categories :=
         JArr (List.map JStr
                 (AddRecipePage.parsedCategories
                    (AddRecipePage.categories st)));
       Recipe.createdAt := created |}.
Proof.
  intros Hok Huid.
  destruct (document_of_fields (AddRecipePage.recipeData currentUser now st))
    as (H1 & H2 & H3 & H4 & H5 & H6 & H7 & H8 & _).
  destruct (recipeData_fields currentUser now st)
    as (Hname & Hing & Hu & _ & Himg & Hcats).
  pose proof (recipeData_instructions currentUser now st) as Hsteps.
  unfold shaped. rewrite H1, H2, H3, H4, H5, H6, H7, H8.
  rewrite Hname, Hu, Himg, Hcats, Hsteps.
  assert (Hkeep : AddRecipePage.RecipeFormData.ingredients
                    (AddRecipePage.recipeData currentUser now st)
                  = AddRecipePage.ingredients st).
  { rewrite Hing. unfold AddRecipePage.required_fields_missing in Hok.
    rewrite !orb_false_iff in Hok. destruct Hok as [[[[_ Hings] _] _] _].
    apply filter_keeps_all with (2 := Hings). intros ing H.
    rewrite !orb_false_iff, !negb_false_iff in H.
    destruct H as [[-> ->] ->]. reflexivity. }
  rewrite Hkeep.
  assert (Hn : AddRecipePage.recipeName st <> "").
  { intros E. unfold AddRecipePage.required_fields_missing in Hok.
    rewrite E in Hok. discriminate Hok. }
  assert (Ht : AddRecipePage.RecipeFormData.cookingTime
                 (AddRecipePage.recipeData currentUser now st)
               = AddRecipePage.Number (AddRecipePage.cookingTime st)
               /\ AddRecipePage.RecipeFormData.servings
                    (AddRecipePage.recipeData currentUser now st)
                  = AddRecipePage.Number (AddRecipePage.servings st)).
  { unfold AddRecipePage.recipeData.
    destruct (JSString.strict_ne _ _); destruct (0 <? length _)%nat;
      now cbn. }
  destruct Ht as [-> ->].
  f_equal; unfold or_else, coalesce; cbn.
  - destruct (AddRecipePage.recipeName st); [contradiction|reflexivity].
  - destruct (AuthContext.uid currentUser); [contradiction|reflexivity].
  - destruct (JSString.strict_ne _ _) eqn:E; cbn.
    + destruct (JSString.trim (AddRecipePage.imageUrl st)); [|reflexivity].
      discriminate E.
    + apply strict_ne_false in E. now rewrite E.
  - now destruct (AddRecipePage.parsedCategories _).
Qed.

(** X9. Reading back what the creation form stores: for a draft that
    passes validation, submitted by a user with a non-empty uid, mapping
    the stored document on the list page or on the detail page gives the
    draft's name, its ingredients, its non-blank steps, its cookingTime and
    servings, the user's uid, the trimmed image URL and the parsed
    categories. No default replaces a value the user gave, and the two
    optional fields left out of the document read back as the empty string
    and the empty list, which is what trimming and parsing gave. The detail
    page reads createdAt as the call's timestamp itself; the list page reads
    it as the Date [toDate()] makes of that timestamp in binary64, which for
    a timestamp of whole milliseconds within the bounds of the store, the
    only kind [Timestamp.now()] gives, is the instant seconds * 1000 +
    milliseconds. Strings are sequences of code units below 256. *)
Theorem created_recipe_reads_back
    (currentUser : AuthContext.User) (now : Timestamp)
    (st : AddRecipePage.State) (doc_id : string) :
  AddRecipePage.required_fields_missing st = false ->
  AuthContext.uid currentUser <> "" ->
  exists r_list r_detail,
    RecipesPage.mapDoc doc_id
      (AddRecipePage.document_of
         (AddRecipePage.recipeData currentUser now st)) = Normal r_list
    /\ RecipeDetailPage.fetchedRecipe
         {| snap_id := doc_id;
            snap_data :=
              Some (AddRecipePage.document_of
                      (AddRecipePage.recipeData currentUser now st)) |}
       = Normal r_detail
    /\ Recipe.createdAt r_list
       = JDate (FirestoreTimestamp.toDate_time
                  (ts_seconds now) (ts_nanoseconds now))
    /\ (forall millis : Z,
           FirestoreTimestamp.in_range (ts_seconds now) (ts_nanoseconds now)
           = true ->
           ts_nanoseconds now = (millis * 1000000)%Z ->
           Recipe.createdAt r_list = JDate (ts_seconds now * 1000 + millis))
    /\ Recipe.createdAt r_detail
       = JTimestamp (ts_seconds now) (ts_nanoseconds now)
    /\ forall r,
         r = r_list \/ r = r_detail ->
         Recipe.id r = doc_id
         /\ Recipe.name r = JStr (AddRecipePage.recipeName st)
         /\ Recipe.ingredients r
            = JArr (List.map AddRecipePage.ingredient_value
                      (AddRecipePage.ingredients st))
         /\ Recipe.instructions r
            = JArr (List.map JStr
                      (List.filter (fun step => negb (all_ws step))
                         (AddRecipePage.instructions st)))
         /\ Recipe.cookingTime r
            = JNum (AddRecipePage.Number (AddRecipePage.cookingTime st))
         /\ Recipe.servings r
            = JNum (AddRecipePage.Number (AddRecipePage.servings st))
         /\ Recipe.userId r = JStr (AuthContext.uid currentUser)
         /\ Recipe.imageUrl r
            = JStr (JSString.trim (AddRecipePage.imageUrl st))
         /\ Recipe.categories r
            = JArr (List.map JStr
                      (AddRecipePage.parsedCategories
                         (AddRecipePage.categories st))).
Proof.
  intros Hok Huid. do 2 eexists.
  split; [apply mapDoc_eq|]. split; [apply fetchedRecipe_eq|].
  cbn [snap_field].
  rewrite !(shaped_document_of _ _ _ _ _ Hok Huid).
  destruct (document_of_fields (AddRecipePage.recipeData currentUser now st))
    as (_ & _ & _ & _ & _ & _ & _ & _ & ->).
  destruct (recipeData_fields currentUser now st)
    as (_ & _ & _ & -> & _ & _).
  cbn [Recipe.createdAt list_createdAt or_else truthy].
  split; [reflexivity|]. split; [|split; [reflexivity|]].
  - intros millis Hr Hns. rewrite Hns in *. f_equal.
    unfold FirestoreTimestamp.in_range, FirestoreTimestamp.MIN_SECONDS,
      FirestoreTimestamp.MAX_SECONDS in Hr.
    rewrite !andb_true_iff in Hr. destruct Hr as [[[H1 H2] H3] H4].
    apply Z.leb_le in H1, H3. apply Z.ltb_lt in H2, H4.
    assert (Hp : (2 ^ 53 = 9007199254740992)%Z) by reflexivity.
    apply toDate_time_whole; lia.
  - intros r [-> | ->]; cbn; repeat split; reflexivity.
Qed.

Lemma created_recipe_reads_back_witness :
  exists r_list r_detail,
    RecipesPage.mapDoc "new-id"
      (AddRecipePage.document_of
         (AddRecipePage.recipeData owner_u1 noon blank_optionals))
    = Normal r_list
    /\ RecipeDetailPage.fetchedRecipe
         {| snap_id := "new-id";
            snap_data :=
              Some (AddRecipePage.document_of
                      (AddRecipePage.recipeData owner_u1 noon
                         blank_optionals)) |}
       = Normal r_detail
    /\ Recipe.createdAt r_list
       = JDate (FirestoreTimestamp.toDate_time
                  (ts_seconds noon) (ts_nanoseconds noon))
    /\ (forall millis : Z,
           FirestoreTimestamp.in_range (ts_seconds noon) (ts_nanoseconds noon)
           = true ->
           ts_nanoseconds noon = (millis * 1000000)%Z ->
           Recipe.createdAt r_list = JDate (ts_seconds noon * 1000 + millis))
    /\ Recipe.createdAt r_detail
       = JTimestamp (ts_seconds noon) (ts_nanoseconds noon)
    /\ forall r,
         r = r_list \/ r = r_detail ->
         Recipe.id r = "new-id"
         /\ Recipe.name r = JStr (AddRecipePage.recipeName blank_optionals)
         /\ Recipe.ingredients r
            = JArr (List.map AddRecipePage.ingredient_value
                      (AddRecipePage.ingredients blank_optionals))
         /\ Recipe.instructions r
            = JArr (List.map JStr
                      (List.filter (fun step => negb (all_ws step))
                         (AddRecipePage.instructions blank_optionals)))
         /\ Recipe.cookingTime r
            = JNum (AddRecipePage.Number
                      (AddRecipePage.cookingTime blank_optionals))
         /\ Recipe.servings r
            = JNum (AddRecipePage.Number
                      (AddRecipePage.servings blank_optionals))
         /\ Recipe.userId r = JStr (AuthContext.uid owner_u1)
         /\ Recipe.imageUrl r
            = JStr (JSString.trim (AddRecipePage.imageUrl blank_optionals))
         /\ Recipe.categories r
            = JArr (List.map JStr
                      (AddRecipePage.parsedCategories
                         (AddRecipePage.categories blank_optionals))).
Proof.
  apply (created_recipe_reads_back owner_u1 noon blank_optionals "new-id");
    [reflexivity | discriminate].
Defined.

(** X10. The creator of a recipe is its owner: on the detail page of a
    recipe stored from a valid draft, the edit link is offered to the user
    who submitted it, and to another user exactly when that user has the
    same uid. *)
Theorem creator_owns_created_recipe
    (currentUser viewer : AuthContext.User) (now : Timestamp)
    (st : AddRecipePage.State) (doc_id : string) :
  AddRecipePage.required_fields_missing st = false ->
  AuthContext.uid currentUser <> "" ->
  exists r,
    RecipeDetailPage.fetchedRecipe
      {| snap_id := doc_id;
         snap_data :=
           Some (AddRecipePage.document_of
                   (AddRecipePage.recipeData currentUser now st)) |}
    = Normal r
    /\ RecipeDetailPage.isOwner (Some currentUser) r = true
    /\ (RecipeDetailPage.isOwner (Some viewer) r = true
        <-> AuthContext.uid viewer = AuthContext.uid currentUser)
    /\ RecipeDetailPage.isOwner None r = false.
Proof.
  intros Hok Huid. eexists. split; [apply fetchedRecipe_eq|].
  cbn [snap_field]. rewrite (shaped_document_of _ _ _ _ _ Hok Huid).
  unfold RecipeDetailPage.isOwner, strict_eq_str. cbn.
  split; [apply String.eqb_refl|]. split; [apply String.eqb_eq | reflexivity].
Qed.

Lemma creator_owns_created_recipe_witness :
  exists r,
    RecipeDetailPage.fetchedRecipe
      {| snap_id := "new-id";
         snap_data :=
           Some (AddRecipePage.document_of
                   (AddRecipePage.recipeData owner_u1 noon
                      blank_optionals)) |}
    = Normal r
    /\ RecipeDetailPage.isOwner (Some owner_u1) r = true
    /\ (RecipeDetailPage.isOwner (Some owner_u1) r = true
        <-> AuthContext.uid owner_u1 = AuthContext.uid owner_u1)
    /\ RecipeDetailPage.isOwner None r = false.
Proof.
  apply (creator_owns_created_recipe owner_u1 owner_u1 noon blank_optionals
           "new-id"); [reflexivity | discriminate].
Defined.

(** ** List page and detail page: fetching *)

Lemma map_shaped_ids (docs : list (string * gmap string jsval)) :
  List.map Recipe.id
    (List.map (fun doc => shaped (fst doc) (field (snd doc))
                            (list_createdAt (field (snd doc) "createdAt")))
       docs)
  = List.map fst docs.
Proof. rewrite List.map_map. now apply List.map_ext. Qed.

Lemma array_map_not_array {A : Type} (v : jsval)
    (callback : jsval -> Completion A) :
  JSX.is_array v = false -> exists e, JSX.array_map v callback = Throw e.
Proof. destruct v; try discriminate; cbn; eauto. Qed.

(** A card whose [ingredients] or [instructions] is not an array throws. *)
Lemma card_throws (P : JSX.Platform) (r : Recipe.t) :
  JSX.is_array (Recipe.ingredients r) = false
  \/ JSX.is_array (Recipe.instructions r) = false ->
  exists e, RecipesPage.card P r = Throw e.
Proof.
  unfold RecipesPage.card. intros [H | H].
  - destruct (array_map_not_array _ JSX.ingredient_line H) as (e & ->).
    cbn. eauto.
  - destruct (JSX.array_map (Recipe.ingredients r) _); [|cbn; eauto].
    destruct (array_map_not_array _ Normal H) as (e & ->). cbn. eauto.
Qed.

(** Recipes of the declared type give one card each. *)
Lemma cards_typed (P : JSX.Platform) (l : list Recipe.t) :
  List.Forall (fun r => Recipe.is_Recipe r = true) l ->
  exists cards,
    mapM (RecipesPage.card P) l = Normal cards
    /\ List.map RecipesPage.href cards
       = List.map (fun r => "/recipes/" ++ Recipe.id r) l
    /\ (List.Forall (fun r => JSX.image_mounts P (JSX.image r) = true) l ->
        forallb (RecipesPage.card_mounts P) cards = true).
Proof.
  induction 1 as [|r l Hr _ IH]; [now exists []|].
  destruct IH as (cards & Hcards & Hhref & Hmounts).
  destruct (card_typed P r Hr) as (c & Hc & Hh & Hm).
  exists (c :: cards). cbn [mapM]. rewrite Hc, Hcards.
  split; [reflexivity|]. split.
  - cbn [List.map]. now rewrite Hh, Hhref.
  - intros Himg. inversion Himg as [|? ? Hi Hl]; subst.
    cbn [forallb]. now rewrite (Hm Hi), (Hmounts Hl).
Qed.

(** X11. The list page after its fetch, started from the state it mounts
    with: loading is over whatever happened; when the scan succeeds there
    is one recipe per document, in the order of the scan and under the
    document's id, and the page shows the "no recipes" line exactly when
    the scan was empty. A scan that is not empty gives one card per
    document, each linking to the document's detail page, when every
    recipe has the types of the page's [Recipe] interface, and the grid is
    on screen when moreover every image mounts; but a single document whose
    [ingredients] or [instructions] is a truthy value other than an array
    makes the whole page throw. When the scan fails the page shows its
    error line and holds no recipe. A failed fetch also leaves the recipes
    of any earlier state as they were. *)
Theorem list_page_after_fetch
    (P : JSX.Platform)
    (getDocs : Completion (list (string * gmap string jsval)))
    (st : RecipesPage.State) :
  RecipesPage.loading (RecipesPage.fetchRecipes getDocs st) = false
  /\ (forall docs,
         getDocs = Normal docs ->
         List.map Recipe.id
           (RecipesPage.recipes (RecipesPage.fetchRecipes getDocs st))
         = List.map fst docs
         /\ RecipesPage.error (RecipesPage.fetchRecipes getDocs st)
            = RecipesPage.error st
         /\ (RecipesPage.render P
               (RecipesPage.fetchRecipes getDocs RecipesPage.initial)
             = Normal RecipesPage.EmptyView <-> docs = [])
         /\ (docs <> [] ->
             List.Forall (fun r => Recipe.is_Recipe r = true)
               (RecipesPage.recipes
                  (RecipesPage.fetchRecipes getDocs RecipesPage.initial)) ->
             exists cards,
               RecipesPage.render P
                 (RecipesPage.fetchRecipes getDocs RecipesPage.initial)
               = Normal (RecipesPage.GridView cards)
               /\ List.map RecipesPage.href cards
                  = List.map (fun doc => "/recipes/" ++ fst doc) docs
               /\ (List.Forall
                     (fun r => JSX.image_mounts P (JSX.image r) = true)
                     (RecipesPage.recipes
                        (RecipesPage.fetchRecipes getDocs
                           RecipesPage.initial)) ->
                   RecipesPage.displayed P
                     (RecipesPage.render P
                        (RecipesPage.fetchRecipes getDocs
                           RecipesPage.initial))
                   = true))
         /\ (forall doc,
                In doc docs ->
                (truthy (field (snd doc) "ingredients") = true
                 /\ JSX.is_array (field (snd doc) "ingredients") = false)
                \/ (truthy (field (snd doc) "instructions") = true
                    /\ JSX.is_array (field (snd doc) "instructions")
                       = false) ->
                (exists e,
                    RecipesPage.render P
                      (RecipesPage.fetchRecipes getDocs RecipesPage.initial)
                    = Throw e)
                /\ RecipesPage.displayed P
                     (RecipesPage.render P
                        (RecipesPage.fetchRecipes getDocs
                           RecipesPage.initial))
                   = false))
  /\ (forall e,
         getDocs = Throw e ->
         RecipesPage.recipes (RecipesPage.fetchRecipes getDocs st)
         = RecipesPage.recipes st
         /\ RecipesPage.render P
              (RecipesPage.fetchRecipes getDocs RecipesPage.initial)
            = Normal
                (RecipesPage.ErrorView
                   "Failed to loead recipes. Please try again later.")
         /\ RecipesPage.recipes
              (RecipesPage.fetchRecipes getDocs RecipesPage.initial) = []).
Proof.
  split; [|split].
  - unfold RecipesPage.fetchRecipes.
    now destruct (_ ← getDocs; mapM _ _).
  - intros docs ->. rewrite !fetchRecipes_ok.
    cbn [RecipesPage.recipes RecipesPage.error].
    split; [apply map_shaped_ids|]. split; [reflexivity|].
    unfold RecipesPage.render.
    cbn [RecipesPage.loading RecipesPage.error RecipesPage.initial
         RecipesPage.recipes].
    destruct docs as [|doc docs].
    { cbn. split; [easy|]. split; [easy|]. intros doc []. }
    set (recipes := List.map _ (doc :: docs)).
    assert (Hgrid : match recipes with
                    | [] => Normal RecipesPage.EmptyView
                    | _ :: _ =>
                        cards ← mapM (RecipesPage.card P) recipes;
                        Normal (RecipesPage.GridView cards)
                    end
                    = (cards ← mapM (RecipesPage.card P) recipes;
                       Normal (RecipesPage.GridView cards)))
      by reflexivity.
    rewrite Hgrid. clear Hgrid. split; [|split].
    + split; [|discriminate].
      now destruct (mapM (RecipesPage.card P) recipes).
    + intros _ Htyped.
      destruct (cards_typed P recipes Htyped) as (cards & -> & Hhref & Hm).
      exists cards. split; [reflexivity|]. split.
      * rewrite Hhref. subst recipes. rewrite List.map_map.
        now apply List.map_ext.
      * intros Himg. cbn. now apply Hm.
    + intros doc' Hin Hbad.
      assert (Hthrow : exists e, mapM (RecipesPage.card P) recipes = Throw e).
      { apply mapM_Throw
          with (x := shaped (fst doc') (field (snd doc'))
                       (list_createdAt (field (snd doc') "createdAt"))).
        - subst recipes.
          apply (List.in_map
                   (fun doc => shaped (fst doc) (field (snd doc))
                                 (list_createdAt (field (snd doc) "createdAt")))
                   _ _ Hin).
        - apply card_throws. unfold shaped, or_else.
          cbn [Recipe.ingredients Recipe.instructions].
          destruct Hbad as [[-> H] | [-> H]]; [left | right]; exact H. }
      destruct Hthrow as (e & ->). cbn. eauto.
  - intros e ->. repeat split; reflexivity.
Qed.

(** On the document whose [ingredients] is the string "salt" the list page
    throws at [recipe.ingredients.map], also when every other document of
    the scan is in order. *)
Example list_page_throws_on_string_ingredients :
  RecipesPage.render sample_platform
    (RecipesPage.fetchRecipes
       (Normal [("r1", late_timestamp_document); ("r2", salted)])
       RecipesPage.initial)
  = Throw (TypeError "map is not a function")
  /\ RecipesPage.displayed sample_platform
       (RecipesPage.render sample_platform
          (RecipesPage.fetchRecipes
             (Normal [("r1", late_timestamp_document)])
             RecipesPage.initial))
     = true.
Proof. split; reflexivity. Qed.

Lemma fetchRecipe_found
    (getDoc : string -> string -> Completion (option (gmap string jsval)))
    (recipeId : string) (d : gmap string jsval)
    (st : RecipeDetailPage.State) :
  getDoc "recipes" recipeId = Normal (Some d) ->
  RecipeDetailPage.fetchRecipe getDoc recipeId st
  = {| RecipeDetailPage.recipe :=
         Some (shaped recipeId (field d)
                 (or_else (field d "createdAt") JUndefined));
       RecipeDetailPage.loading := false;
       RecipeDetailPage.error := RecipeDetailPage.error st |}.
Proof.
  intros H. unfold RecipeDetailPage.fetchRecipe. rewrite H.
  cbn [mbind Completion_bind bind snap_exists snap_data negb].
  now rewrite fetchedRecipe_eq.
Qed.

(** X12. The detail page after a fetch: loading is over whatever happened.
    When the document exists the page holds its Recipe, under the id that
    was asked for, and leaves the error as it was; when the document is
    missing or the store fails it holds the error "Failed to load recipe."
    and leaves the recipe as it was. No fetch ever clears an error: from a
    state with an error, a later fetch that succeeds still ends in a state
    that renders the error line, not the recipe. *)
Theorem detail_page_after_fetch
    (getDoc : string -> string -> Completion (option (gmap string jsval)))
    (recipeId : string) (st : RecipeDetailPage.State) :
  RecipeDetailPage.loading (RecipeDetailPage.fetchRecipe getDoc recipeId st)
  = false
  /\ (forall d,
         getDoc "recipes" recipeId = Normal (Some d) ->
         exists r,
           RecipeDetailPage.recipe
             (RecipeDetailPage.fetchRecipe getDoc recipeId st) = Some r
           /\ Recipe.id r = recipeId
           /\ RecipeDetailPage.fetchedRecipe
                {| snap_id := recipeId; snap_data := Some d |} = Normal r
           /\ RecipeDetailPage.error
                (RecipeDetailPage.fetchRecipe getDoc recipeId st)
              = RecipeDetailPage.error st)
  /\ ((forall d, getDoc "recipes" recipeId <> Normal (Some d)) ->
      RecipeDetailPage.recipe
        (RecipeDetailPage.fetchRecipe getDoc recipeId st)
      = RecipeDetailPage.recipe st
      /\ RecipeDetailPage.error
           (RecipeDetailPage.fetchRecipe getDoc recipeId st)
         = Some "Failed to load recipe.")
  /\ (forall msg auth,
         RecipeDetailPage.error st = Some msg ->
         msg <> "" ->
         AuthContext.loading auth = false ->
         forall P,
           RecipeDetailPage.render P
             (RecipeDetailPage.fetchRecipe getDoc recipeId st) auth
           = Normal
               (RecipeDetailPage.ErrorView
                  (match getDoc "recipes" recipeId with
                   | Normal (Some _) => msg
                   | _ => "Failed to load recipe."
                   end))).
Proof.
  split; [|split; [|split]].
  - unfold RecipeDetailPage.fetchRecipe. now destruct (_ ← getDoc _ _; _).
  - intros d H. rewrite (fetchRecipe_found _ _ _ _ H). eexists.
    split; [reflexivity|]. split; [reflexivity|].
    split; [apply fetchedRecipe_eq | reflexivity].
  - intros H. unfold RecipeDetailPage.fetchRecipe.
    destruct (getDoc "recipes" recipeId) as [[d|]|e]; cbn.
    + now destruct (H d).
    + split; reflexivity.
    + split; reflexivity.
  - intros msg auth Herr Hmsg Hauth P.
    destruct (getDoc "recipes" recipeId) as [[d|]|e] eqn:E.
    + rewrite (fetchRecipe_found _ _ _ _ E).
      unfold RecipeDetailPage.render. cbn. rewrite Hauth, Herr.
      destruct msg; [contradiction|reflexivity].
    + unfold RecipeDetailPage.fetchRecipe, RecipeDetailPage.render.
      rewrite E. cbn. now rewrite Hauth.
    + unfold RecipeDetailPage.fetchRecipe, RecipeDetailPage.render.
      rewrite E. cbn. now rewrite Hauth.
Qed.

(** ** From the creation form to the screen *)

Lemma ingredient_values_typed (ings : list AddRecipePage.Ingredient.t) :
  forallb Recipe.is_Ingredient
    (List.map AddRecipePage.ingredient_value ings) = true.
Proof.
  induction ings as [|ing ings IH]; [reflexivity|].
  cbn [List.map forallb]. rewrite IH, andb_true_r.
  unfold Recipe.is_Ingredient, AddRecipePage.ingredient_value, field.
  by simplify_map_eq.
Qed.

Lemma strings_typed (l : list string) :
  forallb Recipe.is_string (List.map JStr l) = true.
Proof. induction l as [|x l IH]; [reflexivity|]. exact IH. Qed.

(** What the read paths make of a stored draft has the types of the
    [Recipe] interfaces. *)
Lemma created_is_Recipe currentUser now st doc_id created :
  AddRecipePage.required_fields_missing st = false ->
  AuthContext.uid currentUser <> "" ->
  Recipe.is_Recipe
    (shaped doc_id
       (field (AddRecipePage.document_of
                 (AddRecipePage.recipeData currentUser now st))) created)
  = true.
Proof.
  intros Hok Huid. rewrite (shaped_document_of _ _ _ _ _ Hok Huid).
  unfold Recipe.is_Recipe.
  cbn [Recipe.name Recipe.ingredients Recipe.instructions Recipe.cookingTime
       Recipe.servings Recipe.userId Recipe.imageUrl Recipe.categories
       Recipe.is_string Recipe.is_number Recipe.is_array_of
       Recipe.is_optional].
  now rewrite ingredient_values_typed, !strings_typed.
Qed.

Lemma created_image currentUser now st doc_id created :
  AddRecipePage.required_fields_missing st = false ->
  AuthContext.uid currentUser <> "" ->
  JSX.image
    (shaped doc_id
       (field (AddRecipePage.document_of
                 (AddRecipePage.recipeData currentUser now st))) created)
  = if str_truthy (JSString.trim (AddRecipePage.imageUrl st))
    then Some (JStr (JSString.trim (AddRecipePage.imageUrl st)),
               JStr (AddRecipePage.recipeName st))
    else None.
Proof.
  intros Hok Huid. rewrite (shaped_document_of _ _ _ _ _ Hok Huid).
  reflexivity.
Qed.

(** X21. From the creation form to the screen: a draft that passes
    validation, stored for a user with a non-empty uid, is a recipe both
    pages can show. Provided its image, if it has one, mounts, the list
    page shows the grid with its card, and the detail page shows the edit
    link to the user who submitted it, to another signed-in user exactly
    when that user has the same uid, and not to an anonymous visitor. *)
Theorem created_recipe_is_displayed
    (P : JSX.Platform) (currentUser viewer : AuthContext.User)
    (now : Timestamp) (st : AddRecipePage.State) (doc_id : string) :
  AddRecipePage.required_fields_missing st = false ->
  AuthContext.uid currentUser <> "" ->
  (JSString.trim (AddRecipePage.imageUrl st) <> "" ->
   JSX.Image_mounts P (JStr (JSString.trim (AddRecipePage.imageUrl st)))
     (JStr (AddRecipePage.recipeName st)) = true) ->
  let d := AddRecipePage.document_of
             (AddRecipePage.recipeData currentUser now st) in
  let page := RecipeDetailPage.fetchRecipe (fun _ _ => Normal (Some d))
                doc_id RecipeDetailPage.initial in
  RecipesPage.displayed P
    (RecipesPage.render P
       (RecipesPage.fetchRecipes (Normal [(doc_id, d)]) RecipesPage.initial))
  = true
  /\ (exists c,
         RecipesPage.render P
           (RecipesPage.fetchRecipes (Normal [(doc_id, d)])
              RecipesPage.initial)
         = Normal (RecipesPage.GridView [c])
         /\ RecipesPage.href c = "/recipes/" ++ doc_id)
  /\ RecipeDetailPage.shows_edit P
       (RecipeDetailPage.render P page (signed_in currentUser)) = true
  /\ (RecipeDetailPage.shows_edit P
         (RecipeDetailPage.render P page (signed_in viewer)) = true
      <-> AuthContext.uid viewer = AuthContext.uid currentUser)
  /\ RecipeDetailPage.shows_edit P
       (RecipeDetailPage.render P page
          (AuthContext.run [AuthContext.AuthStateChanged None]))
     = false.
Proof.
  intros Hok Huid Himage d page.
  assert (Himg : forall created,
             JSX.image_mounts P
               (JSX.image (shaped doc_id (field d) created)) = true).
  { intros created. subst d. rewrite (created_image _ _ _ _ _ Hok Huid).
    destruct (JSString.trim (AddRecipePage.imageUrl st)) eqn:E;
      [reflexivity|].
    cbn. apply Himage. discriminate. }
  split; [|split].
  - rewrite fetchRecipes_ok. unfold RecipesPage.render.
    cbn [RecipesPage.loading RecipesPage.error RecipesPage.initial
         RecipesPage.recipes List.map mapM fst snd].
    destruct (card_typed P _
                (created_is_Recipe currentUser now st doc_id
                   (list_createdAt (field d "createdAt")) Hok Huid))
      as (c & Hc & _ & Hm).
    fold d in Hc. rewrite Hc. cbn. now rewrite (Hm (Himg _)).
  - rewrite fetchRecipes_ok. unfold RecipesPage.render.
    cbn [RecipesPage.loading RecipesPage.error RecipesPage.initial
         RecipesPage.recipes List.map mapM fst snd].
    destruct (card_typed P _
                (created_is_Recipe currentUser now st doc_id
                   (list_createdAt (field d "createdAt")) Hok Huid))
      as (c & Hc & Hh & _).
    fold d in Hc. rewrite Hc. exists c. split; [reflexivity|exact Hh].
  - assert (Hpage : page
                    = {| RecipeDetailPage.recipe :=
                           Some (shaped doc_id (field d)
                                   (or_else (field d "createdAt") JUndefined));
                         RecipeDetailPage.loading := false;
                         RecipeDetailPage.error := None |}).
    { subst page. now rewrite (fetchRecipe_found _ _ d). }
    set (r := shaped doc_id (field d)
                (or_else (field d "createdAt") JUndefined)) in *.
    assert (Htyped : RecipeDetailPage.is_Recipe r = true).
    { unfold RecipeDetailPage.is_Recipe. subst r d.
      rewrite (created_is_Recipe _ _ _ _ _ Hok Huid).
      destruct (document_of_fields
                  (AddRecipePage.recipeData currentUser now st))
        as (_ & _ & _ & _ & _ & _ & _ & _ & ->).
      reflexivity. }
    assert (Hshow : forall auth,
               RecipeDetailPage.shows_edit P
                 (RecipeDetailPage.render P page auth) = true
               <-> AuthContext.loading auth = false
                   /\ RecipeDetailPage.isOwner
                        (AuthContext.currentUser auth) r = true).
    { intros auth.
      rewrite (shows_edit_loaded P page auth r)
        by (rewrite Hpage; reflexivity).
      split; [tauto|]. intros [Hl Ho]. split; [|now split].
      rewrite (render_loaded P page auth r) by (rewrite Hpage; reflexivity).
      rewrite Hl.
      destruct (jsx_typed P r
                  (RecipeDetailPage.isOwner (AuthContext.currentUser auth) r)
                  Htyped) as (dv & -> & Hm).
      exists dv. split; [reflexivity|]. apply Hm. subst r. apply Himg. }
    assert (Huser : Recipe.userId r = JStr (AuthContext.uid currentUser)).
    { subst r d. now rewrite (shaped_document_of _ _ _ _ _ Hok Huid). }
    split; [|split].
    + apply Hshow. split; [reflexivity|].
      cbn [signed_in AuthContext.run fold_left AuthContext.step
           AuthContext.initial AuthContext.currentUser
           RecipeDetailPage.isOwner].
      rewrite Huser. apply String.eqb_refl.
    + rewrite Hshow.
      cbn [signed_in AuthContext.run fold_left AuthContext.step
           AuthContext.initial AuthContext.currentUser AuthContext.loading
           RecipeDetailPage.isOwner].
      rewrite Huser. cbn [strict_eq_str]. rewrite String.eqb_eq. tauto.
    + destruct (RecipeDetailPage.shows_edit P _) eqn:E; [|reflexivity].
      apply Hshow in E as [_ E]. discriminate E.
Qed.

Lemma created_recipe_is_displayed_witness :
  RecipesPage.displayed sample_platform
    (RecipesPage.render sample_platform
       (RecipesPage.fetchRecipes
          (Normal [("new-id",
                    AddRecipePage.document_of
                      (AddRecipePage.recipeData owner_u1 noon
                         (draft [salt] ["Boil"] "" "")))])
          RecipesPage.initial))
  = true
  /\ (exists c,
         RecipesPage.render sample_platform
           (RecipesPage.fetchRecipes
              (Normal [("new-id",
                        AddRecipePage.document_of
                          (AddRecipePage.recipeData owner_u1 noon
                             (draft [salt] ["Boil"] "" "")))])
              RecipesPage.initial)
         = Normal (RecipesPage.GridView [c])
         /\ RecipesPage.href c = "/recipes/" ++ "new-id")
  /\ RecipeDetailPage.shows_edit sample_platform
       (RecipeDetailPage.render sample_platform
          (RecipeDetailPage.fetchRecipe
             (fun _ _ =>
                Normal (Some (AddRecipePage.document_of
                                (AddRecipePage.recipeData owner_u1 noon
                                   (draft [salt] ["Boil"] "" "")))))
             "new-id" RecipeDetailPage.initial)
          (signed_in owner_u1)) = true
  /\ (RecipeDetailPage.shows_edit sample_platform
         (RecipeDetailPage.render sample_platform
            (RecipeDetailPage.fetchRecipe
               (fun _ _ =>
                  Normal (Some (AddRecipePage.document_of
                                  (AddRecipePage.recipeData owner_u1 noon
                                     (draft [salt] ["Boil"] "" "")))))
               "new-id" RecipeDetailPage.initial)
            (signed_in owner_u1)) = true
      <-> AuthContext.uid owner_u1 = AuthContext.uid owner_u1)
  /\ RecipeDetailPage.shows_edit sample_platform
       (RecipeDetailPage.render sample_platform
          (RecipeDetailPage.fetchRecipe
             (fun _ _ =>
                Normal (Some (AddRecipePage.document_of
                                (AddRecipePage.recipeData owner_u1 noon
                                   (draft [salt] ["Boil"] "" "")))))
             "new-id" RecipeDetailPage.initial)
          (AuthContext.run [AuthContext.AuthStateChanged None]))
     = false.
Proof.
  apply (created_recipe_is_displayed sample_platform owner_u1 owner_u1 noon
           (draft [salt] ["Boil"] "" "") "new-id");
    [reflexivity | discriminate | intros _; reflexivity].
Defined.

(** ** Session store: the three operations *)

(** X13. [login] and [logout] hand the provider's rejection to their
    caller as it is, after logging it once, and leave the provider's
    session and the store untouched; they throw in no other case. When the
    provider accepts, [login] leaves the provider's session at the user
    signed in and [logout] leaves it empty, and nothing is logged. *)
Theorem login_logout_propagate
    (B : AuthContext.Backend) (email_ password : string)
    (w : AuthContext.World) :
  (forall err,
      fst (AuthContext.login B email_ password w) = Throw err
      <-> AuthContext.signIn_answer B email_ password = Throw err)
  /\ (forall err,
         AuthContext.signIn_answer B email_ password = Throw err ->
         snd (AuthContext.login B email_ password w)
         = {| AuthContext.provider_session := AuthContext.provider_session w;
              AuthContext.documents := AuthContext.documents w;
              AuthContext.console :=
                (AuthContext.console w ++ [("Login error:", err)])%list |})
  /\ (forall u,
         AuthContext.signIn_answer B email_ password = Normal u ->
         AuthContext.login B email_ password w
         = (Normal tt,
            {| AuthContext.provider_session := Some u;
               AuthContext.documents := AuthContext.documents w;
               AuthContext.console := AuthContext.console w |}))
  /\ (forall err,
         fst (AuthContext.logout B w) = Throw err
         <-> AuthContext.signOut_answer B = Some err)
  /\ (forall err,
         AuthContext.signOut_answer B = Some err ->
         snd (AuthContext.logout B w)
         = {| AuthContext.provider_session := AuthContext.provider_session w;
              AuthContext.documents := AuthContext.documents w;
              AuthContext.console :=
                (AuthContext.console w ++ [("Logout error:", err)])%list |})
  /\ (AuthContext.signOut_answer B = None ->
      AuthContext.logout B w
      = (Normal tt,
         {| AuthContext.provider_session := None;
            AuthContext.documents := AuthContext.documents w;
            AuthContext.console := AuthContext.console w |})).
Proof.
  unfold AuthContext.login, AuthContext.logout, AuthContext.try_catch,
    AuthContext.eff_bind, AuthContext.signInWithEmailAndPassword,
    AuthContext.signOut, AuthContext.console_error, AuthContext.throw,
    AuthContext.eff_ret.
  split; [|split; [|split; [|split; [|split]]]].
  - intros err.
    destruct (AuthContext.signIn_answer B email_ password); cbn;
      split; congruence.
  - intros err ->. reflexivity.
  - intros u ->. reflexivity.
  - intros err.
    destruct (AuthContext.signOut_answer B); cbn; split; congruence.
  - intros err ->. reflexivity.
  - intros ->. reflexivity.
Qed.

(** X14. [signup] when both services accept: it completes normally, the
    provider's session is the new user's, the profile record, with the
    user's email and the time of the call, is stored in "users" under the
    user's uid, every other document is as it was, and nothing is logged.
    When the provider rejects the sign-up, [signup] throws that rejection,
    logs it once, and neither the session nor the store changes. *)
Theorem signup_outcomes
    (B : AuthContext.Backend) (now : Z) (email_ password : string)
    (w : AuthContext.World) :
  (forall u,
      AuthContext.create_answer B email_ password = Normal u ->
      AuthContext.setDoc_answer B "users" (AuthContext.uid u)
        (AuthContext.profileRecord u now) = None ->
      exists w',
        AuthContext.signup B now email_ password w = (Normal tt, w')
        /\ AuthContext.provider_session w' = Some u
        /\ AuthContext.documents w' !! ("users", AuthContext.uid u)
           = Some (AuthContext.profileRecord u now)
        /\ (forall key,
               key <> ("users", AuthContext.uid u) ->
               AuthContext.documents w' !! key
               = AuthContext.documents w !! key)
        /\ field (AuthContext.profileRecord u now) "email"
           = match AuthContext.email u with
             | Some e => JStr e
             | None => JNull
             end
        /\ field (AuthContext.profileRecord u now) "createdAt" = JDate now
        /\ AuthContext.console w' = AuthContext.console w)
  /\ (forall err,
         AuthContext.create_answer B email_ password = Throw err ->
         AuthContext.signup B now email_ password w
         = (Throw err,
            {| AuthContext.provider_session := AuthContext.provider_session w;
               AuthContext.documents := AuthContext.documents w;
               AuthContext.console :=
                 (AuthContext.console w ++ [("Signup error:", err)])%list |})).
Proof.
  unfold AuthContext.signup, AuthContext.try_catch, AuthContext.eff_bind,
    AuthContext.createUserWithEmailAndPassword, AuthContext.setDoc.
  split.
  - intros u Hcreate Hwrite. rewrite Hcreate; cbn. rewrite Hwrite; cbn.
    eexists. split; [reflexivity|]. cbn.
    split; [reflexivity|]. split; [apply lookup_insert_eq|].
    split; [intros key Hkey; now apply lookup_insert_ne|].
    unfold field, AuthContext.profileRecord.
    repeat split; by simplify_map_eq.
  - intros err ->. reflexivity.
Qed.

(** ** Sign-up page, login page and navigation bar *)

(** X15. The sign-up form. When the two passwords differ it shows
    "Passwords do not match" and stops: whatever the services would
    answer, the world is as it was and no route is pushed. When they agree
    and the provider rejects the sign-up, the form shows the message of the
    rejection as it is, pushes no route, and the error has been logged
    twice, by the session store and by the page. When both services
    accept, the form shows no error and pushes "/recipes". In both of
    these cases loading is over. *)
Theorem signup_page_outcomes
    (B : AuthContext.Backend) (now : Z) (st : SignupPage.State)
    (w : AuthContext.World) :
  (SignupPage.password st <> SignupPage.passwordConfirm st ->
   SignupPage.handleSubmit B now st w
   = ({| SignupPage.email := SignupPage.email st;
         SignupPage.password := SignupPage.password st;
         SignupPage.passwordConfirm := SignupPage.passwordConfirm st;
         SignupPage.error := Some "Passwords do not match";
         SignupPage.loading := SignupPage.loading st |}, [], w))
  /\ (forall msg,
         SignupPage.password st = SignupPage.passwordConfirm st ->
         AuthContext.create_answer B (SignupPage.email st)
           (SignupPage.password st) = Throw (FirebaseError msg) ->
         SignupPage.handleSubmit B now st w
         = ({| SignupPage.email := SignupPage.email st;
               SignupPage.password := SignupPage.password st;
               SignupPage.passwordConfirm := SignupPage.passwordConfirm st;
               SignupPage.error := Some msg;
               SignupPage.loading := false |}, [],
            {| AuthContext.provider_session := AuthContext.provider_session w;
               AuthContext.documents := AuthContext.documents w;
               AuthContext.console :=
                 (AuthContext.console w
                  ++ [("Signup error:", FirebaseError msg);
                      ("Signup error:", FirebaseError msg)])%list |}))
  /\ (forall u,
         SignupPage.password st = SignupPage.passwordConfirm st ->
         AuthContext.create_answer B (SignupPage.email st)
           (SignupPage.password st) = Normal u ->
         AuthContext.setDoc_answer B "users" (AuthContext.uid u)
           (AuthContext.profileRecord u now) = None ->
         fst (SignupPage.handleSubmit B now st w)
         = ({| SignupPage.email := SignupPage.email st;
               SignupPage.password := SignupPage.password st;
               SignupPage.passwordConfirm := SignupPage.passwordConfirm st;
               SignupPage.error := None;
               SignupPage.loading := false |}, ["/recipes"])
         /\ AuthContext.provider_session
              (snd (SignupPage.handleSubmit B now st w)) = Some u).
Proof.
  unfold SignupPage.handleSubmit. split; [|split].
  - intros H.
    destruct (JSString.strict_ne _ _) eqn:E; [reflexivity|].
    now apply strict_ne_false in E.
  - intros msg Hpw Hcreate.
    apply strict_ne_false in Hpw. rewrite Hpw.
    unfold AuthContext.signup, AuthContext.try_catch, AuthContext.eff_bind,
      AuthContext.createUserWithEmailAndPassword.
    rewrite Hcreate; cbn. now rewrite <- app_assoc.
  - intros u Hpw Hcreate Hwrite.
    apply strict_ne_false in Hpw. rewrite Hpw.
    unfold AuthContext.signup, AuthContext.try_catch, AuthContext.eff_bind,
      AuthContext.createUserWithEmailAndPassword, AuthContext.setDoc.
    rewrite Hcreate; cbn. rewrite Hwrite; cbn. split; reflexivity.
Qed.

(** X16. Signing up when the account is created and the profile write is
    rejected: the sign-up form shows the store's message and pushes no
    route itself, and the error has been logged twice; but the provider
    holds the new session, so once the provider has delivered it to the
    session store the page's redirect effect pushes "/recipes", and the
    navigation bar greets the new user. *)
Theorem signup_page_after_profile_failure
    (B : AuthContext.Backend) (now : Z) (st : SignupPage.State)
    (w : AuthContext.World) (u : AuthContext.User) (msg : string)
    (auth : AuthContext.State) :
  SignupPage.password st = SignupPage.passwordConfirm st ->
  AuthContext.create_answer B (SignupPage.email st) (SignupPage.password st)
  = Normal u ->
  AuthContext.setDoc_answer B "users" (AuthContext.uid u)
    (AuthContext.profileRecord u now) = Some (FirebaseError msg) ->
  exists st' w',
    SignupPage.handleSubmit B now st w = (st', [], w')
    /\ SignupPage.error st' = Some msg
    /\ SignupPage.loading st' = false
    /\ AuthContext.provider_session w' = Some u
    /\ AuthContext.documents w' = AuthContext.documents w
    /\ AuthContext.console w'
       = (AuthContext.console w
          ++ [("Signup error:", FirebaseError msg);
              ("Signup error:", FirebaseError msg)])%list
    /\ SignupPage.redirect
         (AuthContext.step auth
            (AuthContext.AuthStateChanged (AuthContext.provider_session w')))
       = ["/recipes"]
    /\ Navigation.render
         (AuthContext.step auth
            (AuthContext.AuthStateChanged (AuthContext.provider_session w')))
       = Navigation.MemberBar (AuthContext.email u).
Proof.
  intros Hpw Hcreate Hwrite. unfold SignupPage.handleSubmit.
  apply strict_ne_false in Hpw. rewrite Hpw.
  unfold AuthContext.signup, AuthContext.try_catch, AuthContext.eff_bind,
    AuthContext.createUserWithEmailAndPassword, AuthContext.setDoc.
  rewrite Hcreate; cbn. rewrite Hwrite; cbn.
  do 2 eexists. split; [reflexivity|]. cbn.
  repeat split; try reflexivity. now rewrite <- app_assoc.
Qed.

Lemma signup_page_after_profile_failure_witness :
  exists st' w',
    SignupPage.handleSubmit offline_store 0 signup_form empty_world
    = (st', [], w')
    /\ SignupPage.error st' = Some "unavailable"
    /\ SignupPage.loading st' = false
    /\ AuthContext.provider_session w'
       = Some {| AuthContext.uid := "uid-1";
                 AuthContext.email := Some "a@b.com" |}
    /\ AuthContext.documents w' = AuthContext.documents empty_world
    /\ AuthContext.console w'
       = (AuthContext.console empty_world
          ++ [("Signup error:", FirebaseError "unavailable");
              ("Signup error:", FirebaseError "unavailable")])%list
    /\ SignupPage.redirect
         (AuthContext.step AuthContext.initial
            (AuthContext.AuthStateChanged (AuthContext.provider_session w')))
       = ["/recipes"]
    /\ Navigation.render
         (AuthContext.step AuthContext.initial
            (AuthContext.AuthStateChanged (AuthContext.provider_session w')))
       = Navigation.MemberBar
           (AuthContext.email
              {| AuthContext.uid := "uid-1";
                 AuthContext.email := Some "a@b.com" |}).
Proof.
  apply (signup_page_after_profile_failure offline_store 0 signup_form
           empty_world
           {| AuthContext.uid := "uid-1";
              AuthContext.email := Some "a@b.com" |}
           "unavailable" AuthContext.initial); reflexivity.
Defined.

(** X17. The login form: when the provider rejects the credentials the
    form shows the message of the rejection as it is and pushes no route,
    the provider's session is what it was, and the error has been logged
    twice; when the provider accepts, the form shows no error, pushes
    "/recipes", and the provider's session is the user's. Either way
    loading is over, and the typed email and password are still there. *)
Theorem login_page_outcomes
    (B : AuthContext.Backend) (st : LoginPage.State)
    (w : AuthContext.World) :
  (forall msg,
      AuthContext.signIn_answer B (LoginPage.email st) (LoginPage.password st)
      = Throw (FirebaseError msg) ->
      LoginPage.handleSubmit B st w
      = ({| LoginPage.email := LoginPage.email st;
            LoginPage.password := LoginPage.password st;
            LoginPage.error := Some msg;
            LoginPage.loading := false |}, [],
         {| AuthContext.provider_session := AuthContext.provider_session w;
            AuthContext.documents := AuthContext.documents w;
            AuthContext.console :=
              (AuthContext.console w
               ++ [("Login error:", FirebaseError msg);
                   ("Login error:", FirebaseError msg)])%list |}))
  /\ (forall u,
         AuthContext.signIn_answer B (LoginPage.email st)
           (LoginPage.password st) = Normal u ->
         LoginPage.handleSubmit B st w
         = ({| LoginPage.email := LoginPage.email st;
               LoginPage.password := LoginPage.password st;
               LoginPage.error := None;
               LoginPage.loading := false |}, ["/recipes"],
            {| AuthContext.provider_session := Some u;
               AuthContext.documents := AuthContext.documents w;
               AuthContext.console := AuthContext.console w |}))
  /\ (snd (fst (LoginPage.handleSubmit B st w)) = ["/recipes"]
      <-> exists u,
           AuthContext.signIn_answer B (LoginPage.email st)
             (LoginPage.password st) = Normal u).
Proof.
  unfold LoginPage.handleSubmit, AuthContext.login, AuthContext.try_catch,
    AuthContext.eff_bind, AuthContext.signInWithEmailAndPassword.
  split; [|split].
  - intros msg ->. cbn. now rewrite <- app_assoc.
  - intros u ->. reflexivity.
  - destruct (AuthContext.signIn_answer B _ _) as [u|e]; cbn; split.
    + eauto.
    + reflexivity.
    + discriminate.
    + intros (u & H). discriminate H.
Qed.

(** X18. Logging out from the navigation bar: "/login" is pushed exactly
    when the provider accepts the sign-out, and then its session is empty.
    When the provider rejects it the rejection leaves the handler
    uncaught, no route is pushed and the session is what it was. Once the
    session store is resolved, the bar offers Logout exactly to an
    Authenticated session. *)
Theorem logout_redirects_on_success
    (B : AuthContext.Backend) (w : AuthContext.World)
    (auth : AuthContext.State) :
  (fst (Navigation.handleLogout B w) = Normal ["/login"]
   <-> AuthContext.signOut_answer B = None)
  /\ (AuthContext.signOut_answer B = None ->
      AuthContext.provider_session (snd (Navigation.handleLogout B w)) = None)
  /\ (forall err,
         AuthContext.signOut_answer B = Some err ->
         fst (Navigation.handleLogout B w) = Throw err
         /\ AuthContext.provider_session (snd (Navigation.handleLogout B w))
            = AuthContext.provider_session w)
  /\ ((exists email_, Navigation.render auth = Navigation.MemberBar email_)
      <-> exists u, AuthContext.session_of auth = AuthContext.Authenticated u)
  /\ (Navigation.render auth = Navigation.GuestBar
      <-> AuthContext.session_of auth = AuthContext.Anonymous)
  /\ (Navigation.render auth = Navigation.NoBar
      <-> AuthContext.session_of auth = AuthContext.Unresolved).
Proof.
  unfold Navigation.handleLogout, AuthContext.logout, AuthContext.try_catch,
    AuthContext.signOut, Navigation.render, AuthContext.session_of.
  split; [|split; [|split; [|split; [|split]]]].
  - destruct (AuthContext.signOut_answer B); cbn; split; congruence.
  - intros ->. reflexivity.
  - intros err ->. split; reflexivity.
  - destruct (AuthContext.loading auth);
      destruct (AuthContext.currentUser auth); split;
      intros (? & ?); try discriminate; eauto.
  - destruct (AuthContext.loading auth);
      destruct (AuthContext.currentUser auth); split; congruence.
  - destruct (AuthContext.loading auth);
      destruct (AuthContext.currentUser auth); split; congruence.
Qed.

(** ** Session store: what it holds *)

(** X19. The session store holds what the provider delivered last: after
    any history that ends with a delivery followed by calls only, the
    current user is the delivered one and loading is over. So a current
    user is never present while the store is still loading, for any
    history. *)
Theorem session_store_follows_last_delivery
    (evs evs' : list AuthContext.Event) (user : option AuthContext.User) :
  (existsb AuthContext.is_callback evs' = false ->
   AuthContext.run (evs ++ AuthContext.AuthStateChanged user :: evs')
   = {| AuthContext.currentUser := user; AuthContext.loading := false |})
  /\ (AuthContext.loading (AuthContext.run evs) = true ->
      AuthContext.currentUser (AuthContext.run evs) = None).
Proof.
  split.
  - intros H. rewrite run_app. cbn [fold_left].
    now rewrite (no_callback_no_change _ _ H).
  - intros Hl. destruct (existsb AuthContext.is_callback evs) eqn:E.
    + exfalso. assert (H : existsb AuthContext.is_callback evs = false);
        [|congruence].
      apply unresolved_iff_no_callback.
      unfold AuthContext.session_of. now rewrite Hl.
    + unfold AuthContext.run. now rewrite (no_callback_no_change _ _ E).
Qed.

(** X20. After a logout that the provider accepts, once the provider has
    delivered its session to the store: the session is Anonymous, the bar
    shows the Login and Sign Up links, the creation page shows nothing and
    pushes "/login", and the detail page of any loaded recipe shows no
    edit link. *)
Theorem logout_then_delivery
    (B : AuthContext.Backend) (w : AuthContext.World)
    (auth : AuthContext.State) (page : RecipeDetailPage.State)
    (P : JSX.Platform) :
  AuthContext.signOut_answer B = None ->
  AuthContext.session_of
    (AuthContext.step auth
       (AuthContext.AuthStateChanged
          (AuthContext.provider_session (snd (AuthContext.logout B w)))))
  = AuthContext.Anonymous
  /\ Navigation.render
       (AuthContext.step auth
          (AuthContext.AuthStateChanged
             (AuthContext.provider_session (snd (AuthContext.logout B w)))))
     = Navigation.GuestBar
  /\ AddRecipePage.screen
       (AuthContext.step auth
          (AuthContext.AuthStateChanged
             (AuthContext.provider_session (snd (AuthContext.logout B w)))))
     = AddRecipePage.NoScreen
  /\ AddRecipePage.redirect
       (AuthContext.step auth
          (AuthContext.AuthStateChanged
             (AuthContext.provider_session (snd (AuthContext.logout B w)))))
     = ["/login"]
  /\ RecipeDetailPage.shows_edit P
       (RecipeDetailPage.render P page
          (AuthContext.step auth
             (AuthContext.AuthStateChanged
                (AuthContext.provider_session
                   (snd (AuthContext.logout B w))))))
     = false.
Proof.
  intros H.
  assert (Hs : AuthContext.provider_session (snd (AuthContext.logout B w))
               = None).
  { unfold AuthContext.logout, AuthContext.try_catch, AuthContext.signOut.
    now rewrite H. }
  rewrite Hs. cbn. repeat split; try reflexivity.
  unfold RecipeDetailPage.render.
  cbn [AuthContext.loading AuthContext.currentUser RecipeDetailPage.isOwner].
  destruct (RecipeDetailPage.loading page); [reflexivity|].
  cbn [orb].
  assert (Hnone : forall r,
             RecipeDetailPage.shows_edit P
               (d ← RecipeDetailPage.jsx P r false;
                Normal (RecipeDetailPage.DetailView d)) = false).
  { intros r. destruct (RecipeDetailPage.jsx P r false) as [d|e] eqn:E;
      [|reflexivity].
    cbn [mbind Completion_bind bind RecipeDetailPage.shows_edit].
    now rewrite (jsx_editLink _ _ _ _ E). }
  destruct (RecipeDetailPage.error page) as [[|c m]|];
    try reflexivity;
    destruct (RecipeDetailPage.recipe page); try reflexivity; apply Hnone.
Qed.

Lemma logout_then_delivery_witness :
  AuthContext.session_of
    (AuthContext.step AuthContext.initial
       (AuthContext.AuthStateChanged
          (AuthContext.provider_session
             (snd (AuthContext.logout offline_store empty_world)))))
  = AuthContext.Anonymous
  /\ Navigation.render
       (AuthContext.step AuthContext.initial
          (AuthContext.AuthStateChanged
             (AuthContext.provider_session
                (snd (AuthContext.logout offline_store empty_world)))))
     = Navigation.GuestBar
  /\ AddRecipePage.screen
       (AuthContext.step AuthContext.initial
          (AuthContext.AuthStateChanged
             (AuthContext.provider_session
                (snd (AuthContext.logout offline_store empty_world)))))
     = AddRecipePage.NoScreen
  /\ AddRecipePage.redirect
       (AuthContext.step AuthContext.initial
          (AuthContext.AuthStateChanged
             (AuthContext.provider_session
                (snd (AuthContext.logout offline_store empty_world)))))
     = ["/login"]
  /\ RecipeDetailPage.shows_edit sample_platform
       (RecipeDetailPage.render sample_platform loaded_page
          (AuthContext.step AuthContext.initial
             (AuthContext.AuthStateChanged
                (AuthContext.provider_session
                   (snd (AuthContext.logout offline_store empty_world))))))
     = false.
Proof.
  apply (logout_then_delivery offline_store empty_world AuthContext.initial
           loaded_page sample_platform). reflexivity.
Defined.
